(** * Publish hooks of DPS_CONFIG_DEV: a shallow embedding

    The repository is a set of Python hooks that run inside Maya under the
    ShotGrid Toolkit publisher, plus one workflow script.  The hooks are glue
    code: they query the scene through [cmds.*], issue commands to the host
    and to the tracking server, and raise or return.  The embedding below
    follows that shape:

    - queries of the scene are fields of an oracle record ([Host]), answered
      for the scene as it stands when the hook starts; of what the commands
      change, only the selection is carried along;
    - commands sent to the host, the framework and the server are recorded
      as [event]s in a trace, in program order;
    - Python exceptions are values of [exn]; a hook body is a program in a
      state-and-error monad [M] whose state carries the selection, the
      item's property dictionary and the trace.  Exceptions come from the
      hook's own statements ([raise], an unbound name, a missing key, a
      subscript of [None]) and from the host commands the hook wraps in
      [try]; the other calls into the host, the framework's base class and
      the server are recorded and return;
    - a module's global namespace is the list of names its file binds, and a
      call through a bare name is resolved against it at run time, as Python
      does. *)

From Stdlib Require Import Ascii.
From stdpp Require Import base strings list gmap sets pretty sorting.

Local Open Scope Z_scope.

(* ================================================================== *)
(** ** Python values, exceptions and name resolution                   *)
(* ================================================================== *)

Module Py.

(** The Python values the hooks put in dictionaries and test for truth. *)
Inductive pyval : Type :=
| PyNone
| PyBool (b : bool)
| PyInt (z : Z)
| PyStr (s : string)
| PyList (l : list string)
| PyDict (d : list (string * string))
| PyObject (name : string).                 (* an object held by reference *)

(** Exceptions, by class.  [PyException] is the plain [Exception(msg)]
    the hooks raise themselves; [HostError] is whatever a host command
    raised (a subclass of [Exception] as far as [except Exception] goes). *)
Inductive exn : Type :=
| NameError (name : string)
| KeyError (key : string)
| TypeError (msg : string)
| AttributeError (msg : string)
| IndexError (msg : string)
| PyException (msg : string)
| HostError (msg : string).

Inductive result (A : Type) : Type :=
| Ok (a : A)
| Raise (e : exn).
Arguments Ok {A} a.
Arguments Raise {A} e.

(** [str(e)] for the exceptions above, as used by ["... %s" % e]. *)
Definition str_of_exn (e : exn) : string :=
  match e with
  | NameError n => "name '" +:+ n +:+ "' is not defined"
  | KeyError k => "'" +:+ k +:+ "'"
  | TypeError m | AttributeError m | IndexError m
  | PyException m | HostError m => m
  end.

(** Truth value testing: [None], [False], [0], [""] and [[]] are false. *)
Definition truthy (v : pyval) : bool :=
  match v with
  | PyNone => false
  | PyBool b => b
  | PyInt z => negb (z =? 0)
  | PyStr s => negb (String.eqb s "")
  | PyList l => match l with [] => false | _ => true end
  | PyDict d => match d with [] => false | _ => true end
  | PyObject _ => true
  end.

(** [a or b]: [b] is evaluated only when [a] is false, and the value of
    the expression is one of the operands, not a boolean. *)
Definition py_or (a : pyval) (b : unit -> result pyval) : result pyval :=
  if truthy a then Ok a else b tt.

(** [sub in s] on strings. *)
Fixpoint str_contains (sub s : string) : bool :=
  String.prefix sub s ||
  match s with
  | EmptyString => false
  | String _ s' => str_contains sub s'
  end.

(** [s.replace(a, b)] for one-character [a] and [b]. *)
Fixpoint replace_char (a b : Ascii.ascii) (s : string) : string :=
  match s with
  | EmptyString => EmptyString
  | String c s' =>
      String (if Ascii.eqb c a then b else c) (replace_char a b s')
  end.

(** [sep.join(l)]. *)
Fixpoint join (sep : string) (l : list string) : string :=
  match l with
  | [] => ""
  | [x] => x
  | x :: rest => x +:+ sep +:+ join sep rest
  end.

(** Names of the builtins namespace, consulted after the module's own. *)
Definition builtins : list string :=
  [ "abs"; "all"; "any"; "ascii"; "bin"; "bool"; "breakpoint"; "bytearray";
    "bytes"; "callable"; "chr"; "classmethod"; "compile"; "complex";
    "delattr"; "dict"; "dir"; "divmod"; "enumerate"; "eval"; "exec";
    "filter"; "float"; "format"; "frozenset"; "getattr"; "globals";
    "hasattr"; "hash"; "help"; "hex"; "id"; "input"; "int"; "isinstance";
    "issubclass"; "iter"; "len"; "list"; "locals"; "map"; "max";
    "memoryview"; "min"; "next"; "object"; "oct"; "open"; "ord"; "pow";
    "print"; "property"; "range"; "repr"; "reversed"; "round"; "set";
    "setattr"; "slice"; "sorted"; "staticmethod"; "str"; "sum"; "super";
    "tuple"; "type"; "vars"; "zip"; "__import__";
    "Exception"; "AttributeError"; "ValueError"; "NameError"; "KeyError";
    "TypeError"; "IndexError" ].

(** Resolution of a bare name used in a function body that has no local of
    that name: the module's globals, then the builtins, else [NameError]. *)
Definition resolve (globals : list string) (name : string) : result unit :=
  if bool_decide (name ∈ globals) || bool_decide (name ∈ builtins)
  then Ok tt
  else Raise (NameError name).

End Py.
Export Py.

(* ================================================================== *)
(** ** Effects: what a hook file can do to the outside                 *)
(* ================================================================== *)

Module Hook.

(** What the module-level helper functions of the hook files can do: they
    have no [self], hence no logger, framework or server; they call [cmds.*]
    and [print]. *)
Inductive script_event : Type :=
| Warning (msg : string)                       (* cmds.warning(msg) *)
| Printed (line : string)                      (* print(...) *)
| SetsForceElement (faces : list string) (sg : string) (raised : option exn)
| SetsRemove (target sg : string) (raised : option exn).

(** What a hook method can do on top of that. *)
Inductive event : Type :=
| Script_ev (e : script_event)
| Select (nodes : list string)                 (* cmds.select(nodes) *)
| Export (cmd : string) (raised : option exn)  (* the host export command *)
| LogDebug (msg : string)
| LogInfo (msg : string)
| LogWarning (msg : string)
| LogError (msg : string)
| EnsureFolder (folder : string)               (* parent.ensure_folder_exists *)
| BaseValidate                                 (* super().validate(settings, item) *)
| BasePublish                                  (* super().publish(settings, item) *)
| SgUpdate (entity : string) (id : pyval) (data : list (string * string))
| SgCreate (entity : string)
| SgUpload (entity : string) (path field : string)
| Popen (cmd : string) (shell : bool) (bufsize : Z)
| StdoutWrite (line : string)
| ProcWait.

(** Helper functions: a writer of [script_event]s that may raise. *)
Definition Script (A : Type) : Type := (list script_event * result A)%type.

Definition script_ret {A} (a : A) : Script A := ([], Ok a).

Definition script_bind {A B} (k : A -> Script B) (m : Script A) : Script B :=
  match m with
  | (evs, Ok a) => match k a with (evs', r) => (evs ++ evs', r) end
  | (evs, Raise e) => (evs, Raise e)
  end.

#[global] Instance Script_ret : MRet Script := @script_ret.
#[global] Instance Script_bind : MBind Script := @script_bind.

Definition tell (e : script_event) : Script unit := ([e], Ok tt).
Definition script_raise {A} (e : exn) : Script A := ([], Raise e).

(** A [for] loop whose body may raise: the first exception ends it. *)
Fixpoint script_for {A} (l : list A) (body : A -> Script unit) : Script unit :=
  match l with
  | [] => mret tt
  | x :: rest => body x ;; script_for rest body
  end.

(** Hook methods: the state is the Maya selection, the item's property
    dictionary, and everything done so far. *)
Record world : Type := World {
  selection : list string;
  properties : gmap string pyval;
  trace : list event
}.

Definition M (A : Type) : Type := world -> (result A * world)%type.

Definition hook_ret {A} (a : A) : M A := fun w => (Ok a, w).

Definition hook_bind {A B} (k : A -> M B) (m : M A) : M B :=
  fun w =>
    match m w with
    | (Ok a, w') => k a w'
    | (Raise e, w') => (Raise e, w')
    end.

#[global] Instance M_ret : MRet M := @hook_ret.
#[global] Instance M_bind : MBind M := @hook_bind.

Definition raise {A} (e : exn) : M A := fun w => (Raise e, w).

Definition emit (e : event) : M unit :=
  fun w => (Ok tt, World (selection w) (properties w) (trace w ++ [e])).

(** Running a helper function from a method, on the current selection. *)
Definition call {A} (f : list string -> Script A) : M A :=
  fun w =>
    match f (selection w) with
    | (evs, r) =>
        (r, World (selection w) (properties w) (trace w ++ map Script_ev evs))
    end.

(** [cmds.ls(selection=True)] and [cmds.select(nodes)]. *)
Definition ls_selection : M (list string) := fun w => (Ok (selection w), w).

Definition select (nodes : list string) : M unit :=
  fun w => (Ok tt, World nodes (properties w) (trace w ++ [Select nodes])).

(** [item.properties[key]], [item.properties.get(key)] and
    [item.properties[key] = v]. *)
Definition prop_item (key : string) : M pyval :=
  fun w =>
    match properties w !! key with
    | Some v => (Ok v, w)
    | None => (Raise (KeyError key), w)
    end.

Definition prop_get (key : string) : M pyval :=
  fun w => (Ok (default PyNone (properties w !! key)), w).

Definition prop_set (key : string) (v : pyval) : M unit :=
  fun w => (Ok tt, World (selection w) (<[key := v]> (properties w)) (trace w)).

(** A value used where the code needs a string (a path, a node name): any
    other value makes the string operation applied to it raise. *)
Definition as_str (v : pyval) : M string :=
  match v with
  | PyStr s => mret s
  | _ => raise (TypeError "expected str")
  end.

Definition of_result {A} (r : result A) : M A := fun w => (r, w).

Definition get_properties : M (gmap string pyval) :=
  fun w => (Ok (properties w), w).

(** A host command that is recorded with its outcome, and raises if the
    host says so. *)
Definition run_export (cmd : string) (outcome : option exn) : M unit :=
  match outcome with
  | None => emit (Export cmd None)
  | Some e => emit (Export cmd (Some e)) ;; raise e
  end.

(** [try: body except Exception as e: handler(e)]. *)
Definition try_except {A} (body : M A) (handler : exn -> M A) : M A :=
  fun w =>
    match body w with
    | (Ok a, w') => (Ok a, w')
    | (Raise e, w') => handler e w'
    end.

End Hook.
Export Hook.

(* ================================================================== *)
(** ** More of Python's strings                                        *)
(* ================================================================== *)

Module PyLib.

(** [s.endswith(suffix)]. *)
Definition str_endswith (suffix s : string) : bool :=
  String.prefix (String.rev suffix) (String.rev s).

(** [s.rfind(c)] for a one-character [c]: the last index, [None] for -1. *)
Fixpoint rfind_from (c : Ascii.ascii) (s : string) (i : nat) : option nat :=
  match s with
  | EmptyString => None
  | String a s' =>
      match rfind_from c s' (S i) with
      | Some j => Some j
      | None => if Ascii.eqb a c then Some i else None
      end
  end.

Definition rfind (c : Ascii.ascii) (s : string) : option nat := rfind_from c s 0.

(** [s[i:j]] for non-negative [i] and [j]. *)
Definition slice (i j : nat) (s : string) : string :=
  String.substring i (j - i)%nat s.

(** [s[:-n]] and [s[-m:-n]] for positive [m] and [n]. *)
Definition drop_last (n : nat) (s : string) : string :=
  slice 0 (String.length s - n) s.

Definition slice_from_end (m n : nat) (s : string) : string :=
  slice (String.length s - m) (String.length s - n) s.

(** [s.split(sep)[-1]]: what follows the last separator. *)
Definition last_segment (sep : Ascii.ascii) (s : string) : string :=
  match rfind sep s with
  | Some i => slice (S i) (String.length s) s
  | None => s
  end.

(** [int(s)] on byte strings: blanks around, an optional sign, decimal
    digits, single underscores between digits. *)
Definition is_space (c : Ascii.ascii) : bool :=
  let n := Ascii.nat_of_ascii c in
  (n =? 32)%nat || ((9 <=? n)%nat && (n <=? 13)%nat).

Fixpoint lstrip (s : string) : string :=
  match s with
  | String c s' => if is_space c then lstrip s' else s
  | EmptyString => EmptyString
  end.

Definition strip (s : string) : string :=
  String.rev (lstrip (String.rev (lstrip s))).

Definition digit_of (c : Ascii.ascii) : option Z :=
  let n := Ascii.nat_of_ascii c in
  if (48 <=? n)%nat && (n <=? 57)%nat then Some (Z.of_nat (n - 48)) else None.

(** [after_digit] tells whether the previous character was a digit, which
    is where an underscore, or the end, may stand. *)
Fixpoint digits (s : string) (acc : Z) (after_digit : bool) : option Z :=
  match s with
  | EmptyString => if after_digit then Some acc else None
  | String c s' =>
      match digit_of c with
      | Some d => digits s' (10 * acc + d) true
      | None =>
          if Ascii.eqb c "_"%char && after_digit
          then match s' with
               | EmptyString => None
               | String c' _ =>
                   match digit_of c' with
                   | Some _ => digits s' acc false
                   | None => None
                   end
               end
          else None
      end
  end.

Definition py_int (s : string) : option Z :=
  match strip s with
  | String "+"%char r => digits r 0 false
  | String "-"%char r => Z.opp <$> digits r 0 false
  | t => digits t 0 false
  end.

(** [s.replace(old, new)] for a non-empty [old]: [skip] counts the
    characters of a match still to be passed over. *)
Fixpoint replace_from (old new s : string) (skip : nat) : string :=
  match s with
  | EmptyString => EmptyString
  | String c s' =>
      match skip with
      | S k => replace_from old new s' k
      | O =>
          if String.prefix old s
          then new +:+ replace_from old new s' (String.length old - 1)
          else String c (replace_from old new s' 0)
      end
  end.

Definition str_replace (old new s : string) : string :=
  replace_from old new s 0.

(** [str(v)] and [repr] of a list of strings (no quote inside them). *)
Definition repr_list (l : list string) : string :=
  "[" +:+ join ", " (map (fun s => "'" +:+ s +:+ "'") l) +:+ "]".

Definition py_str (v : pyval) : string :=
  match v with
  | PyNone => "None"
  | PyBool true => "True"
  | PyBool false => "False"
  | PyInt z => pretty z
  | PyStr s => s
  | PyList l => repr_list l
  | PyDict d =>
      "{" +:+ join ", " (map (fun kv => "'" +:+ kv.1 +:+ "': '" +:+ kv.2 +:+ "'") d)
      +:+ "}"
  | PyObject name => "<" +:+ name +:+ ">"
  end.

(** [d[key]] where [d] may be [None]. *)
Definition dict_item (d : option (gmap string pyval)) (key : string)
  : result pyval :=
  match d with
  | None => Raise (TypeError "'NoneType' object is not subscriptable")
  | Some m =>
      match m !! key with
      | Some v => Ok v
      | None => Raise (KeyError key)
      end
  end.

End PyLib.
Export PyLib.

(* ================================================================== *)
(** ** The Maya session and the framework, as the hooks see them       *)
(* ================================================================== *)

Module Maya.

(** Queries of the scene.  [None] is Maya's answer for "nothing". *)
Record Host : Type := {
  (* cmds.file(query=True, sn=True) *)
  file_sn : option string;
  (* cmds.ls(geometry=True, noIntermediate=True) *)
  ls_geometry : list string;
  (* cmds.ls(type='mesh', long=True) *)
  ls_meshes : list string;
  (* cmds.ls(name, long=True) *)
  ls_long : string -> list string;
  (* the long DAG path under which cmds.ls(sl=True, long=True) lists a
     selected node *)
  long_name : string -> string;
  (* cmds.objExists(name) *)
  objExists : string -> bool;
  (* cmds.nodeType(node) *)
  nodeType : pyval -> string;
  (* the chain of parents of a node, nearest first: the first entry is what
     cmds.listRelatives(node, parent=True, fullPath=True) lists, the second
     what it lists for the first, and so on up to a root *)
  ancestors : string -> list string;
  (* cmds.listRelatives(node, ad=True, f=True) *)
  descendants : pyval -> option (list string);
  (* cmds.listRelatives(root, allDescendents=True, noIntermediate=True,
     type="mesh", fullPath=True) *)
  descendant_meshes : string -> option (list string);
  (* cmds.listRelatives(obj, allDescendents=True, shapes=True, fullPath=True) *)
  descendant_shapes : string -> option (list string);
  (* cmds.listRelatives(node, shapes=True, ni=True, fullPath=True) *)
  child_shapes : string -> option (list string);
  (* cmds.listAnimatable(node) *)
  listAnimatable : pyval -> option (list string);
  (* cmds.keyframe(attribute, query=True, keyframeCount=True) *)
  keyframeCount : string -> Z;
  (* cmds.listConnections(attribute, d=0) *)
  incoming : string -> option (list string);
  (* cmds.listConnections(shape, type="shadingEngine") *)
  shadingEngines : string -> option (list string);
  (* cmds.sets(sg, query=True) *)
  sets_members : string -> result (option (list string));
  (* cmds.filterExpand(comps, sm=34) *)
  filterExpand : list string -> option (list string);
  (* cmds.polyEvaluate(shape, face=True) *)
  polyEvaluate_face : string -> Z;
  (* int(cmds.playbackOptions(q=True, min=True)), and max *)
  playback_min : Z;
  playback_max : Z;
  (* whether cmds.sets(faces, edit=True, forceElement=sg) raises *)
  sets_forceElement : list string -> string -> option exn;
  (* whether cmds.sets(target, remove=sg) raises *)
  sets_remove : string -> string -> option exn;
  (* whether mel.eval(cmd) raises *)
  mel_eval : string -> option exn;
  (* whether cmds.file(path, force=True, type="mayaBinary",
     exportSelected=True) raises *)
  file_export : string -> option exn
}.

(** A path template of the framework. *)
Record Template : Type := {
  get_fields : string -> gmap string pyval;
  missing_keys : gmap string pyval -> list string;
  apply_fields : gmap string pyval -> string
}.

(** The framework functions the hooks call, and what the base class's
    [validate] answers for an item with the given properties. *)
Record Framework : Type := {
  normalize : string -> string;            (* sgtk.util.ShotgunPath.normalize *)
  dirname : string -> string;              (* os.path.dirname *)
  basename : string -> string;             (* os.path.basename *)
  base_validate : gmap string pyval -> pyval
}.

(** [publisher.context] / [item.context]: each entity is a dictionary or
    [None]. *)
Record Context : Type := {
  step : option (gmap string pyval);
  entity : option (gmap string pyval);
  task : option (gmap string pyval)
}.

(** A publish item: its type, its context, and the two templates among its
    properties ("work_template", "publish_template"); the rest of its
    property dictionary is in the [world]. *)
Record Item : Type := {
  item_type : string;
  work_template : option Template;       (* item.properties.get("work_template") *)
  publish_template : option Template;    (* item.properties.get("publish_template") *)
  context : Context
}.

(** [cmds.listRelatives(node, parent=True, fullPath=True)]. *)
Definition listRelatives_parent (h : Host) (node : string)
  : option (list string) :=
  match ancestors h node with
  | [] => None
  | p :: _ => Some [p]
  end.

(** [x or []] on a list that may be [None]. *)
Definition or_empty {A} (o : option (list A)) : list A := default [] o.

(** A list that may be [None], as a Python value. *)
Definition list_or_none (o : option (list string)) : pyval :=
  match o with
  | Some l => PyList l
  | None => PyNone
  end.

(** The nodes named by the argument of [cmds.select]. *)
Definition nodes_of (v : pyval) : result (list string) :=
  match v with
  | PyStr s => Ok [s]
  | PyList l => Ok l
  | _ => Raise (TypeError "Object is invalid")
  end.

(** [sub in v]. *)
Definition py_in (sub : string) (v : pyval) : result pyval :=
  match v with
  | PyStr s => Ok (PyBool (str_contains sub s))
  | PyList l => Ok (PyBool (bool_decide (sub ∈ l)))
  | _ => Raise (TypeError "argument is not iterable")
  end.

(** The characters that cannot be written inside a string literal here. *)
Definition dquote : string := String (ascii_of_nat 34) EmptyString.
Definition backslash : ascii := ascii_of_nat 92.
Definition newline : string := String (ascii_of_nat 10) EmptyString.

(** [l[0]]. *)
Definition first {A} (l : list A) : result A :=
  match l with
  | x :: _ => Ok x
  | [] => Raise (IndexError "list index out of range")
  end.

End Maya.
Export Maya.

(* ================================================================== *)
(** ** hooks/tk-multi-publish2/maya/publish_object_geo.py              *)
(* ================================================================== *)

Module ObjectGeo.

(** The names the file binds at module level, in the order of the file. *)
Definition module_globals : list string :=
  [ "os"; "cmds"; "mel"; "sgtk"; "six"; "QtCore"; "QtGui"; "HookBaseClass";
    "MayaObjectGeometryPublishPlugin";
    "_find_scene_animation_range"; "_geo_has_animation"; "_session_path";
    "_get_save_as_action"; "_get_root_from_first_mesh"; "_get_root_node";
    "_get_selected_mesh_shapes"; "_get_shape_transform";
    "_expand_face_components"; "_parse_face_indices";
    "_connected_shading_groups"; "_members_for_sg";
    "_is_member_object_level_for_shape";
    "_collect_face_assignments_for_shape"; "_assign_faces_to_sg";
    "_remove_object_level_membership";
    "_convert_object_level_materials_to_face_sets";
    "bake_facesets_for_selection" ].

(** The plugin's settings: the framework builds one [Setting] for each key
    of the [settings] property, so every declared key is present; the field
    is the setting's [.value]. *)
Record Settings : Type := {
  publish_template_name : string;        (* "Publish Template" *)
  write_face_sets : pyval;               (* "Write Face Sets" *)
  write_uvs : pyval;                     (* "Write Uvs" *)
  write_uv_sets : pyval;                 (* "Write Uv Sets" *)
  write_color_sets : pyval               (* "Write Color Sets" *)
}.

Section WithHost.

Variable h : Host.

(** *** Animation detection *)

Definition _find_scene_animation_range : Z * Z :=
  (playback_min h, playback_max h).

(** The inner loop over the animatable attributes of one transform: the
    value of [breakFlag] when the loop is left. *)
Fixpoint any_keyframed (attributes : list string) : bool :=
  match attributes with
  | [] => false
  | attribute :: rest =>
      if 0 <? keyframeCount h attribute then true else any_keyframed rest
  end.

(** [i + ".inMesh"]. *)
Definition inMesh_attribute (i : pyval) : result string :=
  match i with
  | PyStr s => Ok (s +:+ ".inMesh")
  | _ => Raise (TypeError "unsupported operand type(s) for +")
  end.

(** The outer loop over [nodos]: the value of [breakFlag] when it is left. *)
Fixpoint scan_nodos (nodos : list pyval) : result bool :=
  match nodos with
  | [] => Ok false
  | i :: rest =>
      if String.eqb (nodeType h i) "transform" then
        match listAnimatable h i with
        | Some animAttributes =>
            if any_keyframed animAttributes then Ok true else scan_nodos rest
        | None => scan_nodos rest
        end
      else if String.eqb (nodeType h i) "mesh" then
        match inMesh_attribute i with
        | Ok attribute =>
            match incoming h attribute with
            | Some _ => Ok true
            | None => scan_nodos rest
            end
        | Raise e => Raise e
        end
      else scan_nodos rest
  end.

Definition _geo_has_animation (node : pyval) : result bool :=
  match descendants h node with
  | Some nodos => scan_nodos (node :: map PyStr nodos)
  | None => Ok false
  end.

(** *** Session path and scene root *)

Definition _session_path : option string := file_sn h.

(** The [while True] loop of [_get_root_node]: [above] is what remains of
    the chain of parents of the node the loop started from. *)
Fixpoint climb (current : string) (above : list string) : string :=
  match above with
  | [] => current
  | p :: rest => climb p rest
  end.

Definition _get_root_node (node : string) : string :=
  last_segment "|"%char (climb node (ancestors h node)).

Definition _get_root_from_first_mesh : Script pyval :=
  match ls_meshes h with
  | [] => tell (Printed "No meshes found in scene") ;; mret PyNone
  | first_mesh :: _ =>
      tell (Printed ("First mesh shape: " +:+ first_mesh)) ;;
      match or_empty (listRelatives_parent h first_mesh) with
      | [] => tell (Printed "No transform found for mesh") ;; mret PyNone
      | first_transform :: _ =>
          tell (Printed ("Transform node: " +:+ first_transform)) ;;
          let root_node := _get_root_node first_transform in
          tell (Printed ("Root node: " +:+ root_node)) ;;
          mret (PyStr root_node)
      end
  end.

(** *** Face-set helpers *)

(** The loop that fills [roots]. *)
Fixpoint collect_roots (sel : list string) (roots : gset string)
  : gset string :=
  match sel with
  | [] => roots
  | node :: rest =>
      let nt := nodeType h (PyStr node) in
      if String.eqb nt "transform" then collect_roots rest ({[node]} ∪ roots)
      else if String.eqb nt "mesh" then
        match or_empty (listRelatives_parent h node) with
        | p :: _ => collect_roots rest ({[p]} ∪ roots)
        | [] => collect_roots rest roots
        end
      else collect_roots rest roots
  end.

(** "Deduplicate, preserve order". *)
Fixpoint dedupe (seen : gset string) (l : list string) : list string :=
  match l with
  | [] => []
  | s :: rest =>
      if decide (s ∈ seen) then dedupe seen rest
      else s :: dedupe ({[s]} ∪ seen) rest
  end.

(** The list [_get_selected_mesh_shapes] returns, for the selection [sel]
    (short names).  The roots are visited in the order the set yields them. *)
Definition selected_mesh_shapes (sel : list string) : list string :=
  let sel := map (long_name h) sel in
  let roots := collect_roots sel ∅ in
  let explicit_meshes :=
    filter (fun n => nodeType h (PyStr n) = "mesh") sel in
  let desc :=
    concat (map (fun root => or_empty (descendant_meshes h root))
                (elements roots)) in
  dedupe ∅ (explicit_meshes ++ desc).

Definition _get_selected_mesh_shapes (sel : list string)
  : Script (list string) :=
  match sel with
  | [] =>
      tell (Warning
        "Nothing selected. Select one or more root transforms to process.") ;;
      mret []
  | _ =>
      let out := selected_mesh_shapes sel in
      (match out with
       | [] => tell (Warning "No mesh shapes found under the selected nodes.")
       | _ => mret tt
       end) ;;
      tell (Printed (repr_list out)) ;;
      mret out
  end.

Definition _get_shape_transform (shape_long : string) : option string :=
  head (or_empty (listRelatives_parent h shape_long)).

Definition _expand_face_components (comps : list string) : list string :=
  match comps with
  | [] => []
  | _ => or_empty (filterExpand h comps)
  end.

(** One face component string: its index, if it has one. *)
Definition parse_face_index (comp : string) : option Z :=
  match rfind "["%char comp, rfind "]"%char comp with
  | Some lb, Some rb => py_int (slice (S lb) rb comp)
  | _, _ => None
  end.

Definition _parse_face_indices (face_components : list string) : gset Z :=
  foldl (fun indices comp =>
           match parse_face_index comp with
           | Some idx => {[idx]} ∪ indices
           | None => indices
           end) ∅ face_components.

Definition _connected_shading_groups (shape_long : string) : list string :=
  dedupe ∅ (or_empty (shadingEngines h shape_long)).

Definition _members_for_sg (sg : string) : list string :=
  match sets_members h sg with
  | Ok members => or_empty members
  | Raise _ => []
  end.

Definition _is_member_object_level_for_shape (member shape_long : string)
  : bool :=
  let member_long :=
    match ls_long h member with
    | x :: _ => x
    | [] => member
    end in
  if String.eqb member_long shape_long
     || String.eqb member (last_segment "|"%char shape_long)
  then true
  else if String.eqb (nodeType h (PyStr member_long)) "transform" then
    bool_decide (shape_long ∈ or_empty (child_shapes h member_long))
  else false.

(** Whether a member of a shading group is a face component of the shape,
    as [_collect_face_assignments_for_shape] tests it. *)
Definition is_face_member (shape_long m : string) : bool :=
  String.prefix (shape_long +:+ ".f[") m
  || (str_endswith ".f]" m
      && str_contains (last_segment "|"%char shape_long +:+ ".f[") m).

(** [{i for i in s if 0 <= i < face_count}]. *)
Definition clamp (face_count : Z) (s : gset Z) : gset Z :=
  filter (fun i => 0 ≤ i < face_count) s.

(** The state of the loop over [sgs]. *)
Record collected : Type := Collected {
  assigned_faces_all : gset Z;
  per_sg_faces : gmap string (gset Z);
  object_level_sgs : list string
}.

Definition collect_step (shape_long : string) (acc : collected) (sg : string)
  : collected :=
  match _members_for_sg sg with
  | [] => acc
  | members =>
      let comp_members := filter (fun m => is_face_member shape_long m = true)
                                 members in
      let object_level_here :=
        existsb (fun m => negb (is_face_member shape_long m)
                          && _is_member_object_level_for_shape m shape_long)
                members in
      let indices := _parse_face_indices (_expand_face_components comp_members) in
      Collected
        (assigned_faces_all acc ∪ indices)
        (<[sg := default ∅ (per_sg_faces acc !! sg) ∪ indices]> (per_sg_faces acc))
        (if object_level_here then object_level_sgs acc ++ [sg]
         else object_level_sgs acc)
  end.

Definition _collect_face_assignments_for_shape
  (shape_long : string) (sgs : list string) : collected * Z :=
  let face_count := polyEvaluate_face h shape_long in
  let init :=
    Collected ∅ (list_to_map (map (fun sg => (sg, ∅)) sgs)) [] in
  let acc := foldl (collect_step shape_long) init sgs in
  (Collected (clamp face_count (assigned_faces_all acc))
             (clamp face_count <$> per_sg_faces acc)
             (object_level_sgs acc),
   face_count).

(** [sorted(s)]. *)
Definition sorted (s : gset Z) : list Z := merge_sort Z.le (elements s).

Definition _assign_faces_to_sg
  (shape_long : string) (face_indices : gset Z) (sg : string) : Script unit :=
  match sorted face_indices with
  | [] => mret tt
  | idxs =>
      let face_components :=
        map (fun idx => shape_long +:+ ".f[" +:+ pretty idx +:+ "]") idxs in
      match sets_forceElement h face_components sg with
      | None => tell (SetsForceElement face_components sg None)
      | Some ex =>
          tell (SetsForceElement face_components sg (Some ex)) ;;
          tell (Warning ("Failed assigning faces to " +:+ sg +:+ ": "
                         +:+ str_of_exn ex))
      end
  end.

Definition _remove_object_level_membership (shape_long sg : string)
  : Script unit :=
  let xform := _get_shape_transform shape_long in
  script_for [Some shape_long; xform] (fun target =>
    match target with
    | Some t => if String.eqb t "" then mret tt
                else tell (SetsRemove t sg (sets_remove h t sg))
    | None => mret tt
    end).

(** The loop of [_convert_object_level_materials_to_face_sets] over the
    object-level shading groups; it returns [remaining]. *)
Fixpoint convert_loop (shape_long : string) (remove_object_level_links : bool)
  (sgs : list string) (remaining : gset Z) : Script (gset Z) :=
  match sgs with
  | [] => mret remaining
  | sg :: rest =>
      if decide (remaining = ∅) then mret remaining
      else
        let to_assign := remaining in
        _assign_faces_to_sg shape_long to_assign sg ;;
        let remaining := remaining ∖ to_assign in
        (if remove_object_level_links
         then _remove_object_level_membership shape_long sg
         else mret tt) ;;
        convert_loop shape_long remove_object_level_links rest remaining
  end.

Definition when (b : bool) (m : Script unit) : Script unit :=
  if b then m else mret tt.

Definition _convert_object_level_materials_to_face_sets
  (shape_long : string) (remove_object_level_links verbose : bool)
  : Script unit :=
  if negb (String.eqb (nodeType h (PyStr shape_long)) "mesh") then mret tt
  else
    match _connected_shading_groups shape_long with
    | [] => mret tt
    | sgs =>
        let '(c, face_count) :=
          _collect_face_assignments_for_shape shape_long sgs in
        when verbose (
          tell (Printed (newline +:+ "[FaceSets] Processing: " +:+ shape_long)) ;;
          tell (Printed ("  Connected SGs: " +:+ join ", " sgs)) ;;
          tell (Printed ("  Face count: " +:+ pretty face_count)) ;;
          match object_level_sgs c with
          | [] => tell (Printed "  No object-level SGs on this shape.")
          | ol => tell (Printed ("  Object-level SGs detected: "
                                 +:+ join ", " ol))
          end) ;;
        match object_level_sgs c with
        | [] => mret tt
        | ol =>
            let all_faces : gset Z := list_to_set (seqZ 0 face_count) in
            let remaining := all_faces ∖ assigned_faces_all c in
            remaining ← convert_loop shape_long remove_object_level_links
                                      ol remaining;
            when verbose (
              tell (Printed
                ("  Conversion done (remaining unassigned faces after pass: "
                 +:+ pretty (Z.of_nat (size remaining)) +:+ ").")))
        end
    end.

(** The module-level functions that take a shape and the two flags, by the
    name they are bound to. *)
Definition face_set_functions
  : list (string * (string -> bool -> bool -> Script unit)) :=
  [ ("_convert_object_level_materials_to_face_sets",
     _convert_object_level_materials_to_face_sets) ].

(** Calling [name(s, remove_object_level_links=..., verbose=...)] from a
    function of this module: the name is looked up when the call runs. *)
Definition call_by_name (name : string) (s : string) (remove verbose : bool)
  : Script unit :=
  match resolve module_globals name with
  | Raise e => script_raise e
  | Ok _ =>
      match list_find (fun d => d.1 = name) face_set_functions with
      | Some (_, (_, f)) => f s remove verbose
      | None => script_raise (TypeError "object is not callable this way")
      end
  end.

Definition bake_facesets_for_selection
  (remove_object_level_links verbose : bool) (sel : list string)
  : Script (list string) :=
  shapes ← _get_selected_mesh_shapes sel;
  match shapes with
  | [] => mret []
  | _ =>
      script_for shapes (fun s =>
        call_by_name "convert_object_level_materials_to_face_sets"
                     s remove_object_level_links verbose) ;;
      when verbose (
        tell (Printed (newline +:+ "[FaceSets] Finished. Processed "
                       +:+ pretty (Z.of_nat (length shapes))
                       +:+ " mesh shape(s).")));;
      mret shapes
  end.

(** *** The plugin's methods *)

Variable fw : Framework.

(** The condition written ['TEXTURE' or 'SHADING' in <step name>], where
    reading the step name may itself raise. *)
Definition texture_or_shading (step_name : unit -> result pyval)
  : result pyval :=
  py_or (PyStr "TEXTURE")
        (fun _ => match step_name tt with
                  | Ok v => py_in "SHADING" v
                  | Raise e => Raise e
                  end).

(** [get_ui_settings]: [base_ui] is what the base class returns.  The
    method also reads the entity type, and does not use it. *)
Definition get_ui_settings (base_ui : gmap string pyval) (ctx : Context)
  : result (gmap string pyval) :=
  let step_name :=
    match step ctx with
    | Some d => if decide (d = ∅) then PyStr ""
                else default (PyStr "") (d !! "name")
    | None => PyStr ""
    end in
  match texture_or_shading (fun _ => Ok step_name) with
  | Raise e => Raise e
  | Ok c =>
      if truthy c then
        Ok (<["Write Color Sets" := PyBool true]>
            (<["Write Uv Sets" := PyBool true]>
             (<["Write Uvs" := PyBool true]>
              (<["Write Face Sets" := PyBool true]> base_ui))))
      else Ok base_ui
  end.

(** [self.logger.error(error_msg); raise Exception(error_msg)].  For an
    unsaved session the log entry also carries a "Save As..." button. *)
Definition fail_validation (error_msg : string) : M pyval :=
  emit (LogError error_msg) ;; raise (PyException error_msg).

Definition validate (item : Item) : M pyval :=
  match _session_path with
  | None | Some EmptyString =>
      fail_validation "The Maya session has not been saved."
  | Some path =>
      let path := normalize fw path in
      match ls_geometry h with
      | [] =>
          fail_validation
            ("Validation failed because there is no geometry in the scene "
             +:+ "to be exported. You can uncheck this plugin or create "
             +:+ "geometry to export to avoid this error.")
      | _ =>
          match work_template item with
          | None =>
              raise (AttributeError
                       "'NoneType' object has no attribute 'get_fields'")
          | Some wt =>
              let work_fields := get_fields wt path in
              object_name ← prop_get "object_name";
              let work_fields :=
                <["maya.object_name" := object_name]> work_fields in
              old_path ← prop_get "path";
              prop_set "publish_name"
                (PyStr (drop_last 9 (basename fw (py_str old_path)))) ;;
              match publish_template item with
              | None =>
                  raise (AttributeError
                           "'NoneType' object has no attribute 'missing_keys'")
              | Some pt =>
                  match missing_keys pt work_fields with
                  | [] =>
                      object_name ← prop_item "object_name";
                      let work_fields :=
                        <["maya.object_name" := object_name]> work_fields in
                      prop_set "path" (PyStr (apply_fields pt work_fields)) ;;
                      new_path ← prop_item "path";
                      prop_set "publish_path" new_path ;;
                      match work_fields !! "version" with
                      | Some v => prop_set "publish_version" v
                      | None => mret tt
                      end ;;
                      emit BaseValidate ;;
                      props ← get_properties;
                      mret (base_validate fw props)
                  | mk =>
                      fail_validation
                        ("Work file '" +:+ path
                         +:+ "' missing keys required for the "
                         +:+ "publish template: " +:+ repr_list mk)
                  end
              end
          end
      end
  end.

(** The part of [publish] before the [try]: it yields the export command. *)
Definition export_command (st : Settings) (item : Item) : M string :=
  publish_path ← prop_item "path" ≫= as_str;
  let publish_folder := dirname fw publish_path in
  emit (EnsureFolder publish_folder) ;;
  let alembic_args :=
    ["-renderableOnly"; "-worldSpace"; "-dataformat"; "ogawa"]
    ++ (if truthy (write_face_sets st) then ["-writeFaceSets"] else [])
    ++ (if truthy (write_uvs st) then ["-uvWrite"] else [])
    ++ (if truthy (write_uv_sets st) then ["-writeUVSets"] else [])
    ++ (if truthy (write_color_sets st) then ["-writeColorSets"] else []) in
  '(parentNode, alembic_args) ←
    (if negb (String.eqb (item_type item) "maya.session.geometries") then
       prop_set "publish_type" (PyStr "Alembic Cache") ;;
       nodes ← prop_item "object" ≫= (fun v => of_result (nodes_of v));
       select nodes ;;
       c ← of_result (texture_or_shading
                        (fun _ => dict_item (step (context item)) "name"));
       (if truthy c
        then call (bake_facesets_for_selection true true) ;; mret tt
        else mret tt) ;;
       sel ← ls_selection;
       s0 ← of_result (first sel);
       let parentNode := list_or_none (listRelatives_parent h s0) in
       sel ← ls_selection;
       s1 ← of_result (first sel);
       mret (parentNode, alembic_args ++ ["-root"; s1])
     else
       prop_set "publish_type" (PyStr "Session Alembic Cache") ;;
       parentNode ← call (fun _ => _get_root_from_first_mesh);
       mret (parentNode, alembic_args));
  animated ← of_result (_geo_has_animation parentNode);
  let alembic_args :=
    if animated : bool then
      let '(start_frame, end_frame) := _find_scene_animation_range in
      ("-frameRange " +:+ pretty (start_frame - 50) +:+ " "
       +:+ pretty end_frame) :: alembic_args
    else alembic_args in
  let alembic_args :=
    alembic_args
    ++ ["-file " +:+ replace_char backslash "/"%char publish_path] in
  mret ("AbcExport -j " +:+ dquote +:+ join " " alembic_args +:+ dquote).

Definition publish (st : Settings) (item : Item) : M unit :=
  cur_selection ← ls_selection;
  abc_export_cmd ← export_command st item;
  exported ← try_except
    (emit (LogDebug ("Executing command: " +:+ abc_export_cmd)) ;;
     run_export abc_export_cmd (mel_eval h abc_export_cmd) ;;
     mret true)
    (fun e =>
       emit (LogError ("Failed to export Geometry: " +:+ str_of_exn e)) ;;
       mret false);
  if exported : bool then
    emit BasePublish ;;
    select cur_selection ;;
    id ← of_result (dict_item (task (context item)) "id");
    emit (SgUpdate "Task" id [("sg_status_list", "rev")])
  else mret tt.

End WithHost.

End ObjectGeo.

(* ================================================================== *)
(** ** hooks/tk-multi-publish2/maya/publish_shader.py                  *)
(* ================================================================== *)

Module Shader.

Definition module_globals : list string :=
  [ "os"; "cmds"; "mel"; "sgtk"; "six"; "HookBaseClass";
    "MayaObjectShaderPublishPlugin";
    "_find_scene_animation_range"; "_geo_has_animation"; "_session_path";
    "_get_save_as_action"; "_get_root_from_first_mesh"; "_get_root_node";
    "_get_shading_groups_from_object" ].

Section WithHost.

Variable h : Host.
Variable fw : Framework.

(** The loop that gathers the shading groups of the shapes. *)
Definition gather_shading_groups (shapes : list string) : gset string :=
  foldl (fun shading_groups shape =>
           match shadingEngines h shape with
           | Some (sg :: sgs) => shading_groups ∪ list_to_set (sg :: sgs)
           | _ => shading_groups
           end) ∅ shapes.

Definition _get_shading_groups_from_object (obj : string)
  : Script (list string) :=
  if negb (objExists h obj) then
    tell (Printed ("Object '" +:+ obj +:+ "' does not exist")) ;; mret []
  else
    let shapes := or_empty (descendant_shapes h obj) in
    let shapes :=
      if bool_decide (nodeType h (PyStr obj)
                      ∈ ["mesh"; "nurbsSurface"; "nurbsCurve"])
      then shapes ++ [obj] else shapes in
    tell (Printed ("Found " +:+ pretty (Z.of_nat (length shapes))
                   +:+ " shapes under '" +:+ obj +:+ "'")) ;;
    let shading_groups := elements (gather_shading_groups shapes) in
    tell (Printed (newline +:+ "Shading Groups connected to '" +:+ obj
                   +:+ "':")) ;;
    script_for shading_groups (fun sg => tell (Printed ("  - " +:+ sg))) ;;
    mret shading_groups.

(** The part of [publish] before the [try]: it yields the path to export
    to, with the shading groups selected. *)
Definition export_path (item : Item) : M string :=
  publish_path ← prop_item "path" ≫= as_str;
  let publish_folder := dirname fw publish_path in
  emit (EnsureFolder publish_folder) ;;
  prop_set "publish_type" (PyStr "Maya Shading Network") ;;
  obj ← prop_item "object" ≫= as_str;
  shading_groups ← call (fun _ => _get_shading_groups_from_object obj);
  select shading_groups ;;
  mret publish_path.

Definition publish (item : Item) : M unit :=
  cur_selection ← ls_selection;
  publish_path ← export_path item;
  exported ← try_except
    (emit (LogDebug "Executing shaders export command:") ;;
     run_export publish_path (file_export h publish_path) ;;
     mret true)
    (fun e =>
       emit (LogError ("Failed to export Shaders: " +:+ str_of_exn e)) ;;
       mret false);
  if exported : bool then
    emit BasePublish ;;
    select cur_selection ;;
    id ← of_result (dict_item (task (context item)) "id");
    emit (SgUpdate "Task" id [("sg_status_list", "rev")])
  else mret tt.

End WithHost.

End Shader.

(* ================================================================== *)
(** ** .github/workflows/updateConfig.py                               *)
(* ================================================================== *)

Module UpdateConfig.

(** Calls to the tracking server's API. *)
Inductive sg_call : Type :=
| Connect (url script_name api_key : string)   (* shotgun_api3.Shotgun(...) *)
| Update (entity : string) (id : Z) (data : list (string * string)).

(** [os.environ[name]]. *)
Definition environ_item (environ : gmap string string) (name : string)
  : result string :=
  match environ !! name with
  | Some v => Ok v
  | None => Raise (KeyError name)
  end.

Definition descriptor (branch newcode : string) : string :=
  "sgtk:descriptor:git_branch?branch=" +:+ branch
  +:+ "&path=https://github.com/Dps-CCV/DPS_CONFIG_DEV.git&version="
  +:+ newcode.

(** [main()]: the calls made, in order, and how the run ends. *)
Definition main (environ : gmap string string) : list sg_call * result unit :=
  match environ_item environ "UPDATECONFIGKEY" with
  | Raise e => ([], Raise e)
  | Ok api_key =>
      let sg := Connect "https://dareplanet.shotgunstudio.com"
                        "GithubUpdateConfig" api_key in
      match environ_item environ "BRANCH" with
      | Raise e => ([sg], Raise e)
      | Ok branch =>
          match environ_item environ "NEWCODE" with
          | Raise e => ([sg], Raise e)
          | Ok newcode =>
              let data := [("descriptor", descriptor branch newcode)] in
              let id := 2542 in
              ([sg; Update "PipelineConfiguration" id data], Ok tt)
          end
      end
  end.

(** The remote writes among the calls. *)
Definition is_write (c : sg_call) : bool :=
  match c with
  | Update _ _ _ => true
  | Connect _ _ _ => false
  end.

Definition writes (calls : list sg_call) : list sg_call :=
  filter (fun c => is_write c = true) calls.

End UpdateConfig.

(* ================================================================== *)
(** ** The hook classes and the methods they define                    *)
(* ================================================================== *)

Module Plugins.

(** A class statement: its name, its base, and the names bound by [def] in
    its body ([@property] ones included). *)
Record class_def : Type := {
  class_name : string;
  class_base : string;
  class_body : list string
}.

Definition MayaObjectGeometryPublishPlugin : class_def :=
  {| class_name := "MayaObjectGeometryPublishPlugin";
     class_base := "HookBaseClass";
     class_body := [ "description"; "settings"; "create_settings_widget";
                     "get_ui_settings"; "item_filters"; "accept";
                     "validate"; "publish" ] |}.

Definition MayaObjectShaderPublishPlugin : class_def :=
  {| class_name := "MayaObjectShaderPublishPlugin";
     class_base := "HookBaseClass";
     class_body := [ "description"; "settings"; "item_filters"; "accept";
                     "validate"; "publish" ] |}.

Definition UploadVersionPlugin : class_def :=
  {| class_name := "UploadVersionPlugin";
     class_base := "HookBaseClass";
     class_body := [ "icon"; "name"; "description"; "settings";
                     "item_filters"; "accept"; "validate"; "publish";
                     "finalize"; "_get_version_entity"; "_get_publish_type";
                     "get_dailies_template"; "get_dailies_path" ] |}.

Definition hook_classes : list class_def :=
  [ MayaObjectGeometryPublishPlugin; MayaObjectShaderPublishPlugin;
    UploadVersionPlugin ].

Definition lifecycle : list string :=
  [ "accept"; "validate"; "publish"; "finalize" ].

(** The class's own body defines the method. *)
Definition defines (c : class_def) (method : string) : bool :=
  bool_decide (method ∈ class_body c).

(** Attribute lookup on an instance: the class's body, then the base class
    that [sgtk.get_hook_baseclass()] returned, given by the methods it
    provides. *)
Definition responds_to (base_methods : list string) (c : class_def)
  (method : string) : bool :=
  defines c method || bool_decide (method ∈ base_methods).

End Plugins.

(* ================================================================== *)
(** ** hooks/tk-multi-publish2/maya/upload_version.py                  *)
(* ================================================================== *)

Module UploadVersion.

(** The names the file binds at module level: seven imports, the base
    class and the plugin class. *)
Definition module_globals : list string :=
  [ "os"; "glob"; "pprint"; "sgtk"; "six"; "mel"; "cmds"; "HookBaseClass";
    "UploadVersionPlugin" ].

(** What the methods need from outside, beyond the scene. *)
Record Env : Type := {
  (* publisher.get_template_by_name(name) *)
  get_template_by_name : string -> option Template;
  (* work_template.validate(path), for the parent item's work template *)
  template_validates : Template -> string -> bool;
  (* str(mel.eval('float $fps = `currentTimeUnitToFPS`')) *)
  frames_per_second : string;
  (* os.environ['PATH'], when the variable is set *)
  environ_PATH : option string;
  (* platform.system() *)
  platform_system : string;
  (* what the process started for a command line writes, line by line, and
     the exit code proc.wait() returns *)
  process_output : string -> list string;
  process_exit_code : string -> Z
}.

(** The item: [item.parent.properties.get("work_template")] is kept beside
    the item's own property dictionary. *)
Record Item : Type := {
  item_type : string;
  parent_work_template : option Template
}.

(** The local variables of [publish] that its branches set; [first] and
    [last] stay unbound where a branch does not assign them. *)
Record locals : Type := Locals {
  l_path : pyval;
  l_uploadPath : pyval;
  l_first : option pyval;
  l_last : option pyval
}.

Section WithEnv.

Variable env : Env.

(** The plugin's settings by name, each the setting's [.value]. *)
Variable settings : gmap string pyval.

(** The module-level functions without arguments that return a string, by
    the name they are bound to: the file defines none. *)
Definition module_functions : list (string * string) := [].

(** Calling [name()] from a method: the name is looked up in the module's
    globals when the call runs. *)
Definition call_by_name (name : string) : M string :=
  match resolve module_globals name with
  | Raise e => raise e
  | Ok _ =>
      match list_find (fun d => d.1 = name) module_functions with
      | Some (_, (_, v)) => mret v
      | None => raise (TypeError "object is not callable this way")
      end
  end.

(** Reading a module through its bare name, as in [platform.system()]. *)
Definition use_module (name : string) : M unit :=
  of_result (resolve module_globals name).

Fixpoint hook_for {A} (l : list A) (body : A -> M unit) : M unit :=
  match l with
  | [] => mret tt
  | x :: rest => body x ;; hook_for rest body
  end.

Definition get_dailies_template : M (option Template) :=
  match settings !! "Dailies Template" with
  | None => raise (KeyError "Dailies Template")
  | Some template_name =>
      let dailies_template := get_template_by_name env (py_str template_name) in
      prop_set "dailies_template"
        (match dailies_template with
         | Some _ => PyObject "dailies_template"
         | None => PyNone
         end) ;;
      mret dailies_template
  end.

(** [get_dailies_path]: a path, or [None].  The log messages that print
    the fields and the template objects are given by their fixed text. *)
Definition get_dailies_path (item : Item) : M pyval :=
  path ← call_by_name "_session_path";
  let work_template := parent_work_template item in
  dailies_template ← get_dailies_template;
  match work_template, dailies_template with
  | Some wt, Some dt =>
      work_fields ←
        (if template_validates env wt path then
           let work_fields := get_fields wt path in
           layer ← prop_item "maya.layer_name";
           let work_fields := <["maya.layer_name" := layer]> work_fields in
           use_module "platform" ;;
           if String.eqb (platform_system env) "Windows"
           then mret (<["extension" := PyStr "avi"]> work_fields)
           else mret (<["extension" := PyStr "mov"]> work_fields)
         else mret ∅);
      match missing_keys dt work_fields with
      | [] =>
          let dailies_path := apply_fields dt work_fields in
          emit (LogDebug
                  ("Used publish template to determine the publish path: "
                   +:+ dailies_path)) ;;
          mret (PyStr dailies_path)
      | _ =>
          emit (LogWarning
                  "Not enough keys to apply work fields to publish template") ;;
          mret PyNone
      end
  | _, _ =>
      emit (LogDebug "dailies_template") ;;
      emit (LogDebug "work_template") ;;
      mret PyNone
  end.

(** [d['path']] for the value of [item.properties['publish_data']]. *)
Definition publish_data_path (publish_data : pyval) : result string :=
  match publish_data with
  | PyDict d =>
      match list_find (fun kv => kv.1 = "path") d with
      | Some (_, (_, v)) => Ok v
      | None => Raise (KeyError "path")
      end
  | _ => Raise (TypeError "object is not subscriptable")
  end.

(** [uploadPath.replace(".avi", ".mov")] on what [get_dailies_path] gave. *)
Definition avi_to_mov (dailies_path : pyval) : result string :=
  match dailies_path with
  | PyStr s => Ok (str_replace ".avi" ".mov" s)
  | _ => Raise (AttributeError "'NoneType' object has no attribute 'replace'")
  end.

Definition first_sequence_path (sequence_paths : pyval) : result string :=
  match sequence_paths with
  | PyList l => first l
  | _ => Raise (TypeError "object is not subscriptable")
  end.

Definition ffmpeg_command (framerate start_number in_sequence out_mov : string)
  : string :=
  let lut_path :=
    "L" +:+ String backslash ":/NUKE_CONFIG/ACESCg_to_Rec709.cube" in
  let vf :=
    "format=gbrpf32le," +:+ "lut3d='" +:+ lut_path +:+ "',"
    +:+ "scale=1920:1080,format=yuv422p10le" in
  "ffmpeg -framerate " +:+ framerate +:+ " -start_number " +:+ start_number
  +:+ " " +:+ "-i " +:+ dquote +:+ in_sequence +:+ dquote +:+ " "
  +:+ "-vf " +:+ dquote +:+ vf +:+ dquote +:+ " "
  +:+ "-c:v prores_ks -profile:v 3 -pix_fmt yuv422p10le "
  +:+ "-movflags +write_colr -color_primaries bt709 -color_trc bt709 "
  +:+ "-colorspace bt709 "
  +:+ dquote +:+ out_mov +:+ dquote.

(** The branch of [publish] for rendered sequences. *)
Definition sequence_branch (item : Item) : M locals :=
  path ← prop_item "publish_data" ≫= (fun d => of_result (publish_data_path d));
  uploadPath ← get_dailies_path item ≫= (fun p => of_result (avi_to_mov p));
  p0 ← prop_item "sequence_paths"
         ≫= (fun l => of_result (first_sequence_path l));
  let first := slice_from_end 8 4 p0 in
  let framerate := frames_per_second env in
  let start_number := first in
  let in_path := str_replace "####" "%04d" path in
  let in_sequence := replace_char backslash "/"%char in_path in
  let out_mov := replace_char backslash "/"%char uploadPath in
  let cmd := ffmpeg_command framerate start_number in_sequence out_mov in
  emit (LogInfo cmd) ;;
  match environ_PATH env with
  | None => raise (KeyError "PATH")
  | Some p => emit (LogInfo p)
  end ;;
  use_module "subprocess" ;;
  emit (Popen cmd true 1) ;;
  hook_for (process_output env cmd) (fun line =>
    use_module "sys" ;;
    emit (StdoutWrite line) ;;
    emit (LogInfo line)) ;;
  emit ProcWait ;;
  emit (Script_ev (Printed ("Exit code: " +:+ pretty (process_exit_code env cmd)))) ;;
  mret (Locals (PyStr path) (PyStr uploadPath) (Some (PyStr first)) None).

(** The playblast branch (items of type "maya.session") and the creation
    and upload of the Version that ends [publish], kept abstract. *)
Variable playblast_branch : Item -> locals -> M locals.
Variable create_and_upload_version : Item -> locals -> M unit.

Definition takes_sequence_branch (item : Item) (w : world) : bool :=
  bool_decide (is_Some (properties w !! "sequence_paths"))
  && String.eqb (item_type item) "maya.session.render".

Definition publish (item : Item) : M unit :=
  path ← prop_item "path";
  uploadPath ← prop_item "path";
  let l := Locals path uploadPath None None in
  l ← (fun w =>
         if takes_sequence_branch item w then sequence_branch item w
         else if String.eqb (item_type item) "maya.session"
              then playblast_branch item l w
              else (Ok l, w));
  create_and_upload_version item l.

End WithEnv.

End UploadVersion.

(* ================================================================== *)
(** ** A small scene, item and environment to run the hooks on         *)
(* ================================================================== *)

Module Samples.

(** A table with a default, for writing oracles down. *)
Definition table {A} (rows : list (string * A)) (otherwise : A) (key : string)
  : A :=
  match list_find (fun r => r.1 = key) rows with
  | Some (_, (_, v)) => v
  | None => otherwise
  end.

Definition on_name {A} (f : string -> A) (otherwise : A) (v : pyval) : A :=
  match v with
  | PyStr s => f s
  | PyList [s] => f s
  | _ => otherwise
  end.

Definition cubeShape : string := "|grp|cube|cubeShape".

(** A group [grp] holding a transform [cube] with one mesh of six faces.
    [cube] has two keys on translateX.  The mesh is in [lambertSG] as a
    whole (through its transform) and faces 0 and 1 are in [redSG].  Beside
    the group stands [lonely], a transform without children that has three
    keys on translateX. *)
Definition scene : Host :=
  {| file_sn := Some "/proj/work/cube.v003.ma";
     ls_geometry := ["cubeShape"];
     ls_meshes := [cubeShape];
     ls_long := table [("cube", ["|grp|cube"]); ("grp", ["|grp"]);
                       ("cubeShape", [cubeShape])] [];
     long_name := fun s => table [("cube", "|grp|cube"); ("grp", "|grp");
                                  ("cubeShape", cubeShape)] s s;
     objExists := fun _ => true;
     nodeType := on_name (table [(cubeShape, "mesh"); ("cubeShape", "mesh")]
                                "transform") "transform";
     ancestors := table [(cubeShape, ["|grp|cube"; "|grp"]);
                         ("cubeShape", ["|grp|cube"; "|grp"]);
                         ("|grp|cube", ["|grp"]); ("cube", ["|grp"])] [];
     descendants := on_name (table [("|grp", Some [cubeShape; "|grp|cube"]);
                                    ("grp", Some [cubeShape; "|grp|cube"]);
                                    ("|grp|cube", Some [cubeShape]);
                                    ("cube", Some [cubeShape])] None) None;
     descendant_meshes := table [("|grp", Some [cubeShape]);
                                 ("|grp|cube", Some [cubeShape])] None;
     descendant_shapes := table [("|grp", Some [cubeShape]);
                                 ("grp", Some [cubeShape]);
                                 ("|grp|cube", Some [cubeShape]);
                                 ("cube", Some [cubeShape])] None;
     child_shapes := table [("|grp|cube", Some [cubeShape])] None;
     listAnimatable := on_name (table [("|grp|cube", Some ["|grp|cube.translateX"]);
                                       ("|lonely", Some ["|lonely.translateX"])]
                                      None) None;
     keyframeCount := table [("|grp|cube.translateX", 2);
                             ("|lonely.translateX", 3)] 0;
     incoming := fun _ => None;
     shadingEngines := table [(cubeShape, Some ["lambertSG"; "redSG"; "lambertSG"])]
                             None;
     sets_members := table [("lambertSG", Ok (Some ["cube"]));
                            ("redSG", Ok (Some [cubeShape +:+ ".f[0:1]"]))]
                           (Ok None);
     filterExpand := fun comps =>
       match comps with
       | [] => None
       | _ => Some [cubeShape +:+ ".f[0]"; cubeShape +:+ ".f[1]"]
       end;
     polyEvaluate_face := fun _ => 6;
     playback_min := 1001;
     playback_max := 1100;
     sets_forceElement := fun _ _ => None;
     sets_remove := fun _ _ => None;
     mel_eval := fun _ => None;
     file_export := fun _ => None |}.

(** The same scene with a host whose export commands fail. *)
Definition failing_scene : Host :=
  {| file_sn := file_sn scene;
     ls_geometry := ls_geometry scene;
     ls_meshes := ls_meshes scene;
     ls_long := ls_long scene;
     long_name := long_name scene;
     objExists := objExists scene;
     nodeType := nodeType scene;
     ancestors := ancestors scene;
     descendants := descendants scene;
     descendant_meshes := descendant_meshes scene;
     descendant_shapes := descendant_shapes scene;
     child_shapes := child_shapes scene;
     listAnimatable := listAnimatable scene;
     keyframeCount := keyframeCount scene;
     incoming := incoming scene;
     shadingEngines := shadingEngines scene;
     sets_members := sets_members scene;
     filterExpand := filterExpand scene;
     polyEvaluate_face := polyEvaluate_face scene;
     playback_min := playback_min scene;
     playback_max := playback_max scene;
     sets_forceElement := sets_forceElement scene;
     sets_remove := sets_remove scene;
     mel_eval := fun _ => Some (HostError "Maya command error");
     file_export := fun _ => Some (HostError "Maya command error") |}.

Definition template : Template :=
  {| get_fields := fun _ => {[ "version" := PyInt 3 ]};
     missing_keys := fun fields =>
       match fields !! "maya.object_name" with
       | Some (PyStr _) => []
       | _ => ["maya.object_name"]
       end;
     apply_fields := fun fields =>
       "/proj/publish/"
       +:+ py_str (default PyNone (fields !! "maya.object_name"))
       +:+ ".v" +:+ py_str (default PyNone (fields !! "version")) +:+ ".abc" |}.

Definition framework : Framework :=
  {| normalize := fun p => p;
     dirname := fun p =>
       match rfind "/"%char p with
       | Some i => slice 0 i p
       | None => ""
       end;
     basename := last_segment "/"%char;
     base_validate := fun _ => PyBool true |}.

Definition texture_context : Context :=
  {| step := Some {[ "name" := PyStr "TEXTURE_A" ]};
     entity := Some {[ "type" := PyStr "Asset" ]};
     task := Some {[ "id" := PyInt 77 ]} |}.

Definition layout_context : Context :=
  {| step := Some {[ "name" := PyStr "LAYOUT" ]};
     entity := Some {[ "type" := PyStr "Shot" ]};
     task := Some {[ "id" := PyInt 78 ]} |}.

Definition object_item (ctx : Context) : Maya.Item :=
  {| Maya.item_type := "maya.session.object_geo";
     work_template := Some template;
     publish_template := Some template;
     context := ctx |}.

Definition session_item (ctx : Context) : Maya.Item :=
  {| Maya.item_type := "maya.session.geometries";
     work_template := Some template;
     publish_template := Some template;
     context := ctx |}.

Definition geo_settings : ObjectGeo.Settings :=
  {| ObjectGeo.publish_template_name := "maya_asset_object_publish";
     ObjectGeo.write_face_sets := PyBool true;
     ObjectGeo.write_uvs := PyBool true;
     ObjectGeo.write_uv_sets := PyBool false;
     ObjectGeo.write_color_sets := PyBool false |}.

(** The state in which the collector leaves a per-object item. *)
Definition collected_world : world :=
  {| selection := [];
     properties := {[ "object" := PyStr "cube"; "object_name" := PyStr "cube" ]};
     trace := [] |}.

(** The state after a successful [validate]. *)
Definition validated_world : world :=
  {| selection := ["grp"];
     properties := {[ "object" := PyStr "cube"; "object_name" := PyStr "cube";
                      "path" := PyStr "/proj/publish/cube.v3.abc";
                      "publish_path" := PyStr "/proj/publish/cube.v3.abc" ]};
     trace := [] |}.

Definition render_item : UploadVersion.Item :=
  {| UploadVersion.item_type := "maya.session.render";
     UploadVersion.parent_work_template := Some template |}.

Definition render_world : world :=
  {| selection := [];
     properties :=
       {[ "path" := PyStr "/proj/work/cube.v003.ma";
          "publish_data" := PyDict [("path", "/proj/render/beauty.####.exr")];
          "publish_path" := PyStr "/proj/render/beauty.####.exr";
          "maya.layer_name" := PyStr "beauty";
          "sequence_paths" := PyList ["/proj/render/beauty.1001.exr";
                                      "/proj/render/beauty.1002.exr"] ]};
     trace := [] |}.

Definition upload_env : UploadVersion.Env :=
  {| UploadVersion.get_template_by_name := fun _ => Some template;
     UploadVersion.template_validates := fun _ _ => true;
     UploadVersion.frames_per_second := "24.0";
     UploadVersion.environ_PATH := Some "/usr/bin";
     UploadVersion.platform_system := "Linux";
     UploadVersion.process_output := fun _ => ["frame=    1"; "frame=    2"];
     UploadVersion.process_exit_code := fun _ => 0 |}.

Definition upload_settings : gmap string pyval :=
  {[ "File Extensions" := PyStr "jpeg, jpg, png, mov, mp4, pdf, exr, avi, ma, mb";
     "Upload" := PyBool true;
     "Link Local File" := PyBool true;
     "Dailies Template" := PyStr "maya_render_dailies" ]}.

Definition workflow_environ : gmap string string :=
  {[ "UPDATECONFIGKEY" := "k3y"; "BRANCH" := "main"; "NEWCODE" := "v1.2.3" ]}.

End Samples.

(* ================================================================== *)
(** ** Notions the properties are stated and proved with               *)
(* ================================================================== *)

Module Properties.

(** A node counts as animated when it is a transform with an animatable
    attribute that has at least one keyframe, or a mesh whose [inMesh]
    attribute has an incoming connection. *)
Definition animated (h : Host) (n : string) : Prop :=
  (nodeType h (PyStr n) = "transform"
   ∧ ∃ attrs a, listAnimatable h (PyStr n) = Some attrs
                ∧ a ∈ attrs ∧ 0 < keyframeCount h a)
  ∨ (nodeType h (PyStr n) = "mesh" ∧ is_Some (incoming h (n +:+ ".inMesh"))).

(** The four settings [get_ui_settings] switches on. *)
Definition write_settings : list string :=
  [ "Write Face Sets"; "Write Uvs"; "Write Uv Sets"; "Write Color Sets" ].

(** The [cmds.sets(..., forceElement=sg)] calls among the events: the face
    components and the shading group of each, and the exception if the host
    refused the call. *)
Definition face_assignments (evs : list script_event)
  : list (list string * string * option exn) :=
  omap (fun e => match e with
                 | SetsForceElement faces sg raised => Some (faces, sg, raised)
                 | _ => None
                 end) evs.

(** A face component of a shape, as [_assign_faces_to_sg] writes it. *)
Definition face_component (shape_long : string) (idx : Z) : string :=
  shape_long +:+ ".f[" +:+ pretty idx +:+ "]".

(** The remote updates among the events of a run. *)
Definition is_update (e : event) : bool :=
  match e with
  | SgUpdate _ _ _ => true
  | _ => false
  end.

Definition updates (evs : list event) : list event :=
  filter (fun e => is_update e = true) evs.

(** The export commands among the events of a run: those that returned and
    those that raised. *)
Definition export_succeeded (evs : list event) : Prop :=
  ∃ cmd, Export cmd None ∈ evs.

Definition export_raised (evs : list event) (e : exn) : Prop :=
  ∃ cmd, Export cmd (Some e) ∈ evs.

(** The process started, if any. *)
Definition started_process (evs : list event) : bool :=
  existsb (fun e => match e with Popen _ _ _ => true | _ => false end) evs.

(** What one turn of the outer loop of [_geo_has_animation] decides about
    the node it looks at. *)
Definition turn (h : Host) (i : string) : bool :=
  if String.eqb (nodeType h (PyStr i)) "transform" then
    match listAnimatable h (PyStr i) with
    | Some attrs => ObjectGeo.any_keyframed h attrs
    | None => false
    end
  else if String.eqb (nodeType h (PyStr i)) "mesh" then
    bool_decide (is_Some (incoming h (i +:+ ".inMesh")))
  else false.

(** A helper function that returns and assigns no face. *)
Definition quiet (m : Script unit) : Prop :=
  m.2 = Ok tt ∧ face_assignments m.1 = [].

(** The session has no saved path. *)
Definition unsaved (h : Host) : Prop :=
  file_sn h = None ∨ file_sn h = Some "".

(** The run ended in a plain [Exception(msg)]. *)
Definition is_generic (r : result pyval) : Prop :=
  ∃ msg, r = Raise (PyException msg).

(** Every event a program adds to the trace satisfies [P]. *)
Definition emits (P : event -> Prop) {A} (m : M A) : Prop :=
  ∀ w, ∃ evs, trace (m w).2 = trace w ++ evs ∧ Forall P evs.

(** The events of a publish before its [try]. *)
Definition before_export (e : event) : Prop :=
  match e with
  | Script_ev _ | Select _ | EnsureFolder _ => True
  | _ => False
  end.

Definition is_export (e : event) : bool :=
  match e with
  | Export _ _ => true
  | _ => false
  end.

Definition exports (evs : list event) : list event :=
  filter (fun e => is_export e = true) evs.

(** The two hooks that export and then report, and their publish. *)
Inductive export_hook : Type :=
| GeometryHook (st : ObjectGeo.Settings)
| ShaderHook.

Definition hook_publish (k : export_hook) (h : Host) (fw : Framework)
  (item : Maya.Item) : M unit :=
  match k with
  | GeometryHook st => ObjectGeo.publish h fw st item
  | ShaderHook => Shader.publish h fw item
  end.

(** The message each hook logs when its export raised [e]. *)
Definition failure_message (k : export_hook) (e : exn) : string :=
  match k with
  | GeometryHook _ => "Failed to export Geometry: " +:+ str_of_exn e
  | ShaderHook => "Failed to export Shaders: " +:+ str_of_exn e
  end.

(** The shape the two publish methods share: a prelude that yields what to
    export, the guarded export, and the report. *)
Definition export_then_report
  (prelude : M string) (announce : string -> string)
  (outcome : string -> option exn) (failure : string) (item : Maya.Item)
  : M unit :=
  cur_selection ← ls_selection;
  cmd ← prelude;
  exported ← try_except
    (emit (LogDebug (announce cmd)) ;;
     run_export cmd (outcome cmd) ;;
     mret true)
    (fun e => emit (LogError (failure +:+ str_of_exn e)) ;; mret false);
  if exported : bool then
    emit BasePublish ;;
    select cur_selection ;;
    id ← of_result (dict_item (task (context item)) "id");
    emit (SgUpdate "Task" id [("sg_status_list", "rev")])
  else mret tt.

End Properties.
Import Properties.

(* ================================================================== *)
(** ** The accept methods                                              *)
(* ================================================================== *)

Module Accept.

(** What [accept] asks of the publisher and of the host. *)
Record Publisher : Type := {
  (* publisher.get_template_by_name(template_name) *)
  get_template_by_name : string -> option Template;
  (* mel.eval('exists "AbcExport"'), as a truth value *)
  abc_export_exists : bool
}.

(** What [accept] returns and what it leaves on the item: the dictionary
    with "accepted" and "checked", the item with its "publish_template"
    property set, and the item's [context_change_allowed] attribute. *)
Record answer : Type := Answer {
  accepted : bool;
  checked : bool;
  item_after : Maya.Item;
  context_change_allowed : bool
}.

(** [item.properties["publish_template"] = publish_template]. *)
Definition with_publish_template (item : Maya.Item) (t : option Template)
  : Maya.Item :=
  {| Maya.item_type := Maya.item_type item;
     work_template := work_template item;
     publish_template := t;
     context := context item |}.

(** [publisher.context.step['name'] in names]. *)
Definition step_in (ctx : Context) (names : list string) : result bool :=
  match dict_item (step ctx) "name" with
  | Ok (PyStr s) => Ok (bool_decide (s ∈ names))
  | Ok _ => Ok false
  | Raise e => Raise e
  end.

(** [publisher.context.entity['type'] == 'Asset']. *)
Definition entity_is_asset (ctx : Context) : result bool :=
  match dict_item (entity ctx) "type" with
  | Ok (PyStr s) => Ok (String.eqb s "Asset")
  | Ok _ => Ok false
  | Raise e => Raise e
  end.

(** The steps in which the geometry plugin is checked outright, and those
    in which it is checked for per-object items. *)
Definition modelling_steps : list string :=
  [ "MODEL"; "TEXTURE_A"; "CLAY_A"; "FOTOGRAMETRY_A"; "GROOM_A"; "MODEL_A";
    "SCAN_A" ].

Definition shot_steps : list string :=
  [ "TRACK_3D"; "LAYOUT"; "ANIMATION"; "CLOTH"; "CROWD"; "ANIMATION_A";
    "CHARACTER_FX_A"; "CLOTH_A"; "LAYOUT_A"; "MODEL_A"; "SCAN_A" ].

Definition animation_steps : list string := [ "ANIMATION"; "ANIMATION_A" ].

Section WithHost.

Variable h : Host.
Variable pub : Publisher.

(** The three checks both hooks start with; the third is the geometry
    hook's.  Each failed check logs and clears [accepted]. *)
Definition require_work_template (item : Maya.Item) (accepted : bool)
  : M bool :=
  match work_template item with
  | Some _ => mret accepted
  | None =>
      emit (LogDebug
              ("A work template is required for the session item in order to "
               +:+ "publish session geometry. Not accepting session geom item."))
      ;; mret false
  end.

Definition require_publish_template (t : option Template) (accepted : bool)
  : M bool :=
  match t with
  | Some _ => mret accepted
  | None =>
      emit (LogDebug
              ("The valid publish template could not be determined for the "
               +:+ "session geometry item. Not accepting the item."))
      ;; mret false
  end.

Definition require_abc_export (accepted : bool) : M bool :=
  if abc_export_exists pub then mret accepted
  else
    emit (LogDebug
            ("Item not accepted because alembic export command 'AbcExport' "
             +:+ "is not available. Perhaps the plugin is not enabled?"))
    ;; mret false.

(** [MayaObjectGeometryPublishPlugin.accept]. *)
Definition geometry_accept (st : ObjectGeo.Settings) (item : Maya.Item)
  : M answer :=
  let per_object :=
    negb (String.eqb (Maya.item_type item) "maya.session.geometries") in
  let template_name := ObjectGeo.publish_template_name st in
  accepted ← require_work_template item true;
  let publish_template := get_template_by_name pub template_name in
  accepted ← require_publish_template publish_template accepted;
  let item' := with_publish_template item publish_template in
  accepted ← require_abc_export accepted;
  parentNode ←
    (if per_object then
       cur_selection ← ls_selection;
       nodes ← prop_item "object" ≫= (fun v => of_result (nodes_of v));
       select nodes ;;
       sel ← ls_selection;
       s0 ← of_result (first sel);
       let parentNode := list_or_none (listRelatives_parent h s0) in
       select cur_selection ;;
       mret parentNode
     else call (fun _ => ObjectGeo._get_root_from_first_mesh h));
  in_modelling ← of_result (step_in (context item) modelling_steps);
  checked ←
    (if in_modelling : bool then mret true
     else
       in_shot ← of_result (step_in (context item) shot_steps);
       if in_shot : bool then
         animated ← of_result (ObjectGeo._geo_has_animation h parentNode);
         in_animation ←
           (if animated : bool then mret false
            else of_result (step_in (context item) animation_steps));
         if in_animation : bool then mret false else mret per_object
       else mret false);
  asset_session ←
    (if per_object then mret false
     else of_result (entity_is_asset (context item)));
  if asset_session : bool
  then mret (Answer false false item' false)
  else mret (Answer accepted checked item' false).

(** [MayaObjectShaderPublishPlugin.accept]; [template_name] is the value
    of its "Publish Template" setting. *)
Definition shader_accept (template_name : string) (item : Maya.Item)
  : M answer :=
  accepted ← require_work_template item true;
  let publish_template := get_template_by_name pub template_name in
  accepted ← require_publish_template publish_template accepted;
  let item' := with_publish_template item publish_template in
  obj ← prop_item "object" ≫= as_str;
  shading_groups ← call (fun _ => Shader._get_shading_groups_from_object h obj);
  let accepted :=
    match shading_groups with
    | [] => false
    | _ => accepted
    end in
  in_shading ←
    of_result (step_in (context item) ["SHADING_A"; "TEXTURE_A"]);
  if in_shading : bool
  then mret (Answer accepted true item' false)
  else mret (Answer false false item' false).

End WithHost.

End Accept.

(* ================================================================== *)
(** ** upload_version.py: accept                                       *)
(* ================================================================== *)

Module UploadAccept.

(** [s.lower()] on ASCII letters. *)
Definition lower_char (c : ascii) : ascii :=
  let n := nat_of_ascii c in
  if (65 <=? n)%nat && (n <=? 90)%nat then ascii_of_nat (n + 32) else c.

Fixpoint str_lower (s : string) : string :=
  match s with
  | EmptyString => EmptyString
  | String c s' => String (lower_char c) (str_lower s')
  end.

(** [s.split(sep)] for a one-character [sep]: [current] is the piece being
    read, reversed. *)
Fixpoint split_from (sep : ascii) (s : string) (current : string)
  : list string :=
  match s with
  | EmptyString => [String.rev current]
  | String c s' =>
      if Ascii.eqb c sep
      then String.rev current :: split_from sep s' EmptyString
      else split_from sep s' (String c current)
  end.

Definition str_split (sep : ascii) (s : string) : list string :=
  split_from sep s EmptyString.

(** [s.lstrip(c)]. *)
Fixpoint lstrip_char (c : ascii) (s : string) : string :=
  match s with
  | String a s' => if Ascii.eqb a c then lstrip_char c s' else s
  | EmptyString => EmptyString
  end.

(** The loop that fills [valid_extensions]. *)
Definition valid_extensions (setting : string) : list string :=
  map (fun ext => lstrip_char "."%char (strip ext)) (str_split ","%char setting).

(** [accept]: [file_extension] stands for
    [publisher.util.get_file_path_components(path)["extension"]]. *)
Definition accept (file_extension : string -> string)
  (settings : gmap string pyval) (item : UploadVersion.Item) : M bool :=
  path ← UploadVersion.call_by_name "_session_path";
  prop_set "path" (PyStr path) ;;
  let extension := str_lower (file_extension path) in
  setting ←
    match settings !! "File Extensions" with
    | Some (PyStr v) => mret v
    | Some _ => raise (AttributeError "object has no attribute 'split'")
    | None => raise (KeyError "File Extensions")
    end;
  let valid := valid_extensions setting in
  emit (LogDebug ("Valid extensions: " +:+ repr_list valid)) ;;
  if bool_decide (extension ∈ valid)
     || String.eqb (UploadVersion.item_type item) "maya.session"
  then
    emit (LogInfo ("Version upload plugin accepted: " +:+ path)) ;;
    mret true
  else
    emit (LogDebug (extension +:+ " is not in the valid extensions list "
                    +:+ "for Version creation")) ;;
    mret false.

End UploadAccept.

(* ================================================================== *)
(** ** What one shading group contributes to the face assignments      *)
(* ================================================================== *)

Module FaceSets.

(** The face indices of the shape found among the members of one shading
    group: its face components, expanded and parsed. *)
Definition face_indices_of (h : Host) (shape_long sg : string) : gset Z :=
  ObjectGeo._parse_face_indices
    (ObjectGeo._expand_face_components h
       (filter (fun m => ObjectGeo.is_face_member shape_long m = true)
               (ObjectGeo._members_for_sg h sg))).

(** Whether one shading group holds the shape at object level: a member
    that is no face component and names the shape or its transform. *)
Definition object_level_here (h : Host) (shape_long sg : string) : bool :=
  existsb (fun m => negb (ObjectGeo.is_face_member shape_long m)
                    && ObjectGeo._is_member_object_level_for_shape
                         h m shape_long)
          (ObjectGeo._members_for_sg h sg).

(** The [cmds.sets(target, remove=sg)] calls among the events. *)
Definition removals (evs : list script_event) : list (string * string) :=
  omap (fun e => match e with
                 | SetsRemove target sg _ => Some (target, sg)
                 | _ => None
                 end) evs.

(** A character that [int] does not strip and that closes no bracket: what
    the digits and the sign of a written integer are. *)
Definition plain (c : ascii) : Prop :=
  is_space c = false ∧ c ≠ "["%char ∧ c ≠ "]"%char.

End FaceSets.
Import FaceSets.

(* ================================================================== *)
(** ** More sample inputs                                              *)
(* ================================================================== *)

Module MoreSamples.

(** A publisher that knows every template and has AbcExport loaded. *)
Definition publisher : Accept.Publisher :=
  {| Accept.get_template_by_name := fun _ => Some Samples.template;
     Accept.abc_export_exists := true |}.

(** A context without a task: a publish started from the entity. *)
Definition taskless_context : Context :=
  {| step := Some {[ "name" := PyStr "SHADING_A" ]};
     entity := Some {[ "type" := PyStr "Asset" ]};
     task := None |}.

Definition animation_context : Context :=
  {| step := Some {[ "name" := PyStr "ANIMATION" ]};
     entity := Some {[ "type" := PyStr "Shot" ]};
     task := Some {[ "id" := PyInt 79 ]} |}.

(** A context without a task in a shot step. *)
Definition taskless_layout_context : Context :=
  {| step := Some {[ "name" := PyStr "LAYOUT" ]};
     entity := Some {[ "type" := PyStr "Shot" ]};
     task := None |}.

(** The scene of [Samples.scene] as the host lists it when it names the
    faces of [redSG] through the shape's short name: [cmds.sets("redSG",
    query=True)] gives ["cubeShape.f[0:1]"], [cmds.ls] of that component
    gives its long name, and [cmds.nodeType] of a component is the type of
    its shape. *)
Definition short_name_scene : Host :=
  {| file_sn := file_sn Samples.scene;
     ls_geometry := ls_geometry Samples.scene;
     ls_meshes := ls_meshes Samples.scene;
     ls_long := fun name =>
       if String.eqb name "cubeShape.f[0:1]"
       then [Samples.cubeShape +:+ ".f[0:1]"]
       else ls_long Samples.scene name;
     long_name := long_name Samples.scene;
     objExists := objExists Samples.scene;
     nodeType := fun node =>
       match node with
       | PyStr name =>
           if String.eqb name (Samples.cubeShape +:+ ".f[0:1]") then "mesh"
           else nodeType Samples.scene node
       | _ => nodeType Samples.scene node
       end;
     ancestors := ancestors Samples.scene;
     descendants := descendants Samples.scene;
     descendant_meshes := descendant_meshes Samples.scene;
     descendant_shapes := descendant_shapes Samples.scene;
     child_shapes := child_shapes Samples.scene;
     listAnimatable := listAnimatable Samples.scene;
     keyframeCount := keyframeCount Samples.scene;
     incoming := incoming Samples.scene;
     shadingEngines := shadingEngines Samples.scene;
     sets_members := Samples.table
                       [("lambertSG", Ok (Some ["cube"]));
                        ("redSG", Ok (Some ["cubeShape.f[0:1]"]))]
                       (Ok None);
     filterExpand := filterExpand Samples.scene;
     polyEvaluate_face := polyEvaluate_face Samples.scene;
     playback_min := playback_min Samples.scene;
     playback_max := playback_max Samples.scene;
     sets_forceElement := sets_forceElement Samples.scene;
     sets_remove := sets_remove Samples.scene;
     mel_eval := mel_eval Samples.scene;
     file_export := file_export Samples.scene |}.

End MoreSamples.

(* ================================================================== *)
(** * Theorems                                                         *)
(* ================================================================== *)

(* ================================================================== *)
(** ** Animation detection                                             *)
(* ================================================================== *)

Section GeoHasAnimation.

Variable h : Host.

Lemma any_keyframed_spec (attrs : list string) :
  ObjectGeo.any_keyframed h attrs = true
  ↔ ∃ a, a ∈ attrs ∧ 0 < keyframeCount h a.
Proof.
  induction attrs as [|a attrs IH]; simpl.
  - split; [discriminate|]. intros (a & Ha & _). by apply elem_of_nil in Ha.
  - destruct (0 <? keyframeCount h a) eqn:E.
    + split; [|done]. intros _. exists a. split; [left|]. by apply Z.ltb_lt.
    + rewrite IH. apply Z.ltb_ge in E. split.
      * intros (b & Hb & Hk). exists b. split; [by right|done].
      * intros (b & Hb & Hk). apply elem_of_cons in Hb as [->|Hb]; [lia|eauto].
Qed.

Lemma turn_animated (i : string) : turn h i = true ↔ animated h i.
Proof.
  unfold turn, animated.
  destruct (String.eqb_spec (nodeType h (PyStr i)) "transform") as [Ht|Ht].
  - rewrite Ht. split.
    + intros H. left. split; [done|].
      destruct (listAnimatable h (PyStr i)) as [attrs|]; [|done].
      apply any_keyframed_spec in H as (a & Ha & Hk). eauto.
    + intros [(_ & attrs & a & -> & Ha & Hk)|(Hm & _)]; [|done].
      apply any_keyframed_spec. eauto.
  - destruct (String.eqb_spec (nodeType h (PyStr i)) "mesh") as [Hm|Hm].
    + rewrite bool_decide_eq_true. split; [by right|].
      intros [(Ht' & _)|(_ & Hc)]; [done|done].
    + split; [done|]. intros [(Ht' & _)|(Hm' & _)]; done.
Qed.

Lemma scan_nodos_names (l : list string) :
  ObjectGeo.scan_nodos h (map PyStr l) = Ok (existsb (turn h) l).
Proof.
  induction l as [|i l IH]; [done|].
  cbn [map existsb ObjectGeo.scan_nodos]. unfold turn at 1.
  destruct (String.eqb (nodeType h (PyStr i)) "transform").
  - destruct (listAnimatable h (PyStr i)) as [attrs|]; [|done].
    by destruct (ObjectGeo.any_keyframed h attrs).
  - destruct (String.eqb (nodeType h (PyStr i)) "mesh"); [|done].
    cbn [ObjectGeo.inMesh_attribute].
    destruct (incoming h (i +:+ ".inMesh")) as [c|]; [done|].
    rewrite IH. done.
Qed.

End GeoHasAnimation.

(** C7, as amended.  [_geo_has_animation] always returns for a node given by
    name, and it returns True exactly when the node has descendants and the
    node or one of them is animated; for a node without descendants it
    returns False whatever the node's own keys or connections. *)
Theorem geo_has_animation_iff (h : Host) (node : string) :
  ∃ b, ObjectGeo._geo_has_animation h (PyStr node) = Ok b
       ∧ (b = true ↔ ∃ nodos i, descendants h (PyStr node) = Some nodos
                                ∧ i ∈ node :: nodos ∧ animated h i)
       ∧ (descendants h (PyStr node) = None → b = false).
Proof.
  unfold ObjectGeo._geo_has_animation.
  destruct (descendants h (PyStr node)) as [nodos|].
  - exists (existsb (turn h) (node :: nodos)).
    split; [apply (scan_nodos_names h (node :: nodos))|].
    split; [|done].
    rewrite existsb_exists. split.
    + intros (i & Hi & Ht). exists nodos, i.
      split; [done|]. split; [by apply list_elem_of_In|by apply turn_animated].
    + intros (nodos' & i & [= <-] & Hi & Ha). exists i.
      split; [by apply list_elem_of_In|by apply turn_animated].
  - exists false. split; [done|]. split; [|done].
    split; [done|]. by intros (? & ? & ? & _).
Qed.

(** C7, as stated, fails on a keyed transform without children: the node is
    animated in the sense of the claim, and the answer is False. *)
Lemma geo_has_animation_leaf_counterexample :
  animated Samples.scene "|lonely"
  ∧ descendants Samples.scene (PyStr "|lonely") = None
  ∧ ObjectGeo._geo_has_animation Samples.scene (PyStr "|lonely") = Ok false.
Proof.
  split; [|split; reflexivity].
  left. split; [reflexivity|].
  exists ["|lonely.translateX"], "|lonely.translateX".
  split; [reflexivity|]. split; [left|reflexivity].
Qed.

(* ================================================================== *)
(** ** The step-name condition and [get_ui_settings]                   *)
(* ================================================================== *)

(** The condition never reads the step name: its left operand is a
    non-empty string. *)
Lemma texture_or_shading_constant (step_name : unit -> result pyval) :
  ObjectGeo.texture_or_shading step_name = Ok (PyStr "TEXTURE").
Proof. reflexivity. Qed.

(** C10.  Whatever the context (step, entity, task) and whatever the base
    class returned, [get_ui_settings] returns a dictionary in which the four
    write settings are True and every other key is as the base class left
    it; two contexts give the same dictionary. *)
Theorem get_ui_settings_all_true (base_ui : gmap string pyval) (ctx : Context) :
  ∃ ui, ObjectGeo.get_ui_settings base_ui ctx = Ok ui
        ∧ ui !! "Write Face Sets" = Some (PyBool true)
        ∧ ui !! "Write Uvs" = Some (PyBool true)
        ∧ ui !! "Write Uv Sets" = Some (PyBool true)
        ∧ ui !! "Write Color Sets" = Some (PyBool true)
        ∧ (∀ key, key ∉ write_settings → ui !! key = base_ui !! key)
        ∧ (∀ ctx', ObjectGeo.get_ui_settings base_ui ctx' = Ok ui).
Proof.
  unfold ObjectGeo.get_ui_settings.
  rewrite texture_or_shading_constant. cbn [truthy String.eqb negb].
  eexists. split; [reflexivity|].
  split; [by simplify_map_eq|]. split; [by simplify_map_eq|].
  split; [by simplify_map_eq|]. split; [by simplify_map_eq|].
  split; [|done].
  intros key Hkey. unfold write_settings in Hkey.
  rewrite !lookup_insert_ne; [done|set_solver..].
Qed.

(* ================================================================== *)
(** ** The workflow script                                             *)
(* ================================================================== *)

(** C8.  With the three variables set, [main] returns after exactly one
    remote write, the update of PipelineConfiguration 2542 whose descriptor
    is the concatenation of the literal parts with BRANCH and NEWCODE; a
    second environment with the same BRANCH and NEWCODE (and some key)
    produces the same write; and in no environment does [main] write
    anything else. *)
Theorem update_config_single_write
  (environ : gmap string string) (key branch newcode : string) :
  environ !! "UPDATECONFIGKEY" = Some key →
  environ !! "BRANCH" = Some branch →
  environ !! "NEWCODE" = Some newcode →
  (UpdateConfig.main environ).2 = Ok tt
  ∧ UpdateConfig.writes (UpdateConfig.main environ).1
    = [ UpdateConfig.Update "PipelineConfiguration" 2542
          [("descriptor",
            "sgtk:descriptor:git_branch?branch=" +:+ branch
            +:+ "&path=https://github.com/Dps-CCV/DPS_CONFIG_DEV.git&version="
            +:+ newcode)] ]
  ∧ (∀ environ' : gmap string string,
       is_Some (environ' !! "UPDATECONFIGKEY") →
       environ' !! "BRANCH" = environ !! "BRANCH" →
       environ' !! "NEWCODE" = environ !! "NEWCODE" →
       UpdateConfig.writes (UpdateConfig.main environ').1
       = UpdateConfig.writes (UpdateConfig.main environ).1)
  ∧ (∀ environ' : gmap string string,
       UpdateConfig.writes (UpdateConfig.main environ').1 = []
       ∨ ∃ data, UpdateConfig.writes (UpdateConfig.main environ').1
                 = [UpdateConfig.Update "PipelineConfiguration" 2542 data]).
Proof.
  intros Hk Hb Hn.
  assert (Hany : ∀ environ' : gmap string string,
       UpdateConfig.writes (UpdateConfig.main environ').1 = []
       ∨ ∃ data, UpdateConfig.writes (UpdateConfig.main environ').1
                 = [UpdateConfig.Update "PipelineConfiguration" 2542 data]).
  { intros e. unfold UpdateConfig.main, UpdateConfig.environ_item.
    destruct (e !! "UPDATECONFIGKEY"); [|by left].
    destruct (e !! "BRANCH"); [|by left].
    destruct (e !! "NEWCODE"); [|by left].
    right. by eexists. }
  assert (Hrun : ∀ e k, e !! "UPDATECONFIGKEY" = Some k →
                 e !! "BRANCH" = Some branch → e !! "NEWCODE" = Some newcode →
                 UpdateConfig.main e
                 = ([UpdateConfig.Connect "https://dareplanet.shotgunstudio.com"
                       "GithubUpdateConfig" k;
                     UpdateConfig.Update "PipelineConfiguration" 2542
                       [("descriptor", UpdateConfig.descriptor branch newcode)]],
                    Ok tt)).
  { intros e k H1 H2 H3. unfold UpdateConfig.main, UpdateConfig.environ_item.
    by rewrite H1, H2, H3. }
  rewrite (Hrun _ _ Hk Hb Hn). split; [done|]. split; [done|].
  split; [|exact Hany].
  intros environ' [k' Hk'] Hb' Hn'. rewrite Hb in Hb'. rewrite Hn in Hn'.
  by rewrite (Hrun _ _ Hk' Hb' Hn').
Qed.

Lemma update_config_single_write_witness :
  (UpdateConfig.main Samples.workflow_environ).2 = Ok tt
  ∧ UpdateConfig.writes (UpdateConfig.main Samples.workflow_environ).1
    = [ UpdateConfig.Update "PipelineConfiguration" 2542
          [("descriptor",
            "sgtk:descriptor:git_branch?branch=main&path=https://github.com/Dps-CCV/DPS_CONFIG_DEV.git&version=v1.2.3")] ].
Proof.
  destruct (update_config_single_write Samples.workflow_environ
              "k3y" "main" "v1.2.3") as (H1 & H2 & _ & _);
    [reflexivity..|].
  split; [exact H1|exact H2].
Defined.

(* ================================================================== *)
(** ** The lifecycle methods of the hook classes                       *)
(* ================================================================== *)

(** C6.  Under a base class that provides finalize, as the base file
    publisher these classes are written to inherit from does, every hook
    class of the repository answers to each of the four lifecycle methods
    accept, validate, publish and finalize.  Each class defines accept,
    validate and publish in its own body; finalize is UploadVersionPlugin's
    own, and the base class's for the two other classes. *)
Theorem lifecycle_methods
  (base_methods : list string) (c : Plugins.class_def) (method : string) :
  "finalize" ∈ base_methods →
  c ∈ Plugins.hook_classes →
  method ∈ Plugins.lifecycle →
  Plugins.responds_to base_methods c method = true
  ∧ Plugins.defines c method
    = negb (String.eqb method "finalize"
            && negb (String.eqb (Plugins.class_name c) "UploadVersionPlugin")).
Proof.
  intros Hbase Hc Hm.
  assert (Hdef : Plugins.defines c method
    = negb (String.eqb method "finalize"
            && negb (String.eqb (Plugins.class_name c) "UploadVersionPlugin"))).
  { unfold Plugins.hook_classes, Plugins.lifecycle in *.
    repeat (apply elem_of_cons in Hc as [->|Hc]);
      [| | |by apply elem_of_nil in Hc];
      repeat (apply elem_of_cons in Hm as [->|Hm]);
      try (by apply elem_of_nil in Hm); reflexivity. }
  split; [|exact Hdef].
  unfold Plugins.responds_to. rewrite Hdef.
  destruct (String.eqb_spec method "finalize") as [->|_]; [|done].
  rewrite bool_decide_eq_true_2 by done. by rewrite orb_true_r.
Qed.

Lemma lifecycle_methods_witness :
  Plugins.responds_to Plugins.lifecycle
    Plugins.MayaObjectShaderPublishPlugin "finalize" = true
  ∧ Plugins.responds_to Plugins.lifecycle
      Plugins.MayaObjectGeometryPublishPlugin "publish" = true.
Proof.
  split.
  - apply (lifecycle_methods Plugins.lifecycle
             Plugins.MayaObjectShaderPublishPlugin "finalize");
      apply list_elem_of_In; simpl; auto 10.
  - apply (lifecycle_methods Plugins.lifecycle
             Plugins.MayaObjectGeometryPublishPlugin "publish");
      apply list_elem_of_In; simpl; auto 10.
Defined.

(** The geometry and the shader hook have no finalize of their own: it is
    the base class that answers for them, and under a base without it they
    would not answer. *)
Lemma finalize_is_inherited :
  Plugins.defines Plugins.MayaObjectGeometryPublishPlugin "finalize" = false
  ∧ Plugins.defines Plugins.MayaObjectShaderPublishPlugin "finalize" = false
  ∧ Plugins.defines Plugins.UploadVersionPlugin "finalize" = true
  ∧ Plugins.responds_to [] Plugins.MayaObjectGeometryPublishPlugin "finalize"
    = false.
Proof. repeat split; reflexivity. Qed.

(* ================================================================== *)
(** ** Baking face sets from the geometry hook's publish               *)
(* ================================================================== *)

Lemma convert_name_unbound :
  resolve ObjectGeo.module_globals "convert_object_level_materials_to_face_sets"
  = Raise (NameError "convert_object_level_materials_to_face_sets").
Proof. reflexivity. Qed.

Lemma convert_underscore_name_bound :
  resolve ObjectGeo.module_globals
          "_convert_object_level_materials_to_face_sets" = Ok tt.
Proof. reflexivity. Qed.

Lemma bake_raises (h : Host) (remove verbose : bool) (sel shapes : list string) :
  (ObjectGeo._get_selected_mesh_shapes h sel).2 = Ok shapes →
  shapes ≠ [] →
  ObjectGeo.bake_facesets_for_selection h remove verbose sel
  = ((ObjectGeo._get_selected_mesh_shapes h sel).1,
     Raise (NameError "convert_object_level_materials_to_face_sets")).
Proof.
  intros Hs Hne. unfold ObjectGeo.bake_facesets_for_selection.
  destruct (ObjectGeo._get_selected_mesh_shapes h sel) as [evs r].
  simpl in Hs. subst r. destruct shapes as [|s rest]; [done|].
  unfold mbind, Script_bind, script_bind. cbn [script_for].
  unfold mbind, Script_bind, script_bind, ObjectGeo.call_by_name.
  rewrite convert_name_unbound. simpl. by rewrite app_nil_r.
Qed.

(** C1.  A per-object item that carries its path and its object makes
    publish select the object and call [bake_facesets_for_selection],
    whatever the step: the condition in front of the call is the string
    "TEXTURE" for every step name.  The call looks up
    [convert_object_level_materials_to_face_sets], which the module does not
    bind (it binds the name with a leading underscore), so whenever the
    selection yields a mesh shape the call, and with it publish, ends in
    NameError; nothing in publish catches it, and the export is never
    reached. *)
Theorem bake_facesets_name_error
  (h : Host) (fw : Framework) (st : ObjectGeo.Settings) (item : Maya.Item)
  (w : world) (p : string) (obj : pyval) (nodes shapes : list string) :
  Maya.item_type item ≠ "maya.session.geometries" →
  properties w !! "path" = Some (PyStr p) →
  properties w !! "object" = Some obj →
  nodes_of obj = Ok nodes →
  (ObjectGeo._get_selected_mesh_shapes h nodes).2 = Ok shapes →
  shapes ≠ [] →
  (∀ remove verbose sel shapes',
     (ObjectGeo._get_selected_mesh_shapes h sel).2 = Ok shapes' →
     shapes' ≠ [] →
     (ObjectGeo.bake_facesets_for_selection h remove verbose sel).2
     = Raise (NameError "convert_object_level_materials_to_face_sets"))
  ∧ resolve ObjectGeo.module_globals
            "convert_object_level_materials_to_face_sets"
    = Raise (NameError "convert_object_level_materials_to_face_sets")
  ∧ resolve ObjectGeo.module_globals
            "_convert_object_level_materials_to_face_sets" = Ok tt
  ∧ (∀ step_name, ∃ c, ObjectGeo.texture_or_shading step_name = Ok c
                       ∧ truthy c = true)
  ∧ (ObjectGeo.publish h fw st item w).1
    = Raise (NameError "convert_object_level_materials_to_face_sets")
  ∧ trace (ObjectGeo.publish h fw st item w).2
    = trace w ++ [EnsureFolder (dirname fw p); Select nodes]
      ++ map Script_ev
           (ObjectGeo.bake_facesets_for_selection h true true nodes).1.
Proof.
  intros Hty Hpath Hobj Hnodes Hshapes Hne.
  split. { intros r v sel shapes' H1 H2. by rewrite (bake_raises _ _ _ _ _ H1 H2). }
  split; [reflexivity|]. split; [reflexivity|].
  split. { intros step_name. by exists (PyStr "TEXTURE"). }
  apply String.eqb_neq in Hty.
  unfold ObjectGeo.publish, ObjectGeo.export_command.
  unfold mbind, M_bind, hook_bind, ls_selection, prop_item, as_str, emit,
    prop_set, select, of_result, call, mret, M_ret, hook_ret.
  cbn [properties selection trace].
  rewrite Hpath. cbn [properties selection trace]. rewrite Hty.
  cbn [negb properties selection trace].
  rewrite lookup_insert_ne by done. rewrite Hobj, Hnodes.
  cbn [properties selection trace ObjectGeo.texture_or_shading py_or truthy
       String.eqb negb].
  rewrite (bake_raises _ _ _ _ _ Hshapes Hne).
  cbn [fst snd properties selection trace].
  split; [done|]. by rewrite <- !app_assoc.
Qed.

Lemma bake_facesets_name_error_witness :
  (ObjectGeo.publish Samples.scene Samples.framework Samples.geo_settings
     (Samples.object_item Samples.layout_context) Samples.validated_world).1
  = Raise (NameError "convert_object_level_materials_to_face_sets").
Proof.
  eapply (bake_facesets_name_error Samples.scene Samples.framework
            Samples.geo_settings (Samples.object_item Samples.layout_context)
            Samples.validated_world "/proj/publish/cube.v3.abc"
            (PyStr "cube") ["cube"] ["|grp|cube|cubeShape"]);
    [discriminate|reflexivity..|discriminate].
Defined.

(* ================================================================== *)
(** ** Converting object-level materials to face sets                  *)
(* ================================================================== *)

Section Convert.

Variable h : Host.

Lemma script_bind_events {A B} (m : Script A) (k : A -> Script B) :
  (m ≫= k).1 = m.1 ++ match m.2 with Ok a => (k a).1 | Raise _ => [] end.
Proof.
  unfold mbind, Script_bind, script_bind. destruct m as [evs [a|e]]; simpl.
  - by destruct (k a).
  - by rewrite app_nil_r.
Qed.

Lemma script_bind_result {A B} (m : Script A) (k : A -> Script B) :
  (m ≫= k).2 = match m.2 with Ok a => (k a).2 | Raise e => Raise e end.
Proof.
  unfold mbind, Script_bind, script_bind. destruct m as [evs [a|e]]; simpl.
  - by destruct (k a).
  - done.
Qed.

Lemma face_assignments_app (l1 l2 : list script_event) :
  face_assignments (l1 ++ l2) = face_assignments l1 ++ face_assignments l2.
Proof. apply omap_app. Qed.

Lemma quiet_ret : quiet (mret tt).
Proof. done. Qed.

Lemma quiet_printed (line : string) : quiet (tell (Printed line)).
Proof. done. Qed.

Lemma quiet_bind (m : Script unit) (k : unit -> Script unit) :
  quiet m → quiet (k tt) → quiet (m ≫= k).
Proof.
  intros [R1 E1] [R2 E2]. split.
  - by rewrite script_bind_result, R1.
  - by rewrite script_bind_events, R1, face_assignments_app, E1, E2.
Qed.

Lemma quiet_when (b : bool) (m : Script unit) :
  quiet m → quiet (ObjectGeo.when b m).
Proof. by destruct b. Qed.

Lemma quiet_remove (shape_long sg : string) :
  quiet (ObjectGeo._remove_object_level_membership h shape_long sg).
Proof.
  unfold ObjectGeo._remove_object_level_membership. cbn [script_for].
  apply quiet_bind.
  { by destruct (String.eqb shape_long ""). }
  apply quiet_bind; [|done].
  destruct (ObjectGeo._get_shape_transform h shape_long) as [t|]; [|done].
  by destruct (String.eqb t "").
Qed.

Lemma sorted_elem_of (s : gset Z) (i : Z) : i ∈ ObjectGeo.sorted s ↔ i ∈ s.
Proof.
  unfold ObjectGeo.sorted.
  rewrite (merge_sort_Permutation Z.le (elements s)). apply elem_of_elements.
Qed.

Lemma sorted_NoDup (s : gset Z) : NoDup (ObjectGeo.sorted s).
Proof.
  unfold ObjectGeo.sorted.
  rewrite (merge_sort_Permutation Z.le (elements s)). apply NoDup_elements.
Qed.

Lemma sorted_nil (s : gset Z) : ObjectGeo.sorted s = [] → s = ∅.
Proof.
  intros H. apply set_eq. intros i. rewrite <- sorted_elem_of, H. set_solver.
Qed.

Lemma assign_nonempty (shape_long sg : string) (s : gset Z) :
  s ≠ ∅ →
  (ObjectGeo._assign_faces_to_sg h shape_long s sg).2 = Ok tt
  ∧ face_assignments (ObjectGeo._assign_faces_to_sg h shape_long s sg).1
    = [(map (face_component shape_long) (ObjectGeo.sorted s), sg,
        sets_forceElement h
          (map (face_component shape_long) (ObjectGeo.sorted s)) sg)].
Proof.
  intros Hne. unfold ObjectGeo._assign_faces_to_sg.
  destruct (ObjectGeo.sorted s) as [|i idxs] eqn:E.
  { by apply sorted_nil in E. }
  by destruct (sets_forceElement h _ sg).
Qed.

Lemma convert_loop_done (shape_long : string) (remove : bool)
  (sgs : list string) :
  ObjectGeo.convert_loop h shape_long remove sgs ∅ = mret ∅.
Proof. destruct sgs; [done|]. simpl. by rewrite decide_True. Qed.

Lemma convert_loop_first (shape_long : string) (remove : bool)
  (sg0 : string) (rest : list string) (remaining : gset Z) :
  (ObjectGeo.convert_loop h shape_long remove (sg0 :: rest) remaining).2
  = Ok (if decide (remaining = ∅) then remaining else ∅)
  ∧ face_assignments
      (ObjectGeo.convert_loop h shape_long remove (sg0 :: rest) remaining).1
    = if decide (remaining = ∅) then []
      else [(map (face_component shape_long) (ObjectGeo.sorted remaining),
             sg0,
             sets_forceElement h
               (map (face_component shape_long) (ObjectGeo.sorted remaining))
               sg0)].
Proof.
  cbn [ObjectGeo.convert_loop]. destruct (decide (remaining = ∅)) as [E|E].
  { done. }
  destruct (assign_nonempty shape_long sg0 remaining E) as [R1 E1].
  assert (Hrm : quiet (if remove
                       then ObjectGeo._remove_object_level_membership
                              h shape_long sg0
                       else mret tt)).
  { destruct remove; [apply quiet_remove|done]. }
  destruct Hrm as [R2 E2].
  rewrite difference_diag_L, convert_loop_done.
  rewrite !script_bind_result, !script_bind_events, R1, R2.
  rewrite !face_assignments_app, E1, E2. done.
Qed.

End Convert.

(** What the conversion assigns, in the collector's terms.  For a mesh
    shape with at least one object-level shading group, the conversion
    returns, and the faces it assigns are these: if some face of the shape is
    not among the per-face assignments the collector found, one call assigns
    all such faces, and only those, to the first object-level shading group
    (a call the host refuses is followed by a warning, not by another
    call); otherwise there is no call.  No later shading group is assigned
    a face, and no face among the assignments the collector found is
    assigned again. *)
Theorem convert_assigns_rest_to_first
  (h : Host) (shape_long : string) (remove verbose : bool)
  (c : ObjectGeo.collected) (face_count : Z)
  (sg0 : string) (rest : list string) :
  nodeType h (PyStr shape_long) = "mesh" →
  ObjectGeo._collect_face_assignments_for_shape h shape_long
    (ObjectGeo._connected_shading_groups h shape_long) = (c, face_count) →
  ObjectGeo.object_level_sgs c = sg0 :: rest →
  let idxs :=
    ObjectGeo.sorted ((list_to_set (seqZ 0 face_count) : gset Z)
                      ∖ ObjectGeo.assigned_faces_all c) in
  (ObjectGeo._convert_object_level_materials_to_face_sets
     h shape_long remove verbose).2 = Ok tt
  ∧ face_assignments
      (ObjectGeo._convert_object_level_materials_to_face_sets
         h shape_long remove verbose).1
    = match idxs with
      | [] => []
      | _ => [(map (face_component shape_long) idxs, sg0,
               sets_forceElement h (map (face_component shape_long) idxs) sg0)]
      end
  ∧ NoDup idxs
  ∧ (∀ i, i ∈ idxs
          ↔ 0 ≤ i < face_count ∧ i ∉ ObjectGeo.assigned_faces_all c).
Proof.
  intros Hmesh Hcollect Hol.
  set (remaining :=
         (list_to_set (seqZ 0 face_count) : gset Z)
         ∖ ObjectGeo.assigned_faces_all c).
  intros idxs. subst idxs.
  assert (Hin : ∀ i, i ∈ ObjectGeo.sorted remaining
                     ↔ 0 ≤ i < face_count
                       ∧ i ∉ ObjectGeo.assigned_faces_all c).
  { intros i. rewrite sorted_elem_of. unfold remaining.
    rewrite elem_of_difference, elem_of_list_to_set, elem_of_seqZ.
    split; intros [? ?]; (split; [lia|done]). }
  unfold ObjectGeo._convert_object_level_materials_to_face_sets.
  rewrite Hmesh. cbn [String.eqb Ascii.eqb Bool.eqb negb].
  destruct (ObjectGeo._connected_shading_groups h shape_long) as [|s ss] eqn:Esgs.
  { unfold ObjectGeo._collect_face_assignments_for_shape in Hcollect.
    simpl in Hcollect. injection Hcollect as <- _. done. }
  rewrite Hcollect, Hol.
  fold remaining.
  destruct (convert_loop_first h shape_long remove sg0 rest remaining)
    as [R E].
  assert (Q1 : quiet (ObjectGeo.when verbose
    (tell (Printed (newline +:+ "[FaceSets] Processing: " +:+ shape_long)) ;;
     tell (Printed ("  Connected SGs: " +:+ join ", " (s :: ss))) ;;
     tell (Printed ("  Face count: " +:+ pretty face_count)) ;;
     tell (Printed ("  Object-level SGs detected: "
                    +:+ join ", " (sg0 :: rest)))))).
  { apply quiet_when. repeat (apply quiet_bind; [done|]). done. }
  destruct Q1 as [R1 E1].
  rewrite !script_bind_result, !script_bind_events, R1, R.
  rewrite !face_assignments_app, E1, E.
  split.
  { by destruct verbose. }
  split.
  { assert (face_assignments
              (ObjectGeo.when verbose
                 (tell (Printed
                    ("  Conversion done (remaining unassigned faces after pass: "
                     +:+ pretty (Z.of_nat (size
                           (if decide (remaining = ∅) then remaining else ∅)))
                     +:+ ").")))).1 = []) as -> by (by destruct verbose).
    rewrite app_nil_r. simpl.
    destruct (decide (remaining = ∅)) as [E0|E0].
    - rewrite E0. unfold ObjectGeo.sorted. by rewrite elements_empty.
    - destruct (ObjectGeo.sorted remaining) eqn:Es; [|done].
      by apply sorted_nil in Es. }
  split; [apply sorted_NoDup|exact Hin].
Qed.

Lemma convert_assigns_rest_to_first_witness :
  face_assignments
    (ObjectGeo._convert_object_level_materials_to_face_sets
       Samples.scene Samples.cubeShape true true).1
  = [(map (face_component Samples.cubeShape) [2; 3; 4; 5], "lambertSG",
      None)].
Proof.
  destruct (convert_assigns_rest_to_first Samples.scene Samples.cubeShape
              true true
              (ObjectGeo._collect_face_assignments_for_shape Samples.scene
                 Samples.cubeShape ["lambertSG"; "redSG"]).1
              6 "lambertSG" [])
    as (_ & H & _ & _); [reflexivity..|].
  rewrite H. vm_compute. reflexivity.
Defined.

(** C9.  Where the host names the faces of a shading group through the
    shape's short name, the conversion reassigns them.  In
    [MoreSamples.short_name_scene] faces 0 and 1 of the cube are in [redSG],
    listed as "cubeShape.f[0:1]"; the collector does not take that member
    for a face component of the shape, finds no face assigned, and the
    conversion hands all six faces, 0 and 1 among them, to [lambertSG].
    With the same faces listed by long name ([Samples.scene]) it hands over
    faces 2 to 5 only. *)
Theorem convert_reassigns_short_named_faces :
  ObjectGeo._members_for_sg MoreSamples.short_name_scene "redSG"
  = ["cubeShape.f[0:1]"]
  ∧ filterExpand MoreSamples.short_name_scene ["cubeShape.f[0:1]"]
    = Some [face_component Samples.cubeShape 0;
            face_component Samples.cubeShape 1]
  ∧ ObjectGeo.is_face_member Samples.cubeShape "cubeShape.f[0:1]" = false
  ∧ elements
      (ObjectGeo.assigned_faces_all
         (ObjectGeo._collect_face_assignments_for_shape
            MoreSamples.short_name_scene Samples.cubeShape
            (ObjectGeo._connected_shading_groups
               MoreSamples.short_name_scene Samples.cubeShape)).1) = []
  ∧ face_assignments
      (ObjectGeo._convert_object_level_materials_to_face_sets
         MoreSamples.short_name_scene Samples.cubeShape true true).1
    = [(map (face_component Samples.cubeShape) [0; 1; 2; 3; 4; 5],
        "lambertSG", None)]
  ∧ face_assignments
      (ObjectGeo._convert_object_level_materials_to_face_sets
         Samples.scene Samples.cubeShape true true).1
    = [(map (face_component Samples.cubeShape) [2; 3; 4; 5],
        "lambertSG", None)].
Proof. repeat split; vm_compute; reflexivity. Qed.

(* ================================================================== *)
(** ** Validation in the geometry hook                                 *)
(* ================================================================== *)

Lemma fail_validation_run (msg : string) (w : world) :
  ObjectGeo.fail_validation msg w
  = (Raise (PyException msg),
     World (selection w) (properties w) (trace w ++ [LogError msg])).
Proof. reflexivity. Qed.

(** C4.  For an accepted item (both templates present) whose object name
    was collected, validate raises [Exception(msg)], after logging [msg] as
    an error, in exactly three cases: the session has no saved path; else
    the scene has no non-intermediate geometry; else the work fields lack
    keys of the publish template.  In every other case it raises nothing,
    stores the path made from the publish template under "path" and
    "publish_path", and returns what the base class's validate returns. *)
Theorem validate_raises_exactly
  (h : Host) (fw : Framework) (item : Maya.Item) (w : world)
  (wt pt : Template) (name : pyval) :
  work_template item = Some wt →
  publish_template item = Some pt →
  properties w !! "object_name" = Some name →
  let path := normalize fw (default "" (file_sn h)) in
  let work_fields := <["maya.object_name" := name]> (get_fields wt path) in
  let run := ObjectGeo.validate h fw item w in
  (is_generic run.1
   ↔ unsaved h ∨ ls_geometry h = [] ∨ missing_keys pt work_fields ≠ [])
  ∧ (unsaved h →
     run.1 = Raise (PyException "The Maya session has not been saved."))
  ∧ (¬ unsaved h → ls_geometry h = [] →
     run.1 = Raise (PyException
                      ("Validation failed because there is no geometry in "
                       +:+ "the scene to be exported. You can uncheck this "
                       +:+ "plugin or create geometry to export to avoid "
                       +:+ "this error.")))
  ∧ (¬ unsaved h → ls_geometry h ≠ [] → missing_keys pt work_fields ≠ [] →
     run.1 = Raise (PyException
                      ("Work file '" +:+ path
                       +:+ "' missing keys required for the "
                       +:+ "publish template: "
                       +:+ repr_list (missing_keys pt work_fields))))
  ∧ (∀ msg, run.1 = Raise (PyException msg) →
            last (trace run.2) = Some (LogError msg))
  ∧ (¬ (unsaved h ∨ ls_geometry h = [] ∨ missing_keys pt work_fields ≠ []) →
     run.1 = Ok (base_validate fw (properties run.2))
     ∧ properties run.2 !! "path" = Some (PyStr (apply_fields pt work_fields))
     ∧ properties run.2 !! "publish_path"
       = Some (PyStr (apply_fields pt work_fields))
     ∧ trace run.2 = trace w ++ [BaseValidate]).
Proof.
  intros Hwt Hpt Hname path work_fields run.
  unfold unsaved, is_generic.
  subst run. unfold ObjectGeo.validate, ObjectGeo._session_path.
  subst work_fields path.
  destruct (file_sn h) as [[|c s]|] eqn:Esn.
  1, 3: rewrite fail_validation_run; cbn [fst snd trace];
    (split; [split; [intros _; left; eauto|intros _; eauto]|]);
    (split; [done|]); (split; [intros Hs; exfalso; apply Hs; eauto|]);
    (split; [intros Hs; exfalso; apply Hs; eauto|]);
    (split; [intros msg [= <-]; by rewrite last_snoc|]);
    intros Hn; exfalso; apply Hn; eauto.
  cbn [default].
  destruct (ls_geometry h) as [|g gs] eqn:Eg.
  { rewrite fail_validation_run; cbn [fst snd trace].
    split; [split; [intros _; right; left; eauto|intros _; eauto]|].
    split; [by intros [?|?]|]. split; [done|]. split; [done|].
    split; [intros msg [= <-]; by rewrite last_snoc|].
    intros Hn; exfalso; apply Hn; eauto. }
  rewrite Hwt, Hpt.
  unfold mbind, M_bind, hook_bind, prop_get, prop_set, prop_item, emit,
    get_properties, mret, M_ret, hook_ret.
  cbn [properties selection trace]. rewrite Hname.
  cbn [default from_option id].
  destruct (missing_keys pt
              (<["maya.object_name":=name]>
                 (get_fields wt (normalize fw (String c s)))))
    as [|k ks] eqn:Emk.
  - cbn beta iota delta [properties selection trace].
    rewrite lookup_insert_ne by done. rewrite Hname.
    cbn beta iota delta [properties selection trace].
    rewrite lookup_insert_eq, insert_insert_eq.
    cbn beta iota delta [properties selection trace].
    destruct (<["maya.object_name":=name]>
                (get_fields wt (normalize fw (String c s))) !! "version")
      as [v|]; cbn [fst snd properties selection trace].
    all: split; [split; [by intros [msg ?]|by intros [[?|?]|[?|?]]]|].
    all: split; [by intros [?|?]|]; split; [done|]; split; [done|];
      split; [done|].
    all: intros _; split; [done|]; by simplify_map_eq.
  - rewrite fail_validation_run; cbn [fst snd trace].
    split; [split; [intros _; right; right; done|intros _; eauto]|].
    split; [by intros [?|?]|]. split; [done|]. split; [done|].
    split; [intros msg [= <-]; by rewrite last_snoc|].
    intros Hn; exfalso; apply Hn; eauto.
Qed.

Lemma validate_raises_exactly_witness :
  (ObjectGeo.validate Samples.scene Samples.framework
     (Samples.object_item Samples.layout_context) Samples.collected_world).1
  = Ok (PyBool true)
  ∧ properties
      (ObjectGeo.validate Samples.scene Samples.framework
         (Samples.object_item Samples.layout_context)
         Samples.collected_world).2 !! "path"
    = Some (PyStr "/proj/publish/cube.v3.abc").
Proof.
  destruct (validate_raises_exactly Samples.scene Samples.framework
              (Samples.object_item Samples.layout_context)
              Samples.collected_world Samples.template Samples.template
              (PyStr "cube"))
    as (_ & _ & _ & _ & _ & H); [reflexivity..|].
  destruct H as (H1 & H2 & _ & _).
  - intros [[?|?]|[?|?]]; done.
  - split; [exact H1|]. rewrite H2. vm_compute. reflexivity.
Defined.

(* ================================================================== *)
(** ** Which events a program can add to the trace                     *)
(* ================================================================== *)

Section Emits.

Context {A B : Type} (P : event -> Prop).

Lemma emits_ret (a : A) : emits P (mret a : M A).
Proof. intros w. exists []. by rewrite app_nil_r. Qed.

Lemma emits_raise (e : exn) : emits P (raise e : M A).
Proof. intros w. exists []. by rewrite app_nil_r. Qed.

Lemma emits_of_result (r : result A) : emits P (of_result r).
Proof. intros w. exists []. by rewrite app_nil_r. Qed.

Lemma emits_bind (m : M A) (k : A -> M B) :
  emits P m → (∀ a, emits P (k a)) → emits P (m ≫= k).
Proof.
  intros Hm Hk w. unfold mbind, M_bind, hook_bind.
  destruct (Hm w) as (evs1 & E1 & F1).
  destruct (m w) as [[a|e] w1]; simpl in *.
  - destruct (Hk a w1) as (evs2 & E2 & F2).
    exists (evs1 ++ evs2). rewrite E2, E1, app_assoc.
    split; [done|]. by apply Forall_app.
  - by exists evs1.
Qed.

End Emits.

Section EmitsPrimitives.

Context (P : event -> Prop).

Lemma emits_emit (e : event) : P e → emits P (emit e).
Proof. intros He w. exists [e]. split; [done|]. by constructor. Qed.

Lemma emits_select (nodes : list string) : P (Select nodes) → emits P (select nodes).
Proof. intros He w. exists [Select nodes]. split; [done|]. by constructor. Qed.

Lemma emits_ls_selection : emits P ls_selection.
Proof. intros w. exists []. by rewrite app_nil_r. Qed.

Lemma emits_get_properties : emits P get_properties.
Proof. intros w. exists []. by rewrite app_nil_r. Qed.

Lemma emits_prop_item (key : string) : emits P (prop_item key).
Proof.
  intros w. exists []. rewrite app_nil_r. unfold prop_item.
  by destruct (properties w !! key).
Qed.

Lemma emits_prop_get (key : string) : emits P (prop_get key).
Proof. intros w. exists []. by rewrite app_nil_r. Qed.

Lemma emits_prop_set (key : string) (v : pyval) : emits P (prop_set key v).
Proof. intros w. exists []. by rewrite app_nil_r. Qed.

Lemma emits_as_str (v : pyval) : emits P (as_str v).
Proof. destruct v; first [apply emits_ret | apply emits_raise]. Qed.

Lemma emits_call {A} (f : list string -> Script A) :
  (∀ e, P (Script_ev e)) → emits P (call f).
Proof.
  intros He w. unfold call. destruct (f (selection w)) as [evs r].
  exists (map Script_ev evs). split; [done|].
  apply Forall_fmap, Forall_forall. intros e _. apply He.
Qed.

End EmitsPrimitives.

Ltac emits_step :=
  first
    [ apply emits_bind; [|intros ?]
    | apply emits_ret | apply emits_raise | apply emits_of_result
    | apply emits_ls_selection | apply emits_get_properties
    | apply emits_prop_item | apply emits_prop_get | apply emits_prop_set
    | apply emits_as_str
    | apply emits_emit; exact I
    | apply emits_select; exact I
    | apply emits_call; intros ?; exact I
    | match goal with
      | |- emits _ (match ?x with _ => _ end) => destruct x
      end ].

Lemma geo_export_command_emits h fw st item :
  emits before_export (ObjectGeo.export_command h fw st item).
Proof.
  unfold ObjectGeo.export_command.
  repeat emits_step.
Qed.

Lemma shader_export_path_emits h fw item :
  emits before_export (Shader.export_path h fw item).
Proof. unfold Shader.export_path. repeat emits_step. Qed.

Lemma geo_publish_shape h fw st item :
  ObjectGeo.publish h fw st item
  = export_then_report (ObjectGeo.export_command h fw st item)
      (fun cmd => "Executing command: " +:+ cmd) (mel_eval h)
      "Failed to export Geometry: " item.
Proof. reflexivity. Qed.

Lemma shader_publish_shape h fw item :
  Shader.publish h fw item
  = export_then_report (Shader.export_path h fw item)
      (fun _ => "Executing shaders export command:") (file_export h)
      "Failed to export Shaders: " item.
Proof. reflexivity. Qed.

(* ================================================================== *)
(** ** How a publish of the geometry or shader hook can end            *)
(* ================================================================== *)

(** The three ways through the shared shape: the prelude raises; the export
    raises; the export returns. *)
Lemma export_then_report_cases prelude announce outcome failure item w :
  emits before_export prelude →
  let run := export_then_report prelude announce outcome failure item w in
  ∃ evs, Forall before_export evs
    ∧ ((∃ e, run.1 = Raise e ∧ trace run.2 = trace w ++ evs)
       ∨ (∃ cmd e,
            run.1 = Ok tt
            ∧ trace run.2
              = trace w ++ evs
                ++ [LogDebug (announce cmd); Export cmd (Some e);
                    LogError (failure +:+ str_of_exn e)])
       ∨ (∃ cmd,
            run.1 = match dict_item (task (context item)) "id" with
                    | Ok _ => Ok tt
                    | Raise e => Raise e
                    end
            ∧ trace run.2
              = trace w ++ evs
                ++ [LogDebug (announce cmd); Export cmd None; BasePublish;
                    Select (selection w)]
                ++ match dict_item (task (context item)) "id" with
                   | Ok id => [SgUpdate "Task" id [("sg_status_list", "rev")]]
                   | Raise _ => []
                   end)).
Proof.
  intros Hpre run. subst run.
  destruct (Hpre w) as (evs & E & F). exists evs. split; [done|].
  unfold export_then_report, mbind, M_bind, hook_bind, ls_selection.
  destruct (prelude w) as [[cmd|e] w1]; simpl in E |- *.
  - right. unfold try_except, run_export.
    destruct (outcome cmd) as [e|]; simpl.
    + left. exists cmd, e. split; [done|]. by rewrite E, <- !app_assoc.
    + right. exists cmd.
      destruct (dict_item (task (context item)) "id") as [id|e]; simpl;
        (split; [done|]); rewrite E, <- !app_assoc; done.
  - left. by exists e.
Qed.

Lemma before_export_quiet (evs : list event) :
  Forall before_export evs →
  updates evs = [] ∧ exports evs = []
  ∧ (BasePublish ∉ evs) ∧ (∀ cmd o, Export cmd o ∉ evs).
Proof.
  induction 1 as [|e evs He _ (IH1 & IH2 & IH3 & IH4)].
  - repeat split; try done; try (intros; apply not_elem_of_nil).
  - unfold updates, exports in *. rewrite !filter_cons.
    destruct e; simpl in He; try done; repeat case_decide; try done.
    all: split; [done|]; split; [done|]; split.
    all: try (intros Hin; apply elem_of_cons in Hin as [Hin|Hin];
              [done|by apply IH3 in Hin]).
    all: intros cmd o Hin; apply elem_of_cons in Hin as [Hin|Hin];
      [done|by apply IH4 in Hin].
Qed.

(** The same three ways for either hook, from an empty trace. *)
Lemma hook_publish_cases k h fw item w :
  trace w = [] →
  let run := hook_publish k h fw item w in
  ∃ evs announce, Forall before_export evs
    ∧ ((∃ e, run.1 = Raise e ∧ trace run.2 = evs)
       ∨ (∃ cmd e,
            run.1 = Ok tt
            ∧ trace run.2
              = evs ++ [LogDebug (announce cmd); Export cmd (Some e);
                        LogError (failure_message k e)])
       ∨ (∃ cmd,
            run.1 = match dict_item (task (context item)) "id" with
                    | Ok _ => Ok tt
                    | Raise e => Raise e
                    end
            ∧ trace run.2
              = evs ++ [LogDebug (announce cmd); Export cmd None; BasePublish;
                        Select (selection w)]
                ++ match dict_item (task (context item)) "id" with
                   | Ok id => [SgUpdate "Task" id [("sg_status_list", "rev")]]
                   | Raise _ => []
                   end)).
Proof.
  intros Hw run. subst run. destruct k as [st|]; simpl.
  - rewrite geo_publish_shape.
    edestruct export_then_report_cases as (evs & F & H);
      [apply (geo_export_command_emits h fw st item)|].
    rewrite Hw in H. exists evs. eexists. split; [done|]. exact H.
  - rewrite shader_publish_shape.
    edestruct export_then_report_cases as (evs & F & H);
      [apply (shader_export_path_emits h fw item)|].
    rewrite Hw in H. exists evs. eexists. split; [done|]. exact H.
Qed.

(** An export that raised in a run means the run went the second way. *)
Lemma raised_export_case k h fw item w e :
  trace w = [] →
  export_raised (trace (hook_publish k h fw item w).2) e →
  ∃ evs announce cmd, Forall before_export evs
    ∧ (hook_publish k h fw item w).1 = Ok tt
    ∧ trace (hook_publish k h fw item w).2
      = evs ++ [LogDebug (announce cmd); Export cmd (Some e);
                LogError (failure_message k e)].
Proof.
  intros Hw [c Hc].
  destruct (hook_publish_cases k h fw item w Hw) as (evs & announce & F & H).
  destruct (before_export_quiet evs F) as (_ & _ & _ & Q).
  exists evs, announce.
  destruct H as [(e' & _ & Ht)|[(cmd & e' & Hr & Ht)|(cmd & _ & Ht)]];
    rewrite Ht in Hc.
  - by apply Q in Hc.
  - exists cmd. apply elem_of_app in Hc as [Hc|Hc]; [by apply Q in Hc|].
    assert (e' = e) as ->.
    { repeat (apply elem_of_cons in Hc as [Hc|Hc]; [by simplify_eq|]).
      by apply elem_of_nil in Hc. }
    by rewrite <- Ht.
  - exfalso. apply elem_of_app in Hc as [Hc|Hc]; [by apply Q in Hc|].
    apply elem_of_app in Hc as [Hc|Hc].
    + repeat (apply elem_of_cons in Hc as [Hc|Hc]; [done|]).
      by apply elem_of_nil in Hc.
    + destruct (dict_item (task (context item)) "id");
        [apply list_elem_of_singleton in Hc; done|by apply elem_of_nil in Hc].
Qed.

(** An export that returned in a run means the run went the third way. *)
Lemma returned_export_case k h fw item w :
  trace w = [] →
  export_succeeded (trace (hook_publish k h fw item w).2) →
  ∃ evs announce cmd, Forall before_export evs
    ∧ (hook_publish k h fw item w).1
      = match dict_item (task (context item)) "id" with
        | Ok _ => Ok tt
        | Raise e => Raise e
        end
    ∧ trace (hook_publish k h fw item w).2
      = evs ++ [LogDebug (announce cmd); Export cmd None; BasePublish;
                Select (selection w)]
        ++ match dict_item (task (context item)) "id" with
           | Ok id => [SgUpdate "Task" id [("sg_status_list", "rev")]]
           | Raise _ => []
           end.
Proof.
  intros Hw [c Hc].
  destruct (hook_publish_cases k h fw item w Hw) as (evs & announce & F & H).
  destruct (before_export_quiet evs F) as (_ & _ & _ & Q).
  exists evs, announce.
  destruct H as [(e' & _ & Ht)|[(cmd & e' & Hr & Ht)|(cmd & Hr & Ht)]].
  - rewrite Ht in Hc. by apply Q in Hc.
  - exfalso. rewrite Ht in Hc.
    apply elem_of_app in Hc as [Hc|Hc]; [by apply Q in Hc|].
    repeat (apply elem_of_cons in Hc as [Hc|Hc]; [done|]).
    by apply elem_of_nil in Hc.
  - by exists cmd.
Qed.

(** C2.  In a run of the geometry or shader hook's publish in which the
    export command raised, publish returns at once: the last thing done is
    the error log with the hook's message and the text of the exception,
    the export was attempted once, and the run holds no base-class publish
    and no remote update. *)
Theorem export_failure_aborts
  (k : export_hook) (h : Host) (fw : Framework) (item : Maya.Item)
  (w : world) (e : exn) :
  trace w = [] →
  export_raised (trace (hook_publish k h fw item w).2) e →
  (hook_publish k h fw item w).1 = Ok tt
  ∧ last (trace (hook_publish k h fw item w).2)
    = Some (LogError (failure_message k e))
  ∧ (∃ cmd, exports (trace (hook_publish k h fw item w).2)
            = [Export cmd (Some e)])
  ∧ (BasePublish ∉ trace (hook_publish k h fw item w).2)
  ∧ updates (trace (hook_publish k h fw item w).2) = [].
Proof.
  intros Hw He.
  destruct (raised_export_case k h fw item w e Hw He)
    as (evs & announce & cmd & F & Hr & Ht).
  destruct (before_export_quiet evs F) as (Q1 & Q2 & Q3 & Q4).
  rewrite Ht. split; [done|]. split; [by rewrite last_app|].
  split.
  { exists cmd. unfold exports in *. by rewrite filter_app, Q2. }
  split.
  { intros [?|Hin]%elem_of_app; [done|].
    repeat (apply elem_of_cons in Hin as [Hin|Hin]; [done|]).
    by apply elem_of_nil in Hin. }
  unfold updates in *. by rewrite filter_app, Q1.
Qed.

Lemma export_failure_aborts_witness :
  (hook_publish (GeometryHook Samples.geo_settings) Samples.failing_scene
     Samples.framework (Samples.session_item Samples.layout_context)
     Samples.validated_world).1 = Ok tt
  ∧ updates (trace (hook_publish ShaderHook Samples.failing_scene
                      Samples.framework
                      (Samples.object_item Samples.texture_context)
                      Samples.validated_world).2) = [].
Proof.
  split.
  - apply (export_failure_aborts (GeometryHook Samples.geo_settings)
             Samples.failing_scene Samples.framework
             (Samples.session_item Samples.layout_context)
             Samples.validated_world (HostError "Maya command error"));
      [reflexivity|].
    eexists. apply list_elem_of_In. vm_compute.
    do 5 right. left. reflexivity.
  - apply (export_failure_aborts ShaderHook
             Samples.failing_scene Samples.framework
             (Samples.object_item Samples.texture_context)
             Samples.validated_world (HostError "Maya command error"));
      [reflexivity|].
    eexists. apply list_elem_of_In. vm_compute.
    do 7 right. left. reflexivity.
Defined.

(** C3, as amended.  For an item whose context names a task: in a run of
    the geometry or shader hook's publish in which the export command
    returned, publish returns after exactly one remote update, which sets
    sg_status_list of that Task to "rev"; in a run in which the export
    command raised there is no remote update; and no run holds more than
    that one update. *)
Theorem export_success_updates_task
  (k : export_hook) (h : Host) (fw : Framework) (item : Maya.Item)
  (w : world) (id : pyval) :
  trace w = [] →
  dict_item (task (context item)) "id" = Ok id →
  (export_succeeded (trace (hook_publish k h fw item w).2) →
     (hook_publish k h fw item w).1 = Ok tt
     ∧ updates (trace (hook_publish k h fw item w).2)
       = [SgUpdate "Task" id [("sg_status_list", "rev")]])
  ∧ (∀ e, export_raised (trace (hook_publish k h fw item w).2) e →
          updates (trace (hook_publish k h fw item w).2) = [])
  ∧ (updates (trace (hook_publish k h fw item w).2) = []
     ∨ updates (trace (hook_publish k h fw item w).2)
       = [SgUpdate "Task" id [("sg_status_list", "rev")]]).
Proof.
  intros Hw Hid. split; [|split].
  - intros Hs.
    destruct (returned_export_case k h fw item w Hw Hs)
      as (evs & announce & cmd & F & Hr & Ht).
    destruct (before_export_quiet evs F) as (Q1 & _).
    rewrite Hid in Hr, Ht. split; [done|].
    rewrite Ht. unfold updates in *. by rewrite filter_app, Q1.
  - intros e He.
    destruct (raised_export_case k h fw item w e Hw He)
      as (evs & announce & cmd & F & _ & Ht).
    destruct (before_export_quiet evs F) as (Q1 & _).
    rewrite Ht. unfold updates in *. by rewrite filter_app, Q1.
  - destruct (hook_publish_cases k h fw item w Hw)
      as (evs & announce & F & H).
    destruct (before_export_quiet evs F) as (Q1 & _).
    rewrite Hid in H. unfold updates in *.
    destruct H as [(e' & _ & Ht)|[(cmd & e' & _ & Ht)|(cmd & _ & Ht)]];
      rewrite Ht; rewrite ?filter_app, Q1; [by left|by left|by right].
Qed.

Lemma export_success_updates_task_witness :
  updates (trace (hook_publish (GeometryHook Samples.geo_settings)
                    Samples.scene Samples.framework
                    (Samples.session_item Samples.layout_context)
                    Samples.validated_world).2)
  = [SgUpdate "Task" (PyInt 78) [("sg_status_list", "rev")]]
  ∧ updates (trace (hook_publish ShaderHook Samples.scene Samples.framework
                      (Samples.object_item Samples.texture_context)
                      Samples.validated_world).2)
    = [SgUpdate "Task" (PyInt 77) [("sg_status_list", "rev")]].
Proof.
  split.
  - apply (export_success_updates_task (GeometryHook Samples.geo_settings)
             Samples.scene Samples.framework
             (Samples.session_item Samples.layout_context)
             Samples.validated_world (PyInt 78));
      [reflexivity|reflexivity|].
    eexists. apply list_elem_of_In. vm_compute.
    do 5 right. left. reflexivity.
  - apply (export_success_updates_task ShaderHook
             Samples.scene Samples.framework
             (Samples.object_item Samples.texture_context)
             Samples.validated_world (PyInt 77));
      [reflexivity|reflexivity|].
    eexists. apply list_elem_of_In. vm_compute.
    do 7 right. left. reflexivity.
Defined.

(** C3, as stated, fails: with a context that has no task, the export
    command returns in the geometry hook's publish and in the shader
    hook's, and neither run holds a remote update. *)
Lemma export_success_without_task_counterexample :
  export_succeeded
    (trace (hook_publish (GeometryHook Samples.geo_settings) Samples.scene
              Samples.framework
              (Samples.session_item MoreSamples.taskless_layout_context)
              Samples.validated_world).2)
  ∧ updates
      (trace (hook_publish (GeometryHook Samples.geo_settings) Samples.scene
                Samples.framework
                (Samples.session_item MoreSamples.taskless_layout_context)
                Samples.validated_world).2) = []
  ∧ export_succeeded
      (trace (hook_publish ShaderHook Samples.scene Samples.framework
                (Samples.object_item MoreSamples.taskless_context)
                Samples.validated_world).2)
  ∧ updates
      (trace (hook_publish ShaderHook Samples.scene Samples.framework
                (Samples.object_item MoreSamples.taskless_context)
                Samples.validated_world).2) = [].
Proof.
  split; [|split; [|split]].
  - eexists. apply list_elem_of_In. vm_compute.
    do 5 right. left. reflexivity.
  - reflexivity.
  - eexists. apply list_elem_of_In. vm_compute.
    do 7 right. left. reflexivity.
  - reflexivity.
Qed.

(* ================================================================== *)
(** ** The upload hook on rendered sequences                           *)
(* ================================================================== *)

Section Upload.

Variable env : UploadVersion.Env.
Variable settings : gmap string pyval.

Lemma get_dailies_path_raises (item : UploadVersion.Item) (w : world) :
  UploadVersion.get_dailies_path env settings item w
  = (Raise (NameError "_session_path"), w).
Proof. reflexivity. Qed.

Lemma subprocess_unbound (w : world) :
  UploadVersion.use_module "subprocess" w
  = (Raise (NameError "subprocess"), w).
Proof. reflexivity. Qed.

Lemma sequence_branch_raises (item : UploadVersion.Item) (w : world) :
  ∃ e, UploadVersion.sequence_branch env settings item w = (Raise e, w)
       ∧ (∀ d, properties w !! "publish_data" = Some (PyDict d) →
               is_Some (list_find (fun kv => kv.1 = "path") d) →
               e = NameError "_session_path").
Proof.
  unfold UploadVersion.sequence_branch.
  unfold mbind, M_bind, hook_bind, prop_item, of_result.
  destruct (properties w !! "publish_data") as [d|] eqn:Ed.
  - destruct (UploadVersion.publish_data_path d) as [p|e] eqn:Ep.
    + rewrite get_dailies_path_raises.
      eexists. split; [reflexivity|]. done.
    + exists e. split; [done|].
      intros d' [= ->] [[i [k v]] Hf]. simpl in Ep. by rewrite Hf in Ep.
  - eexists. split; [reflexivity|]. done.
Qed.

End Upload.

(** C5.  For an item of type maya.session.render with sequence paths,
    publish never starts the transcoder: the run ends in an exception with
    nothing done, and when the item carries its path and its publish data
    the exception is the NameError raised for [_session_path], a function
    the module calls and does not define; [subprocess] is not imported
    either. *)
Theorem sequence_publish_never_starts_ffmpeg
  (env : UploadVersion.Env) (settings : gmap string pyval)
  (playblast_branch :
     UploadVersion.Item -> UploadVersion.locals -> M UploadVersion.locals)
  (create_and_upload_version :
     UploadVersion.Item -> UploadVersion.locals -> M unit)
  (item : UploadVersion.Item) (w : world) :
  UploadVersion.takes_sequence_branch item w = true →
  let run := UploadVersion.publish env settings playblast_branch
               create_and_upload_version item w in
  (∃ e, run.1 = Raise e)
  ∧ trace run.2 = trace w
  ∧ (∀ d, is_Some (properties w !! "path") →
          properties w !! "publish_data" = Some (PyDict d) →
          is_Some (list_find (fun kv => kv.1 = "path") d) →
          run.1 = Raise (NameError "_session_path"))
  ∧ resolve UploadVersion.module_globals "subprocess"
    = Raise (NameError "subprocess").
Proof.
  intros Hseq run. subst run. unfold UploadVersion.publish.
  unfold mbind, M_bind, hook_bind, prop_item.
  destruct (properties w !! "path") as [v|] eqn:Ev.
  - cbn beta iota. rewrite Ev. cbn beta iota. rewrite Hseq.
    destruct (sequence_branch_raises env settings item w) as (e & -> & He).
    cbn [fst snd].
    split; [by exists e|]. split; [done|]. split; [|done].
    intros d _ Hd Hp. by rewrite (He d Hd Hp).
  - cbn [fst snd]. split; [by eexists|]. split; [done|].
    split; [|done]. by intros d [? ?].
Qed.

Lemma sequence_publish_never_starts_ffmpeg_witness :
  (UploadVersion.publish Samples.upload_env Samples.upload_settings
     (fun _ l => mret l) (fun _ _ => mret tt)
     Samples.render_item Samples.render_world).1
  = Raise (NameError "_session_path")
  ∧ started_process
      (trace (UploadVersion.publish Samples.upload_env Samples.upload_settings
                (fun _ l => mret l) (fun _ _ => mret tt)
                Samples.render_item Samples.render_world).2) = false.
Proof.
  destruct (sequence_publish_never_starts_ffmpeg
              Samples.upload_env Samples.upload_settings
              (fun _ l => mret l) (fun _ _ => mret tt)
              Samples.render_item Samples.render_world)
    as (_ & H2 & H3 & _); [reflexivity|].
  split.
  - apply (H3 [("path", "/proj/render/beauty.####.exr")]);
      [by eexists|reflexivity|by eexists].
  - rewrite H2. reflexivity.
Defined.

(* ================================================================== *)
(** * Further properties of the hooks                                  *)
(* ================================================================== *)

Set Warnings "-clear-no-such-hyp".

(* ================================================================== *)
(** ** Deduplication, selected shapes and shading groups               *)
(* ================================================================== *)

Lemma dedupe_elem_of (seen : gset string) (l : list string) (x : string) :
  x ∈ ObjectGeo.dedupe seen l ↔ x ∈ l ∧ x ∉ seen.
Proof.
  revert seen. induction l as [|s l IH]; intros seen; simpl.
  - set_solver.
  - destruct (decide (s ∈ seen)) as [Hs|Hs].
    + rewrite IH. set_solver.
    + rewrite elem_of_cons, IH. split.
      * intros [->|[H1 H2]]; [set_solver|set_solver].
      * intros [[->|H1]%elem_of_cons H2]; [by left|].
        destruct (decide (x = s)) as [->|Hne]; [by left|right; set_solver].
Qed.

Lemma dedupe_NoDup (seen : gset string) (l : list string) :
  NoDup (ObjectGeo.dedupe seen l).
Proof.
  revert seen. induction l as [|s l IH]; intros seen; simpl.
  - constructor.
  - destruct (decide (s ∈ seen)); [apply IH|].
    constructor; [|apply IH]. rewrite dedupe_elem_of. set_solver.
Qed.


(** The roots gathered from a selection: the selected transforms and the
    first parent of each selected mesh. *)
Lemma collect_roots_elem_of (h : Host) (sel : list string)
  (roots : gset string) (root : string) :
  root ∈ ObjectGeo.collect_roots h sel roots
  ↔ root ∈ roots
    ∨ ∃ node, node ∈ sel
        ∧ ((nodeType h (PyStr node) = "transform" ∧ root = node)
           ∨ (nodeType h (PyStr node) = "mesh"
              ∧ head (ancestors h node) = Some root)).
Proof.
  revert roots. induction sel as [|node sel IH]; intros roots; simpl.
  - split; [by left|]. intros [?|(node & Hn & _)]; [done|].
    by apply elem_of_nil in Hn.
  - destruct (String.eqb_spec (nodeType h (PyStr node)) "transform") as [Ht|Ht].
    + rewrite IH. split.
      * intros [[->%elem_of_singleton|?]%elem_of_union|(n & Hn & H)].
        -- right. exists node. split; [left|]. by left.
        -- by left.
        -- right. exists n. split; [by right|done].
      * intros [?|(n & [->|Hn]%elem_of_cons & H)].
        -- left. set_solver.
        -- destruct H as [[_ ->]|[Hm _]]; [left; set_solver|].
           rewrite Ht in Hm. discriminate.
        -- right. by exists n.
    + destruct (String.eqb_spec (nodeType h (PyStr node)) "mesh") as [Hm|Hm].
      * unfold listRelatives_parent, or_empty.
        destruct (ancestors h node) as [|p ps] eqn:Ea; simpl; rewrite IH.
        -- split.
           ++ intros [?|(n & Hn & H)]; [by left|].
              right. exists n. split; [by right|done].
           ++ intros [?|(n & [->|Hn]%elem_of_cons & H)]; [by left| |].
              ** destruct H as [[? _]|[_ H]]; [done|].
                 rewrite Ea in H. discriminate.
              ** right. by exists n.
        -- split.
           ++ intros [[->%elem_of_singleton|?]%elem_of_union|(n & Hn & H)].
              ** right. exists node. split; [left|]. right.
                 by rewrite Ea.
              ** by left.
              ** right. exists n. split; [by right|done].
           ++ intros [?|(n & [->|Hn]%elem_of_cons & H)].
              ** left. set_solver.
              ** destruct H as [[? _]|[_ H]]; [done|].
                 rewrite Ea in H. injection H as ->. left. set_solver.
              ** right. by exists n.
      * rewrite IH. split.
        -- intros [?|(n & Hn & H)]; [by left|].
           right. exists n. split; [by right|done].
        -- intros [?|(n & [->|Hn]%elem_of_cons & H)]; [by left| |].
           ++ by destruct H as [[? _]|[? _]].
           ++ right. by exists n.
Qed.

(** X1.  [_get_selected_mesh_shapes] never raises and returns a list
    without repetition.  A shape is in it exactly when it is a selected
    mesh, or a descendant mesh of a root, the roots being the selected
    transforms and the first parent of each selected mesh (all by long
    name). *)
Theorem selected_mesh_shapes_distinct (h : Host) (sel : list string) :
  ∃ shapes,
    (ObjectGeo._get_selected_mesh_shapes h sel).2 = Ok shapes
    ∧ NoDup shapes
    ∧ (∀ s, s ∈ shapes
         ↔ (s ∈ map (long_name h) sel ∧ nodeType h (PyStr s) = "mesh")
           ∨ ∃ node root,
               node ∈ map (long_name h) sel
               ∧ ((nodeType h (PyStr node) = "transform" ∧ root = node)
                  ∨ (nodeType h (PyStr node) = "mesh"
                     ∧ head (ancestors h node) = Some root))
               ∧ s ∈ or_empty (descendant_meshes h root)).
Proof.
  assert (Hmem : ∀ s, s ∈ ObjectGeo.selected_mesh_shapes h sel
         ↔ (s ∈ map (long_name h) sel ∧ nodeType h (PyStr s) = "mesh")
           ∨ ∃ node root,
               node ∈ map (long_name h) sel
               ∧ ((nodeType h (PyStr node) = "transform" ∧ root = node)
                  ∨ (nodeType h (PyStr node) = "mesh"
                     ∧ head (ancestors h node) = Some root))
               ∧ s ∈ or_empty (descendant_meshes h root)).
  { intros s. unfold ObjectGeo.selected_mesh_shapes.
    rewrite dedupe_elem_of, elem_of_app, list_elem_of_filter.
    split.
    - intros [[[Hm Hs]|Hd] _]; [by left|]. right.
      apply list_elem_of_In, in_concat in Hd as (l & Hl & Hs).
      apply list_elem_of_In in Hl, Hs.
      apply list_elem_of_fmap in Hl as (root & -> & Hroot).
      apply elem_of_elements, collect_roots_elem_of in Hroot
        as [Hr|(node & Hn & H)]; [set_solver|].
      by exists node, root.
    - intros [[Hs Hm]|(node & root & Hn & H & Hs)];
        (split; [|set_solver]); [by left|]. right.
      apply list_elem_of_In, in_concat.
      exists (or_empty (descendant_meshes h root)).
      split; [|by apply list_elem_of_In]. apply list_elem_of_In.
      apply list_elem_of_fmap. exists root. split; [done|].
      apply elem_of_elements, collect_roots_elem_of. right. by exists node. }
  unfold ObjectGeo._get_selected_mesh_shapes.
  destruct sel as [|n sel].
  - exists []. split; [done|]. split; [constructor|].
    intros s. split; [by intros ?%elem_of_nil|].
    intros [[?%elem_of_nil _]|(? & ? & ?%elem_of_nil & _)]; done.
  - exists (ObjectGeo.selected_mesh_shapes h (n :: sel)).
    split.
    { by destruct (ObjectGeo.selected_mesh_shapes h (n :: sel)). }
    split; [apply dedupe_NoDup|exact Hmem].
Qed.


(* ================================================================== *)
(** ** What [_collect_face_assignments_for_shape] gathers              *)
(* ================================================================== *)

Section Collect.

Variable h : Host.
Variable shape_long : string.

Lemma collect_step_spec (acc : ObjectGeo.collected) (sg : string) :
  is_Some (ObjectGeo.per_sg_faces acc !! sg) →
  ObjectGeo.assigned_faces_all (ObjectGeo.collect_step h shape_long acc sg)
  = ObjectGeo.assigned_faces_all acc
    ∪ FaceSets.face_indices_of h shape_long sg
  ∧ ObjectGeo.object_level_sgs (ObjectGeo.collect_step h shape_long acc sg)
    = ObjectGeo.object_level_sgs acc
      ++ (if FaceSets.object_level_here h shape_long sg then [sg] else [])
  ∧ (∀ sg',
       ObjectGeo.per_sg_faces (ObjectGeo.collect_step h shape_long acc sg)
         !! sg'
       = (fun s => if decide (sg' = sg)
                   then s ∪ FaceSets.face_indices_of h shape_long sg else s)
         <$> ObjectGeo.per_sg_faces acc !! sg').
Proof.
  intros [s0 Hs0].
  unfold ObjectGeo.collect_step, FaceSets.face_indices_of,
    FaceSets.object_level_here.
  destruct (ObjectGeo._members_for_sg h sg) as [|m ms] eqn:Em.
  - cbn. rewrite app_nil_r.
    split; [by rewrite union_empty_r_L|]. split; [done|].
    intros sg'. destruct (ObjectGeo.per_sg_faces acc !! sg') eqn:E; [|done].
    simpl. destruct (decide (sg' = sg)); by rewrite ?union_empty_r_L.
  - cbn [ObjectGeo.assigned_faces_all ObjectGeo.object_level_sgs
         ObjectGeo.per_sg_faces].
    split; [done|]. split.
    { destruct (existsb _ (m :: ms)); [done|by rewrite app_nil_r]. }
    intros sg'. destruct (decide (sg' = sg)) as [->|Hne].
    + by rewrite lookup_insert_eq, Hs0.
    + rewrite lookup_insert_ne by done.
      by destruct (ObjectGeo.per_sg_faces acc !! sg').
Qed.

Lemma collect_fold_spec (l : list string) (acc : ObjectGeo.collected) :
  (∀ sg, sg ∈ l → is_Some (ObjectGeo.per_sg_faces acc !! sg)) →
  ObjectGeo.object_level_sgs (foldl (ObjectGeo.collect_step h shape_long) acc l)
  = ObjectGeo.object_level_sgs acc
    ++ filter (fun sg => FaceSets.object_level_here h shape_long sg = true) l
  ∧ (∀ i, i ∈ ObjectGeo.assigned_faces_all
                (foldl (ObjectGeo.collect_step h shape_long) acc l)
          ↔ i ∈ ObjectGeo.assigned_faces_all acc
            ∨ ∃ sg, sg ∈ l ∧ i ∈ FaceSets.face_indices_of h shape_long sg)
  ∧ (∀ sg,
       ObjectGeo.per_sg_faces
         (foldl (ObjectGeo.collect_step h shape_long) acc l) !! sg
       = (fun s => if decide (sg ∈ l)
                   then s ∪ FaceSets.face_indices_of h shape_long sg else s)
         <$> ObjectGeo.per_sg_faces acc !! sg).
Proof.
  revert acc. induction l as [|sg0 l IH]; intros acc Hdom.
  - simpl. rewrite app_nil_r. split; [done|]. split.
    + intros i. split; [by left|]. intros [?|(sg & ?%elem_of_nil & _)]; done.
    + intros sg. destruct (ObjectGeo.per_sg_faces acc !! sg); [|done].
      simpl. by destruct (decide (sg ∈ [])) as [?%elem_of_nil|].
  - cbn [foldl].
    destruct (collect_step_spec acc sg0) as (A & O & P);
      [apply Hdom; left|].
    destruct (IH (ObjectGeo.collect_step h shape_long acc sg0))
      as (IHO & IHA & IHP).
    { intros sg Hsg. rewrite P.
      destruct (Hdom sg) as [s Hs]; [by right|]. rewrite Hs. by eexists. }
    split; [|split].
    + rewrite IHO, O, filter_cons, <- app_assoc.
      destruct (FaceSets.object_level_here h shape_long sg0);
        [by rewrite decide_True|by rewrite decide_False].
    + intros i. rewrite IHA, A, elem_of_union. split.
      * intros [[?|?]|(sg & Hsg & Hi)]; [by left| |].
        -- right. exists sg0. split; [left|done].
        -- right. exists sg. split; [by right|done].
      * intros [?|(sg & [->|Hsg]%elem_of_cons & Hi)];
          [by left; left|by left; right|].
        right. by exists sg.
    + intros sg. rewrite IHP, P.
      destruct (ObjectGeo.per_sg_faces acc !! sg) as [s|]; [|done].
      simpl. f_equal.
      destruct (decide (sg = sg0)) as [->|Hne].
      * rewrite (decide_True (P:=sg0 ∈ sg0 :: l)) by left.
        destruct (decide (sg0 ∈ l)); [|done].
        by rewrite <- union_assoc_L, union_idemp_L.
      * destruct (decide (sg ∈ l)) as [Hin|Hin].
        -- by rewrite decide_True by (by right).
        -- rewrite decide_False; [done|].
           by intros [?|?]%elem_of_cons.
Qed.

Lemma initial_faces_lookup (sgs : list string) (sg : string) :
  (list_to_map (map (fun sg => (sg, ∅)) sgs) : gmap string (gset Z)) !! sg
  = if decide (sg ∈ sgs) then Some ∅ else None.
Proof.
  induction sgs as [|s sgs IH]; simpl.
  - rewrite lookup_empty. by destruct (decide (sg ∈ [])) as [?%elem_of_nil|].
  - destruct (decide (s = sg)) as [->|Hne].
    + rewrite lookup_insert_eq.
      destruct (decide (sg ∈ sg :: sgs)) as [|Hn]; [done|].
      exfalso. apply Hn. left.
    + rewrite lookup_insert_ne, IH by done.
      destruct (decide (sg ∈ sgs)) as [Hin|Hin],
               (decide (sg ∈ s :: sgs)) as [Hin'|Hin']; try done.
      * exfalso. apply Hin'. by right.
      * apply elem_of_cons in Hin' as [?|?]; congruence.
Qed.

End Collect.

(** X3.  What [_collect_face_assignments_for_shape] returns, group by
    group: the object-level groups are those of [sgs] that hold the shape
    at object level, in the order of [sgs]; a face index counts as assigned
    exactly when it is within the face count and found among the face
    members of one of the groups; and each group of [sgs] is mapped to its
    own face indices, clamped the same way. *)
Theorem collect_face_assignments_spec
  (h : Host) (shape_long : string) (sgs : list string) :
  let c := (ObjectGeo._collect_face_assignments_for_shape h shape_long sgs).1 in
  let face_count :=
    (ObjectGeo._collect_face_assignments_for_shape h shape_long sgs).2 in
  face_count = polyEvaluate_face h shape_long
  ∧ ObjectGeo.object_level_sgs c
    = filter (fun sg => FaceSets.object_level_here h shape_long sg = true) sgs
  ∧ (∀ i, i ∈ ObjectGeo.assigned_faces_all c
          ↔ 0 ≤ i < face_count
            ∧ ∃ sg, sg ∈ sgs ∧ i ∈ FaceSets.face_indices_of h shape_long sg)
  ∧ (∀ sg, ObjectGeo.per_sg_faces c !! sg
           = if decide (sg ∈ sgs)
             then Some (ObjectGeo.clamp face_count
                          (FaceSets.face_indices_of h shape_long sg))
             else None)
  ∧ (∀ sg faces, ObjectGeo.per_sg_faces c !! sg = Some faces →
                 faces ⊆ ObjectGeo.assigned_faces_all c).
Proof.
  intros c face_count. subst c face_count.
  unfold ObjectGeo._collect_face_assignments_for_shape.
  cbn [fst snd ObjectGeo.assigned_faces_all ObjectGeo.object_level_sgs
       ObjectGeo.per_sg_faces].
  set (init := ObjectGeo.Collected ∅
                 (list_to_map (map (fun sg => (sg, ∅)) sgs)) []).
  destruct (collect_fold_spec h shape_long sgs init) as (O & A & P).
  { intros sg Hsg. cbn. rewrite initial_faces_lookup.
    by rewrite decide_True. }
  assert (Hassigned : ∀ i,
    i ∈ ObjectGeo.clamp (polyEvaluate_face h shape_long)
          (ObjectGeo.assigned_faces_all
             (foldl (ObjectGeo.collect_step h shape_long) init sgs))
    ↔ 0 ≤ i < polyEvaluate_face h shape_long
      ∧ ∃ sg, sg ∈ sgs ∧ i ∈ FaceSets.face_indices_of h shape_long sg).
  { intros i. unfold ObjectGeo.clamp. rewrite elem_of_filter, A. cbn.
    split; intros [? H]; (split; [done|]).
    - by destruct H as [?%not_elem_of_empty|?].
    - by right. }
  assert (Hper : ∀ sg,
    (ObjectGeo.clamp (polyEvaluate_face h shape_long)
       <$> ObjectGeo.per_sg_faces
             (foldl (ObjectGeo.collect_step h shape_long) init sgs)) !! sg
    = if decide (sg ∈ sgs)
      then Some (ObjectGeo.clamp (polyEvaluate_face h shape_long)
                   (FaceSets.face_indices_of h shape_long sg))
      else None).
  { intros sg. rewrite lookup_fmap, P. cbn. rewrite initial_faces_lookup.
    destruct (decide (sg ∈ sgs)); [|done].
    simpl. by rewrite union_empty_l_L. }
  split; [done|]. split; [by rewrite O|]. split; [exact Hassigned|].
  split; [exact Hper|].
  intros sg faces. rewrite Hper.
  destruct (decide (sg ∈ sgs)) as [Hin|]; [|done].
  intros [= <-] i. rewrite Hassigned. unfold ObjectGeo.clamp.
  rewrite elem_of_filter. intros [? ?]. split; [done|]. by exists sg.
Qed.

(* ================================================================== *)
(** ** Face components written and read back                           *)
(* ================================================================== *)

Section Strings.

Implicit Types s t : string.

Lemma chars_app s t : String.list_ascii_of_string (s +:+ t) = String.list_ascii_of_string s ++ String.list_ascii_of_string t.
Proof. induction s as [|c s IH]; simpl; [done|by rewrite IH]. Qed.

Lemma chars_inj s t : String.list_ascii_of_string s = String.list_ascii_of_string t → s = t.
Proof.
  intros H. rewrite <- (String.string_of_list_ascii_of_string s),
    <- (String.string_of_list_ascii_of_string t). by rewrite H.
Qed.

Lemma chars_rev_app s t :
  String.list_ascii_of_string (String.rev_app s t) = reverse (String.list_ascii_of_string s) ++ String.list_ascii_of_string t.
Proof.
  revert t. induction s as [|c s IH]; intros t; simpl; [done|].
  by rewrite IH, reverse_cons, <- app_assoc.
Qed.

Lemma chars_rev s : String.list_ascii_of_string (String.rev s) = reverse (String.list_ascii_of_string s).
Proof. unfold String.rev. by rewrite chars_rev_app, app_nil_r. Qed.

Lemma rev_rev s : String.rev (String.rev s) = s.
Proof. apply chars_inj. by rewrite !chars_rev, reverse_involutive. Qed.

Lemma lstrip_no_space s :
  Forall (fun c => is_space c = false) (String.list_ascii_of_string s) → lstrip s = s.
Proof. destruct s as [|c s]; [done|]. intros [Hc _]%Forall_cons. simpl. by rewrite Hc. Qed.

Lemma strip_no_space s :
  Forall (fun c => is_space c = false) (String.list_ascii_of_string s) → strip s = s.
Proof.
  intros H. unfold strip. rewrite (lstrip_no_space s H).
  rewrite lstrip_no_space; [apply rev_rev|].
  rewrite chars_rev. by apply Forall_reverse.
Qed.

Lemma string_length_app s t :
  String.length (s +:+ t) = (String.length s + String.length t)%nat.
Proof. induction s as [|c s IH]; simpl; [done|by rewrite IH]. Qed.

Lemma string_app_assoc s t u : (s +:+ t) +:+ u = s +:+ (t +:+ u).
Proof.
  induction s as [|c s IH]; [done|].
  change (String c ((s +:+ t) +:+ u) = String c (s +:+ (t +:+ u))).
  by rewrite IH.
Qed.

Lemma substring_skip s t (n : nat) :
  String.substring (String.length s) n (s +:+ t) = String.substring 0 n t.
Proof. induction s as [|c s IH]; simpl; [done|exact IH]. Qed.

Lemma substring_prefix s t :
  String.substring 0 (String.length s) (s +:+ t) = s.
Proof.
  induction s as [|c s IH]; simpl; [by destruct t|by rewrite IH].
Qed.

Lemma rfind_from_absent (c : ascii) s (k : nat) :
  c ∉ String.list_ascii_of_string s → rfind_from c s k = None.
Proof.
  revert k. induction s as [|a s IH]; intros k Hc; simpl; [done|].
  simpl in Hc. rewrite IH by set_solver.
  destruct (Ascii.eqb_spec a c) as [->|]; [set_solver|done].
Qed.

Lemma rfind_from_last (c : ascii) s t (k : nat) :
  c ∉ String.list_ascii_of_string t →
  rfind_from c (s +:+ String c t) k = Some (k + String.length s)%nat.
Proof.
  revert k. induction s as [|a s IH]; intros k Hc; simpl.
  - rewrite rfind_from_absent by done. rewrite Ascii.eqb_refl.
    f_equal. lia.
  - rewrite IH by done. f_equal. lia.
Qed.

End Strings.

Lemma digit_char (d : N) :
  (d < 10)%N →
  digit_of (pretty_N_char d) = Some (Z.of_N d)
  ∧ plain (pretty_N_char d)
  ∧ pretty_N_char d ≠ "+"%char ∧ pretty_N_char d ≠ "-"%char.
Proof.
  intros Hd.
  assert (d ∈ [0; 1; 2; 3; 4; 5; 6; 7; 8; 9]%N) as Hin.
  { apply list_elem_of_In.
    destruct d as [|p]; [by left|].
    do 10 (destruct p as [p|p|]; try lia; simpl; auto 11). }
  unfold plain.
  repeat (apply elem_of_cons in Hin as [->|Hin]; [by repeat split|]).
  by apply elem_of_nil in Hin.
Qed.

Lemma pretty_N_go_read (x : N) :
  (0 < x)%N →
  ∀ (s : string) (acc : Z) (b : bool),
    ∃ (k : Z) (c : ascii) (r : string),
      0 ≤ k
      ∧ digits (pretty_N_go x s) acc b = digits s (acc * 10 ^ k + Z.of_N x) true
      ∧ pretty_N_go x s = String c r
      ∧ c ≠ "+"%char ∧ c ≠ "-"%char
      ∧ (Forall plain (String.list_ascii_of_string s) →
         Forall plain (String.list_ascii_of_string (pretty_N_go x s))).
Proof.
  induction (N.lt_wf_0 x) as [x _ IH]. intros Hx s acc b.
  rewrite pretty_N_go_step by done.
  destruct (digit_char (x `mod` 10)%N) as (Hd & Hp & Hplus & Hminus).
  { apply N.mod_lt. lia. }
  assert (Hx10 : Z.of_N x = 10 * Z.of_N (x `div` 10) + Z.of_N (x `mod` 10)).
  { pose proof (N.div_mod x 10). lia. }
  destruct (decide (x `div` 10 = 0)%N) as [E|E].
  - rewrite E, pretty_N_go_0. exists 1, (pretty_N_char (x `mod` 10)), s.
    split; [lia|]. split.
    { cbn [digits]. rewrite Hd. f_equal. rewrite Hx10, E. lia. }
    split; [done|]. split; [done|]. split; [done|].
    intros Hs. simpl. by constructor.
  - destruct (IH (x `div` 10)%N) with
      (s := String (pretty_N_char (x `mod` 10)) s) (acc := acc) (b := b)
      as (k & c & r & Hk & Hread & Hc & Hc1 & Hc2 & Hplain).
    { apply N.div_lt; lia. }
    { apply N.neq_0_lt_0. exact E. }
    exists (k + 1), c, r. split; [lia|]. split.
    { rewrite Hread. cbn [digits]. rewrite Hd. f_equal.
      rewrite Z.pow_add_r, Z.pow_1_r, Hx10 by lia. ring. }
    split; [done|]. split; [done|]. split; [done|].
    intros Hs. apply Hplain. simpl. by constructor.
Qed.

Lemma plain_no_space (s : string) :
  Forall plain (String.list_ascii_of_string s) →
  Forall (fun c => is_space c = false) (String.list_ascii_of_string s).
Proof. intros H. eapply Forall_impl; [exact H|]. by intros c [? _]. Qed.

Lemma pretty_Z_read (z : Z) :
  py_int (pretty z) = Some z
  ∧ Forall plain (String.list_ascii_of_string (pretty z)).
Proof.
  assert (Hpos : ∀ p, digits (pretty_N_go (N.pos p) "") 0 false = Some (Z.pos p)
            ∧ (∃ c r, pretty_N_go (N.pos p) "" = String c r
                      ∧ c ≠ "+"%char ∧ c ≠ "-"%char)
            ∧ Forall plain (String.list_ascii_of_string
                              (pretty_N_go (N.pos p) ""))).
  { intros p.
    destruct (pretty_N_go_read (N.pos p)) with (s := "") (acc := 0) (b := false)
      as (k & c & r & Hk & Hread & Hc & Hc1 & Hc2 & Hplain); [lia|].
    split; [by rewrite Hread|]. split; [by exists c, r|].
    apply Hplain. constructor. }
  destruct z as [|p|p].
  - split; [reflexivity|]. repeat constructor; discriminate.
  - destruct (Hpos p) as (Hread & (c & r & Hc & Hc1 & Hc2) & Hplain).
    change (pretty (Z.pos p)) with (pretty_N_go (N.pos p) "").
    split; [|done]. unfold py_int.
    rewrite strip_no_space by by apply plain_no_space.
    rewrite <- Hread, Hc.
    destruct c as [[] [] [] [] [] [] [] []]; try done.
  - destruct (Hpos p) as (Hread & _ & Hplain).
    change (pretty (Z.neg p)) with ("-" +:+ pretty_N_go (N.pos p) "").
    assert (Hall : Forall plain (String.list_ascii_of_string
                                   ("-" +:+ pretty_N_go (N.pos p) ""))).
    { simpl. constructor; [|done]. repeat split; discriminate. }
    split; [|done]. unfold py_int.
    rewrite strip_no_space by by apply plain_no_space.
    change ("-" +:+ pretty_N_go (N.pos p) "")
      with (String "-" (pretty_N_go (N.pos p) "")).
    cbv beta iota. by rewrite Hread.
Qed.

Lemma parse_face_component (shape_long : string) (idx : Z) :
  ObjectGeo.parse_face_index (face_component shape_long idx) = Some idx.
Proof.
  destruct (pretty_Z_read idx) as [Hread Hplain].
  unfold ObjectGeo.parse_face_index, face_component, rfind.
  assert (Hopen : rfind_from "[" (shape_long +:+ ".f[" +:+ pretty idx +:+ "]") 0
                  = Some (String.length shape_long + 2)%nat).
  { change (shape_long +:+ ".f[" +:+ pretty idx +:+ "]")
      with (shape_long +:+ String "." (String "f" (String "[" (pretty idx +:+ "]")))).
    replace (shape_long +:+ String "." (String "f" (String "[" (pretty idx +:+ "]"))))
      with ((shape_long +:+ ".f") +:+ String "[" (pretty idx +:+ "]")).
    2:{ by rewrite string_app_assoc. }
    rewrite rfind_from_last.
    - f_equal. rewrite string_length_app. simpl. lia.
    - rewrite chars_app. intros [Hin|Hin]%elem_of_app.
      + rewrite Forall_forall in Hplain. by destruct (Hplain _ Hin) as (_ & ? & _).
      + simpl in Hin. apply list_elem_of_singleton in Hin. discriminate. }
  assert (Hclose : rfind_from "]" (shape_long +:+ ".f[" +:+ pretty idx +:+ "]") 0
                   = Some (String.length shape_long + 3
                           + String.length (pretty idx))%nat).
  { replace (shape_long +:+ ".f[" +:+ pretty idx +:+ "]")
      with ((shape_long +:+ ".f[" +:+ pretty idx) +:+ String "]" "").
    2:{ by rewrite !string_app_assoc. }
    rewrite rfind_from_last by apply not_elem_of_nil.
    f_equal. rewrite !string_length_app. simpl. lia. }
  rewrite Hopen, Hclose. unfold slice.
  replace (String.length shape_long + 3 + String.length (pretty idx)
           - S (String.length shape_long + 2))%nat
    with (String.length (pretty idx)) by lia.
  replace (shape_long +:+ ".f[" +:+ pretty idx +:+ "]")
    with ((shape_long +:+ ".f[") +:+ (pretty idx +:+ "]")).
  2:{ by rewrite string_app_assoc. }
  replace (S (String.length shape_long + 2))
    with (String.length (shape_long +:+ ".f["))
    by (rewrite string_length_app; simpl; lia).
  by rewrite substring_skip, substring_prefix.
Qed.

Lemma parse_face_components (shape_long : string) (idxs : list Z)
  (acc : gset Z) :
  foldl (fun indices comp =>
           match ObjectGeo.parse_face_index comp with
           | Some idx => {[idx]} ∪ indices
           | None => indices
           end) acc (map (face_component shape_long) idxs)
  = list_to_set idxs ∪ acc.
Proof.
  revert acc. induction idxs as [|i idxs IH]; intros acc; simpl.
  - by rewrite union_empty_l_L.
  - rewrite parse_face_component, IH. set_solver.
Qed.

(** X4.  The face components [_assign_faces_to_sg] hands to the host read
    back, through [_parse_face_indices], as exactly the face indices it was
    given: the two functions agree on the format, for every shape name and
    every index. *)
Theorem assigned_faces_read_back
  (h : Host) (shape_long sg : string) (face_indices : gset Z) :
  face_indices ≠ ∅ →
  ∃ faces raised,
    face_assignments
      (ObjectGeo._assign_faces_to_sg h shape_long face_indices sg).1
    = [(faces, sg, raised)]
    ∧ ObjectGeo._parse_face_indices faces = face_indices.
Proof.
  intros Hne.
  destruct (assign_nonempty h shape_long sg face_indices Hne) as [_ H].
  eexists _, _. split; [exact H|].
  unfold ObjectGeo._parse_face_indices.
  rewrite parse_face_components, union_empty_r_L.
  apply set_eq. intros i. by rewrite elem_of_list_to_set, sorted_elem_of.
Qed.

Lemma assigned_faces_read_back_witness :
  ∃ faces raised,
    face_assignments
      (ObjectGeo._assign_faces_to_sg Samples.scene Samples.cubeShape
         {[2; 3]} "lambertSG").1
    = [(faces, "lambertSG", raised)]
    ∧ ObjectGeo._parse_face_indices faces = {[2; 3]}.
Proof.
  apply (assigned_faces_read_back Samples.scene Samples.cubeShape "lambertSG"
           {[2; 3]}).
  intros H. assert (2 ∈ (∅ : gset Z)) as Hin by (rewrite <- H; set_solver).
  by apply not_elem_of_empty in Hin.
Defined.

(* ================================================================== *)
(** ** What the conversion removes                                     *)
(* ================================================================== *)

Section Removals.

Variable h : Host.



Lemma removals_when_printed (b : bool) (m : Script unit) :
  removals m.1 = [] → removals (ObjectGeo.when b m).1 = [].
Proof. by destruct b. Qed.




End Removals.


(* ================================================================== *)
(** ** What the bake does to the scene                                 *)
(* ================================================================== *)

(** X6.  [bake_facesets_for_selection] never changes a shading group:
    whatever is selected and whatever the host answers, it makes no
    [cmds.sets] call.  It returns the empty list when no mesh shape is found
    under the selection, and otherwise raises NameError before the first
    conversion; it never returns a shape. *)
Theorem bake_never_converts
  (h : Host) (remove verbose : bool) (sel : list string) :
  let run := ObjectGeo.bake_facesets_for_selection h remove verbose sel in
  ∃ shapes,
    (ObjectGeo._get_selected_mesh_shapes h sel).2 = Ok shapes
    ∧ run.2 = match shapes with
              | [] => Ok []
              | _ => Raise (NameError
                              "convert_object_level_materials_to_face_sets")
              end
    ∧ face_assignments run.1 = []
    ∧ removals run.1 = [].
Proof.
  intros run. subst run.
  assert (∃ shapes,
            (ObjectGeo._get_selected_mesh_shapes h sel).2 = Ok shapes
            ∧ face_assignments (ObjectGeo._get_selected_mesh_shapes h sel).1 = []
            ∧ removals (ObjectGeo._get_selected_mesh_shapes h sel).1 = [])
    as (shapes & Hs & Hf & Hr).
  { unfold ObjectGeo._get_selected_mesh_shapes. destruct sel as [|s sel].
    - by exists [].
    - exists (ObjectGeo.selected_mesh_shapes h (s :: sel)).
      by destruct (ObjectGeo.selected_mesh_shapes h (s :: sel)). }
  exists shapes. split; [done|].
  destruct shapes as [|s rest].
  - unfold ObjectGeo.bake_facesets_for_selection.
    rewrite script_bind_result, script_bind_events, Hs. cbn.
    by rewrite app_nil_r.
  - rewrite (bake_raises h remove verbose sel (s :: rest) Hs) by done.
    done.
Qed.

(* ================================================================== *)
(** ** The root of the scene                                           *)
(* ================================================================== *)

Lemma rfind_from_found (c : ascii) (s : string) (k j : nat) :
  rfind_from c s k = Some j →
  ∃ s1 s2, s = s1 +:+ String c s2
           ∧ j = (k + String.length s1)%nat
           ∧ c ∉ String.list_ascii_of_string s2.
Proof.
  revert k j. induction s as [|a s IH]; intros k j; simpl; [done|].
  destruct (rfind_from c s (S k)) as [j'|] eqn:E.
  - intros [= <-]. destruct (IH (S k) j' E) as (s1 & s2 & -> & -> & Hc).
    exists (String a s1), s2. split; [done|]. split; [simpl; lia|done].
  - destruct (Ascii.eqb_spec a c) as [->|]; [|done]. intros [= <-].
    exists "", s. split; [done|]. split; [simpl; lia|].
    clear IH. revert k E. induction s as [|b s IH]; intros k; simpl.
    + intros _. apply not_elem_of_nil.
    + destruct (rfind_from c s (S (S k))) eqn:E'; [done|].
      destruct (Ascii.eqb_spec b c) as [->|Hb]; [done|]. intros _.
      apply not_elem_of_cons. split; [done|].
      apply (IH (S k)). simpl in E'. exact E'.
Qed.

Lemma rfind_from_none (c : ascii) (s : string) (k : nat) :
  rfind_from c s k = None → c ∉ String.list_ascii_of_string s.
Proof.
  revert k. induction s as [|a s IH]; intros k; simpl.
  - intros _. apply not_elem_of_nil.
  - destruct (rfind_from c s (S k)) eqn:E; [done|].
    destruct (Ascii.eqb_spec a c) as [->|Ha]; [done|]. intros _.
    apply not_elem_of_cons. split; [done|]. by apply (IH (S k)).
Qed.

Lemma substring_all (s : string) :
  String.substring 0 (String.length s) s = s.
Proof. induction s as [|c s IH]; simpl; [done|by rewrite IH]. Qed.

Lemma last_segment_spec (c : ascii) (s : string) :
  (c ∉ String.list_ascii_of_string (last_segment c s))
  ∧ (last_segment c s = s
     ∨ ∃ before, s = before +:+ String c (last_segment c s)).
Proof.
  unfold last_segment, rfind.
  destruct (rfind_from c s 0) as [j|] eqn:E.
  - apply rfind_from_found in E as (s1 & s2 & -> & -> & Hc).
    assert (slice (S (0 + String.length s1))
              (String.length (s1 +:+ String c s2)) (s1 +:+ String c s2) = s2)
      as ->.
    { unfold slice.
      replace (s1 +:+ String c s2) with ((s1 +:+ String c "") +:+ s2)
        by (by rewrite string_app_assoc).
      replace (S (0 + String.length s1))
        with (String.length (s1 +:+ String c ""))
        by (rewrite string_length_app; simpl; lia).
      rewrite substring_skip, string_length_app.
      replace (String.length (s1 +:+ String c "") + String.length s2
               - String.length (s1 +:+ String c ""))%nat
        with (String.length s2) by lia.
      apply substring_all. }
    split; [done|]. right. by exists s1.
  - split; [by apply rfind_from_none in E|by left].
Qed.

Lemma climb_spec (node : string) (above : list string) :
  ObjectGeo.climb node above = default node (last above).
Proof.
  revert node. induction above as [|p rest IH]; intros node; [done|].
  simpl. rewrite IH. destruct rest as [|r rest]; [done|].
  change (last (p :: r :: rest)) with (last (r :: rest)).
  clear IH. revert r. induction rest as [|r' rest IH]; intros r; [done|].
  apply (IH r').
Qed.

(** X7.  [_get_root_node] returns a short name: there is no '|' in it, and
    it is what follows the last '|' of the topmost ancestor's path (of the
    node's own path when it has no parent).  [_get_root_from_first_mesh]
    never raises; it returns [None] exactly when the scene has no mesh or
    its first mesh has no parent, and otherwise the root name of the first
    mesh's transform. *)
Theorem root_node_is_short_name (h : Host) (node : string) :
  let top := default node (last (ancestors h node)) in
  let root := ObjectGeo._get_root_node h node in
  ("|"%char ∉ String.list_ascii_of_string root)
  ∧ (root = top ∨ ∃ before, top = before +:+ String "|" root)
  ∧ ∃ v, (ObjectGeo._get_root_from_first_mesh h).2 = Ok v
         ∧ (v = PyNone
            ↔ ls_meshes h = []
              ∨ ∃ m rest, ls_meshes h = m :: rest
                          ∧ or_empty (listRelatives_parent h m) = [])
         ∧ (∀ m rest t ts,
              ls_meshes h = m :: rest →
              or_empty (listRelatives_parent h m) = t :: ts →
              v = PyStr (ObjectGeo._get_root_node h t)).
Proof.
  intros top root. subst top root. unfold ObjectGeo._get_root_node.
  rewrite climb_spec.
  destruct (last_segment_spec "|" (default node (last (ancestors h node))))
    as [H1 H2].
  split; [done|]. split; [done|].
  unfold ObjectGeo._get_root_from_first_mesh.
  destruct (ls_meshes h) as [|m rest].
  { exists PyNone. split; [done|]. split; [|done]. split; [by left|done]. }
  destruct (or_empty (listRelatives_parent h m)) as [|t ts] eqn:Hp.
  { exists PyNone. split; [reflexivity|]. split.
    - split; [|done]. intros _. right. by exists m, rest.
    - intros m' rest' t' ts' [= <- <-]. by rewrite Hp. }
  eexists. split; [reflexivity|]. split.
  - split; [done|]. intros [?|(m' & rest' & [= <- <-] & Hp')]; [done|].
    by rewrite Hp in Hp'.
  - intros m' rest' t' ts' [= <- <-]. rewrite Hp. by intros [= <- <-].
Qed.

(* ================================================================== *)
(** ** What accept answers                                             *)
(* ================================================================== *)

Ltac run_hook :=
  unfold mbind, M_bind, hook_bind, mret, M_ret, hook_ret, emit, of_result,
    select, ls_selection, prop_item, call, as_str, raise in *.

Lemma require_work_template_spec item acc w :
  ∃ evs,
    Accept.require_work_template item acc w
    = (Ok (acc && bool_decide (is_Some (work_template item))),
       World (selection w) (properties w) (trace w ++ evs)).
Proof.
  unfold Accept.require_work_template.
  destruct (work_template item); run_hook.
  - exists []. rewrite app_nil_r, andb_true_r. by destruct w.
  - eexists. by rewrite andb_false_r.
Qed.

Lemma require_publish_template_spec t acc w :
  ∃ evs,
    Accept.require_publish_template t acc w
    = (Ok (acc && bool_decide (is_Some t)),
       World (selection w) (properties w) (trace w ++ evs)).
Proof.
  unfold Accept.require_publish_template.
  destruct t; run_hook.
  - exists []. rewrite app_nil_r, andb_true_r. by destruct w.
  - eexists. by rewrite andb_false_r.
Qed.

Lemma require_abc_export_spec pub acc w :
  ∃ evs,
    Accept.require_abc_export pub acc w
    = (Ok (acc && Accept.abc_export_exists pub),
       World (selection w) (properties w) (trace w ++ evs)).
Proof.
  unfold Accept.require_abc_export.
  destruct (Accept.abc_export_exists pub); run_hook.
  - exists []. rewrite app_nil_r, andb_true_r. by destruct w.
  - eexists. by rewrite andb_false_r.
Qed.




(** X9.  In the steps ANIMATION and ANIMATION_A the geometry hook's accept
    checks a per-object item exactly when [_geo_has_animation] finds
    animation under the parent of the object. *)
Theorem geometry_accept_checks_animated
  (h : Host) (pub : Accept.Publisher) (st : ObjectGeo.Settings)
  (item : Maya.Item) (w : world) (a : Accept.answer) (s : string) :
  (Accept.geometry_accept h pub st item w).1 = Ok a →
  Maya.item_type item ≠ "maya.session.geometries" →
  dict_item (step (context item)) "name" = Ok (PyStr s) →
  s = "ANIMATION" ∨ s = "ANIMATION_A" →
  ∃ v nodes s0,
    properties w !! "object" = Some v
    ∧ nodes_of v = Ok nodes
    ∧ Maya.first nodes = Ok s0
    ∧ ObjectGeo._geo_has_animation h
        (list_or_none (listRelatives_parent h s0))
      = Ok (Accept.checked a).
Proof.
  intros Hrun Hty Hstep Hs.
  destruct (Accept.geometry_accept h pub st item w) as [r w'] eqn:Hg.
  cbn [fst snd] in *. subst r.
  revert Hg. unfold Accept.geometry_accept.
  unfold mbind at 1, M_bind at 1, hook_bind at 1.
  destruct (require_work_template_spec item true w) as [evs1 ->].
  unfold mbind at 1, M_bind at 1, hook_bind at 1.
  edestruct require_publish_template_spec as [evs2 ->].
  unfold mbind at 1, M_bind at 1, hook_bind at 1.
  edestruct require_abc_export_spec as [evs3 ->].
  cbn [selection properties trace].
  apply String.eqb_neq in Hty. rewrite Hty. cbn [negb].
  assert (Accept.step_in (context item) Accept.modelling_steps = Ok false
          ∧ Accept.step_in (context item) Accept.shot_steps = Ok true
          ∧ Accept.step_in (context item) Accept.animation_steps = Ok true)
    as (-> & -> & ->).
  { unfold Accept.step_in. rewrite Hstep. by destruct Hs as [-> | ->]. }
  run_hook. cbn [selection properties trace].
  destruct (properties w !! "object") as [v|]; [|done].
  destruct (nodes_of v) as [nodes|] eqn:Hn; cbn [selection properties trace];
    [|done].
  destruct (Maya.first nodes) as [s0|] eqn:Hf; cbn [selection properties trace];
    [|done].
  destruct (ObjectGeo._geo_has_animation h
              (list_or_none (listRelatives_parent h s0))) as [[|]|] eqn:Ha;
    [| |done]; intros [= <- <-]; by exists v, nodes, s0.
Qed.

Lemma geometry_accept_checks_animated_witness :
  ∃ a,
    (Accept.geometry_accept Samples.scene MoreSamples.publisher
       Samples.geo_settings (Samples.object_item MoreSamples.animation_context)
       Samples.collected_world).1 = Ok a
    ∧ ObjectGeo._geo_has_animation Samples.scene (PyList ["|grp"])
      = Ok (Accept.checked a).
Proof.
  eexists. split; [vm_compute; reflexivity|].
  edestruct (geometry_accept_checks_animated Samples.scene
               MoreSamples.publisher Samples.geo_settings
               (Samples.object_item MoreSamples.animation_context)
               Samples.collected_world)
    as (v & nodes & s0 & Hv & Hn & Hf & H);
    [vm_compute; reflexivity|discriminate|reflexivity|by left|].
  vm_compute in Hv. injection Hv as <-.
  vm_compute in Hn. injection Hn as <-.
  vm_compute in Hf. injection Hf as <-.
  exact H.
Defined.

(* ================================================================== *)
(** ** The shading groups of an object                                 *)
(* ================================================================== *)

Lemma gather_shading_groups_elem_of (h : Host) (shapes : list string)
  (sg : string) :
  sg ∈ Shader.gather_shading_groups h shapes
  ↔ ∃ shape sgs, shape ∈ shapes ∧ shadingEngines h shape = Some sgs
                 ∧ sg ∈ sgs.
Proof.
  unfold Shader.gather_shading_groups.
  assert (∀ acc : gset string,
            sg ∈ foldl (fun shading_groups shape =>
                          match shadingEngines h shape with
                          | Some (sg :: sgs) =>
                              shading_groups ∪ list_to_set (sg :: sgs)
                          | _ => shading_groups
                          end) acc shapes
            ↔ sg ∈ acc
              ∨ ∃ shape sgs, shape ∈ shapes
                             ∧ shadingEngines h shape = Some sgs ∧ sg ∈ sgs)
    as H.
  { induction shapes as [|s shapes IH]; intros acc; simpl.
    - split; [by left|]. intros [?|(? & ? & []%elem_of_nil & _)]. done.
    - rewrite IH. split.
      + intros [Hin|(shape & sgs & Hs & He & Hsg)].
        * destruct (shadingEngines h s) as [[|x l]|] eqn:E; [by left..| |by left].
          apply elem_of_union in Hin as [?|Hin]; [by left|].
          right. exists s, (x :: l).
          split; [by left|]. split; [done|]. set_solver.
        * right. exists shape, sgs. split; [by right|done].
      + intros [Hin|(shape & sgs & Hs & He & Hsg)].
        * left. destruct (shadingEngines h s) as [[|x l]|]; set_solver.
        * apply elem_of_cons in Hs as [->|Hs].
          -- left. rewrite He.
             destruct sgs as [|x l]; [by apply elem_of_nil in Hsg|].
             set_solver.
          -- right. by exists shape, sgs. }
  rewrite H. split; [intros [[]%elem_of_empty|?]; done|by right].
Qed.

Lemma script_for_printed {A} (l : list A) (line : A -> string) :
  (script_for l (fun x => tell (Printed (line x)))).2 = Ok tt.
Proof.
  induction l as [|x l IH]; [done|]. cbn [script_for].
  by rewrite script_bind_result.
Qed.

(** X10.  [_get_shading_groups_from_object] never raises.  For an object
    that does not exist it returns the empty list.  Otherwise it returns,
    without repetition, exactly the shading groups connected to a shape
    below the object, or to the object itself when it is a mesh, a NURBS
    surface or a NURBS curve. *)
Theorem shading_groups_of_object (h : Host) (obj : string) :
  ∃ sgs,
    (Shader._get_shading_groups_from_object h obj).2 = Ok sgs
    ∧ NoDup sgs
    ∧ (objExists h obj = false → sgs = [])
    ∧ (objExists h obj = true →
       ∀ sg, sg ∈ sgs
             ↔ ∃ shape connected,
                 (shape ∈ or_empty (descendant_shapes h obj)
                  ∨ (shape = obj
                     ∧ nodeType h (PyStr obj)
                       ∈ ["mesh"; "nurbsSurface"; "nurbsCurve"]))
                 ∧ shadingEngines h shape = Some connected
                 ∧ sg ∈ connected).
Proof.
  unfold Shader._get_shading_groups_from_object.
  destruct (objExists h obj) eqn:Hex; cbn [negb].
  2:{ exists []. split; [done|]. split; [constructor|]. done. }
  eexists. split.
  { rewrite !script_bind_result. cbn [tell snd].
    by rewrite script_for_printed. }
  split; [apply NoDup_elements|]. split; [done|]. intros _ sg.
  rewrite elem_of_elements, gather_shading_groups_elem_of.
  split.
  - intros (shape & connected & Hs & He & Hsg). exists shape, connected.
    split; [|done]. case_bool_decide as Hty.
    + apply elem_of_app in Hs as [?|Hs]; [by left|].
      apply list_elem_of_singleton in Hs. by right.
    + by left.
  - intros (shape & connected & Hs & He & Hsg). exists shape, connected.
    split; [|done]. destruct Hs as [Hs|[-> Hty]].
    + case_bool_decide; [apply elem_of_app|]; eauto.
    + rewrite bool_decide_eq_true_2 by done. apply elem_of_app. right.
      by apply list_elem_of_singleton.
Qed.

(* ================================================================== *)
(** ** What the shader hook's accept answers                           *)
(* ================================================================== *)

(** X11.  When the shader hook's accept returns, the selection is what it
    was and context change is disabled; the publish template found is
    stored on the item as its "publish_template" property, and no other
    property is written ([properties] is the rest of the dictionary).  The
    item is checked exactly in the steps SHADING_A and TEXTURE_A, and
    accepted exactly when, in one of these steps, it has a work template,
    the publish template exists and some shading group is connected to the
    object: an accepted item is always checked. *)
Theorem shader_accept_answer
  (h : Host) (pub : Accept.Publisher) (template_name : string)
  (item : Maya.Item) (w : world) (a : Accept.answer) :
  (Accept.shader_accept h pub template_name item w).1 = Ok a →
  let after := (Accept.shader_accept h pub template_name item w).2 in
  ∃ obj sgs,
    properties w !! "object" = Some (PyStr obj)
    ∧ (Shader._get_shading_groups_from_object h obj).2 = Ok sgs
    ∧ selection after = selection w
    ∧ properties after = properties w
    ∧ Accept.context_change_allowed a = false
    ∧ Accept.item_after a
      = Accept.with_publish_template item
          (Accept.get_template_by_name pub template_name)
    ∧ (Accept.checked a = true
       ↔ ∃ name, dict_item (step (context item)) "name" = Ok (PyStr name)
                 ∧ (name = "SHADING_A" ∨ name = "TEXTURE_A"))
    ∧ Accept.accepted a
      = Accept.checked a
        && bool_decide (is_Some (work_template item))
        && bool_decide (is_Some (Accept.get_template_by_name pub template_name))
        && bool_decide (sgs ≠ []).
Proof.
  intros Hrun after. subst after.
  destruct (Accept.shader_accept h pub template_name item w) as [r w'] eqn:Hg.
  cbn [fst snd] in *. subst r.
  revert Hg. unfold Accept.shader_accept.
  unfold mbind at 1, M_bind at 1, hook_bind at 1.
  destruct (require_work_template_spec item true w) as [evs1 ->].
  unfold mbind at 1, M_bind at 1, hook_bind at 1.
  edestruct require_publish_template_spec as [evs2 ->].
  set (acc := true && bool_decide (is_Some (work_template item))
              && bool_decide
                   (is_Some (Accept.get_template_by_name pub template_name))).
  run_hook. cbn [selection properties trace].
  destruct (properties w !! "object") as [[| | |obj| | |]|]; try done.
  run_hook. cbn [selection properties trace].
  destruct (Shader._get_shading_groups_from_object h obj) as [evs r] eqn:Esg.
  destruct r as [sgs|e]; cbn [selection properties trace]; [|done].
  unfold Accept.step_in.
  destruct (dict_item (step (context item)) "name") as [s|e] eqn:Estep.
  2:{ by destruct sgs. }
  intros Hg. exists obj, sgs. split; [done|]. split; [by rewrite Esg|].
  revert Hg.
  assert (Hacc : ∀ b : bool,
            match sgs with [] => false | _ :: _ => acc end && b
            = b && bool_decide (is_Some (work_template item))
              && bool_decide
                   (is_Some (Accept.get_template_by_name pub template_name))
              && bool_decide (sgs ≠ [])).
  { intros b. subst acc. destruct sgs, b; cbn; rewrite ?andb_false_r;
      try done; rewrite ?andb_true_r; done. }
  destruct s as [| | |s| | |];
    try (cbn [selection properties trace]; intros [= <- <-];
         cbn [selection properties trace Accept.accepted Accept.checked
              Accept.item_after Accept.context_change_allowed];
         repeat (split; [done|]); split; [|done];
         split; [done|]; by intros (? & ? & _)).
  destruct (bool_decide (s ∈ ["SHADING_A"; "TEXTURE_A"])) eqn:Hs;
    [apply bool_decide_eq_true in Hs|apply bool_decide_eq_false in Hs];
    cbn [selection properties trace]; intros [= <- <-];
    cbn [selection properties trace Accept.accepted Accept.checked
         Accept.item_after Accept.context_change_allowed];
    repeat (split; [done|]); (split; [split|]).
  - intros _. exists s. split; [done|].
    apply elem_of_cons in Hs as [->|Hs]; [by left|].
    apply list_elem_of_singleton in Hs. subst. by right.
  - done.
  - rewrite <- Hacc. by rewrite andb_true_r.
  - done.
  - intros (name & Heq & Hn). injection Heq as <-. exfalso. apply Hs.
    destruct Hn as [-> | ->]; set_solver.
  - done.
Qed.

Lemma shader_accept_answer_witness :
  ∃ a,
    (Accept.shader_accept Samples.scene MoreSamples.publisher
       "maya_asset_shader_publish"
       (Samples.object_item Samples.texture_context)
       Samples.collected_world).1 = Ok a
    ∧ Accept.accepted a = Accept.checked a
    ∧ Accept.checked a = true.
Proof.
  eexists. split; [vm_compute; reflexivity|].
  edestruct (shader_accept_answer Samples.scene MoreSamples.publisher
               "maya_asset_shader_publish"
               (Samples.object_item Samples.texture_context)
               Samples.collected_world)
    as (obj & sgs & _ & _ & _ & _ & _ & _ & Hc & Ha);
    [vm_compute; reflexivity|].
  split; [reflexivity|]. apply Hc. exists "TEXTURE_A". by split; [|right].
Defined.

(* ================================================================== *)
(** ** The selection and the task around an export                     *)
(* ================================================================== *)

Lemma export_then_report_outcomes prelude announce outcome failure item w :
  emits before_export prelude →
  trace w = [] →
  let run := export_then_report prelude announce outcome failure item w in
  (export_succeeded (trace run.2) →
   selection run.2 = selection w
   ∧ properties run.2 = properties (prelude w).2
   ∧ BasePublish ∈ trace run.2
   ∧ run.1 = match dict_item (task (context item)) "id" with
             | Ok _ => Ok tt
             | Raise e => Raise e
             end
   ∧ (∀ e, dict_item (task (context item)) "id" = Raise e →
           updates (trace run.2) = []))
  ∧ (∀ e, export_raised (trace run.2) e →
          run.1 = Ok tt
          ∧ selection run.2 = selection (prelude w).2
          ∧ properties run.2 = properties (prelude w).2
          ∧ ∃ cmd, (prelude w).1 = Ok cmd).
Proof.
  intros Hpre Hw run. subst run.
  destruct (Hpre w) as (evs & E & F). rewrite Hw, app_nil_l in E.
  destruct (before_export_quiet evs F) as (Hup & _ & _ & Q).
  unfold export_then_report, mbind, M_bind, hook_bind, ls_selection.
  destruct (prelude w) as [[cmd|e] w1]; cbn [fst snd] in E |- *.
  2:{ split.
      - intros [c Hc]. rewrite E in Hc. by apply Q in Hc.
      - intros e' [c Hc]. rewrite E in Hc. by apply Q in Hc. }
  unfold try_except, run_export.
  destruct (outcome cmd) as [e|]; cbn.
  - split.
    + intros [c Hc]. rewrite E in Hc. exfalso.
      apply elem_of_app in Hc as [Hc|Hc];
        [apply elem_of_app in Hc as [Hc|Hc]|];
        [apply elem_of_app in Hc as [Hc|Hc]| |]; [by apply Q in Hc|..];
        by apply list_elem_of_singleton in Hc.
    + intros e' _. repeat (split; [done|]). by exists cmd.
  - split.
    + intros _.
      destruct (dict_item (task (context item)) "id") as [id|e]; cbn;
        (split; [done|]); (split; [done|]); (split; [set_solver|]);
        (split; [done|]).
      * by intros ? ?.
      * intros ? _. rewrite E. unfold updates. rewrite !filter_app.
        fold (updates evs). rewrite Hup. by cbn.
    + intros e [c Hc]. exfalso. revert Hc.
      destruct (dict_item (task (context item)) "id") as [id|e']; cbn;
        rewrite E; intros Hc;
        repeat (apply elem_of_app in Hc as [Hc|Hc]);
        try (by apply Q in Hc);
        by apply list_elem_of_singleton in Hc.
Qed.

Lemma shader_export_path_selection h fw item w path :
  (Shader.export_path h fw item w).1 = Ok path →
  ∃ obj sgs,
    properties w !! "object" = Some (PyStr obj)
    ∧ (Shader._get_shading_groups_from_object h obj).2 = Ok sgs
    ∧ selection (Shader.export_path h fw item w).2 = sgs.
Proof.
  unfold Shader.export_path. run_hook. unfold prop_set.
  destruct (properties w !! "path") as [[| | |p| | |]|] eqn:Ep; try done.
  run_hook. cbn [selection properties trace].
  rewrite lookup_insert_ne by (intros ?; discriminate).
  destruct (properties w !! "object") as [[| | |obj| | |]|] eqn:Eo; try done.
  run_hook. cbn [selection properties trace].
  destruct (Shader._get_shading_groups_from_object h obj) as [evs [sgs|e]]
    eqn:Esg; [|done].
  intros _. exists obj, sgs. by rewrite Esg.
Qed.

(** X12.  In both export hooks, once the export command has returned, the
    selection is put back to what it was when publish started and the base
    publish has run, whether or not the task can then be read; when the
    context has no task, publish ends in the TypeError of subscripting
    None, after the base publish and without any status update. *)
Theorem publish_after_returned_export
  (k : export_hook) (h : Host) (fw : Framework) (item : Maya.Item)
  (w : world) :
  trace w = [] →
  export_succeeded (trace (hook_publish k h fw item w).2) →
  selection (hook_publish k h fw item w).2 = selection w
  ∧ BasePublish ∈ trace (hook_publish k h fw item w).2
  ∧ (task (context item) = None →
     (hook_publish k h fw item w).1
     = Raise (TypeError "'NoneType' object is not subscriptable")
     ∧ updates (trace (hook_publish k h fw item w).2) = []).
Proof.
  intros Hw Hok.
  assert (∃ prelude announce outcome failure,
            hook_publish k h fw item w
            = export_then_report prelude announce outcome failure item w
            ∧ emits before_export prelude)
    as (prelude & announce & outcome & failure & Hshape & Hpre).
  { destruct k as [st|]; cbn [hook_publish].
    - do 4 eexists. split; [by rewrite geo_publish_shape|].
      apply geo_export_command_emits.
    - do 4 eexists. split; [by rewrite shader_publish_shape|].
      apply shader_export_path_emits. }
  rewrite Hshape in Hok |- *.
  destruct (export_then_report_outcomes prelude announce outcome failure
              item w Hpre Hw) as [H _].
  destruct (H Hok) as (Hsel & _ & Hbase & Hres & Hupd).
  split; [done|]. split; [done|]. intros Htask.
  rewrite Hres. rewrite Htask in Hupd |- *. cbn in *. split; [done|].
  by eapply Hupd.
Qed.

Lemma publish_after_returned_export_witness :
  selection (hook_publish ShaderHook Samples.scene Samples.framework
               (Samples.object_item MoreSamples.taskless_context)
               Samples.validated_world).2 = ["grp"]
  ∧ (hook_publish ShaderHook Samples.scene Samples.framework
       (Samples.object_item MoreSamples.taskless_context)
       Samples.validated_world).1
    = Raise (TypeError "'NoneType' object is not subscriptable").
Proof.
  destruct (publish_after_returned_export ShaderHook Samples.scene
              Samples.framework
              (Samples.object_item MoreSamples.taskless_context)
              Samples.validated_world) as (Hsel & _ & Htask);
    [reflexivity| |].
  { eexists. apply list_elem_of_In. vm_compute.
    do 7 right. left. reflexivity. }
  split; [exact Hsel|]. by apply Htask.
Defined.

(** X13.  When the shader hook's export command raises, publish returns
    normally and the selection is not put back: it is left on the shading
    groups of the object, which publish had selected for the export. *)
Theorem shader_failed_export_leaves_selection
  (h : Host) (fw : Framework) (item : Maya.Item) (w : world) (e : exn) :
  trace w = [] →
  export_raised (trace (Shader.publish h fw item w).2) e →
  (Shader.publish h fw item w).1 = Ok tt
  ∧ ∃ obj sgs,
      properties w !! "object" = Some (PyStr obj)
      ∧ (Shader._get_shading_groups_from_object h obj).2 = Ok sgs
      ∧ selection (Shader.publish h fw item w).2 = sgs.
Proof.
  intros Hw Hraised. rewrite shader_publish_shape in Hraised |- *.
  destruct (export_then_report_outcomes (Shader.export_path h fw item)
              (fun _ => "Executing shaders export command:") (file_export h)
              "Failed to export Shaders: " item w
              (shader_export_path_emits h fw item) Hw) as [_ H].
  destruct (H e Hraised) as (Hres & Hsel & _ & cmd & Hcmd).
  split; [done|]. rewrite Hsel.
  by apply (shader_export_path_selection h fw item w cmd).
Qed.

Lemma shader_failed_export_leaves_selection_witness :
  (Shader.publish Samples.failing_scene Samples.framework
     (Samples.object_item Samples.texture_context)
     Samples.validated_world).1 = Ok tt.
Proof.
  apply (shader_failed_export_leaves_selection Samples.failing_scene
           Samples.framework (Samples.object_item Samples.texture_context)
           Samples.validated_world (HostError "Maya command error"));
    [reflexivity|].
  eexists. apply list_elem_of_In. vm_compute.
  do 7 right. left. reflexivity.
Defined.

(** X14.  Publish reads the path that validate stored: on an item without
    a "path" property either hook raises KeyError at once, having created
    no folder, selected nothing and exported nothing. *)
Theorem publish_without_path
  (k : export_hook) (h : Host) (fw : Framework) (item : Maya.Item)
  (w : world) :
  properties w !! "path" = None →
  hook_publish k h fw item w = (Raise (KeyError "path"), w).
Proof.
  intros Hpath. destruct k as [st|]; cbn [hook_publish].
  - unfold ObjectGeo.publish, ObjectGeo.export_command. run_hook.
    by rewrite Hpath.
  - unfold Shader.publish, Shader.export_path. run_hook.
    by rewrite Hpath.
Qed.

Lemma publish_without_path_witness :
  hook_publish (GeometryHook Samples.geo_settings) Samples.scene
    Samples.framework (Samples.object_item Samples.layout_context)
    Samples.collected_world
  = (Raise (KeyError "path"), Samples.collected_world).
Proof.
  apply (publish_without_path (GeometryHook Samples.geo_settings)
           Samples.scene Samples.framework
           (Samples.object_item Samples.layout_context)
           Samples.collected_world).
  reflexivity.
Defined.

(* ================================================================== *)
(** ** upload_version.py: accept                                       *)
(* ================================================================== *)

(** X15.  The upload hook's accept never answers: its first statement calls
    [_session_path], a name upload_version.py neither defines nor imports,
    so for every item and every setting it raises NameError, with nothing
    logged and the item's properties untouched. *)
Theorem upload_accept_name_error
  (file_extension : string -> string) (settings : gmap string pyval)
  (item : UploadVersion.Item) (w : world) :
  UploadAccept.accept file_extension settings item w
  = (Raise (NameError "_session_path"), w)
  ∧ resolve UploadVersion.module_globals "_session_path"
    = Raise (NameError "_session_path")
  ∧ resolve ObjectGeo.module_globals "_session_path" = Ok tt.
Proof. done. Qed.

(* ================================================================== *)
(** ** updateConfig.py without its variables                           *)
(* ================================================================== *)

(** X16.  [main] returns exactly when UPDATECONFIGKEY, BRANCH and NEWCODE
    are all set.  Otherwise it raises the KeyError of the first of them, in
    that order, that is missing, and has written nothing; it has connected
    to the server unless the missing one is the key. *)
Theorem update_config_missing_variable (environ : gmap string string) :
  ((UpdateConfig.main environ).2 = Ok tt
   ↔ is_Some (environ !! "UPDATECONFIGKEY")
     ∧ is_Some (environ !! "BRANCH") ∧ is_Some (environ !! "NEWCODE"))
  ∧ ∀ e, (UpdateConfig.main environ).2 = Raise e →
         UpdateConfig.writes (UpdateConfig.main environ).1 = []
         ∧ ∃ before name after,
             ["UPDATECONFIGKEY"; "BRANCH"; "NEWCODE"]
             = before ++ name :: after
             ∧ e = KeyError name
             ∧ environ !! name = None
             ∧ Forall (fun n => is_Some (environ !! n)) before
             ∧ length (UpdateConfig.main environ).1
               = (if decide (name = "UPDATECONFIGKEY") then 0 else 1)%nat.
Proof.
  unfold UpdateConfig.main, UpdateConfig.environ_item.
  destruct (environ !! "UPDATECONFIGKEY") as [key|] eqn:Hk.
  2:{ split.
      - split; [done|]. by intros [[] _].
      - intros e [= <-]. split; [done|].
        exists [], "UPDATECONFIGKEY", ["BRANCH"; "NEWCODE"].
        repeat split; done. }
  destruct (environ !! "BRANCH") as [branch|] eqn:Hb.
  2:{ split.
      - split; [done|]. by intros (_ & [] & _).
      - intros e [= <-]. split; [done|].
        exists ["UPDATECONFIGKEY"], "BRANCH", ["NEWCODE"].
        repeat split; try done. repeat constructor. by rewrite Hk. }
  destruct (environ !! "NEWCODE") as [newcode|] eqn:Hn.
  2:{ split.
      - split; [done|]. by intros (_ & _ & []).
      - intros e [= <-]. split; [done|].
        exists ["UPDATECONFIGKEY"; "BRANCH"], "NEWCODE", [].
        repeat split; try done. repeat constructor; by rewrite ?Hk, ?Hb. }
  split; [|done]. split; [|done]. intros _. by repeat split.
Qed.
